(** * Baichuan2 tensor-parallel weight loading: a shallow embedding

    Embedding of [vllm/model_executor/models/baichuan2.py]: the ALiBi slope
    table, the construction-time checks of the MLP and attention blocks and
    the checkpoint-to-shard routine [load_weights].

    Python integers are [Z]; [//] and [%] are [Z.div] and [Z.modulo] (both
    floor towards minus infinity, as Python does) guarded by an explicit
    [ZeroDivisionError].  A tensor is its metadata plus its elements in
    row-major order: every tensor the loader touches is contiguous (a
    checkpoint tensor, a [view] of one, a leading-dimension slice, or the
    result of [reshape], which copies).  Exceptions are values of [exn]
    carried by the [result] monad. *)

From Equations Require Import Equations.
From Stdlib Require Import ZArith QArith Lia.
From stdpp Require Import base numbers list strings gmap.

#[local] Set Warnings "-clear-no-such-hyp".
Local Open Scope Z_scope.

(** ** Exceptions and the result monad *)

Inductive exn : Type :=
  | KeyError (key : string)
  | AssertionError (msg : string)
  | ValueError (msg : string)
  | RuntimeError (msg : string)
  | IndexError (msg : string)
  | ZeroDivisionError
  | ExternalError (callee : string).

Inductive result (T : Type) : Type :=
  | Ok (v : T)
  | Raise (e : exn).
Arguments Ok {T} v.
Arguments Raise {T} e.

Definition result_bind {T U : Type} (f : T → result U) (r : result T) : result U :=
  match r with
  | Ok v => f v
  | Raise e => Raise e
  end.

#[global] Instance result_ret : MRet result := fun _ v => Ok v.
#[global] Instance result_mbind : MBind result := fun _ _ f r => result_bind f r.

Definition is_ok {T : Type} (r : result T) : Prop := ∃ v, r = Ok v.

(** An exception raised inside a callee whose body is outside this file. *)
Definition external {T : Type} (callee : string) (o : option T) : result T :=
  match o with
  | Some v => Ok v
  | None => Raise (ExternalError callee)
  end.

(** ** Python integers *)

Definition py_floordiv (a b : Z) : result Z :=
  if b =? 0 then Raise ZeroDivisionError else Ok (a / b).

Definition py_mod (a b : Z) : result Z :=
  if b =? 0 then Raise ZeroDivisionError else Ok (a `mod` b).

(** ** Python strings: [sub in s] and [s.replace(old, new)] *)

Fixpoint py_in (sub s : string) : bool :=
  String.prefix sub s ||
  match s with
  | EmptyString => false
  | String _ s' => py_in sub s'
  end.

(** Left-to-right replacement of the non-overlapping occurrences of a
    non-empty [old]; [skip] counts the characters of a match still to drop. *)
Fixpoint replace_from (old new : string) (skip : nat) (s : string) : string :=
  match s with
  | EmptyString => EmptyString
  | String c s' =>
      match skip with
      | S k => replace_from old new k s'
      | O =>
          if String.prefix old s
          then new +:+ replace_from old new (Nat.pred (String.length old)) s'
          else String c (replace_from old new 0 s')
      end
  end.

(** With an empty [old] Python inserts [new] before every character and at
    the end. *)
Fixpoint interleave_str (new s : string) : string :=
  match s with
  | EmptyString => new
  | String c s' => new +:+ String c (interleave_str new s')
  end.

Definition py_replace (s old new : string) : string :=
  match old with
  | EmptyString => interleave_str new s
  | String _ _ => replace_from old new 0 s
  end.

(** A slice bound brought into [0, n]: a negative one counts from the end. *)
Definition py_clamp (n : nat) (i : Z) : Z :=
  if i <? 0 then Z.max (i + Z.of_nat n) 0 else Z.min i (Z.of_nat n).

(** [slice(lo, hi).indices(n)] for step 1: start and length. *)
Definition py_slice_bounds (n : nat) (lo hi : Z) : nat * nat :=
  let start := py_clamp n lo in
  let stop := py_clamp n hi in
  (Z.to_nat start, Z.to_nat (stop - start)).

(** [l[lo:hi]] on a Python list *)
Definition py_list_slice {T : Type} (l : list T) (lo hi : Z) : list T :=
  let '(start, len) := py_slice_bounds (length l) lo hi in
  take len (drop start l).

(** [l[0::2]] *)
Fixpoint every_other {T : Type} (l : list T) : list T :=
  match l with
  | [] => []
  | x :: l' => x :: match l' with [] => [] | _ :: l'' => every_other l'' end
  end.

(** ** The ALiBi slope table

    The slopes are floating-point numbers; [Slope n i] stands for the value
    [start * ratio**i] with [start = ratio = 2**(-(2**-(log2(n) - 3)))] that
    [_get_interleave_power_of_2(n)] computes at index [i].  [math.log2] is
    taken exact on the integers: [log2_is_integer n] is
    [math.log2(n).is_integer()] and [Z.log2] is [math.floor(math.log2(n))]. *)

Inductive slope : Type := Slope (n : Z) (i : Z).

Definition log2_is_integer (n : Z) : bool := bool_decide (2 ^ Z.log2 n = n).

Definition _get_interleave_power_of_2 (n : Z) : list slope :=
  Slope n <$> seqZ 0 n.

(** The recursive call is on twice a power of two, where the test of the
    first branch succeeds. *)
Definition interleave_rank (n : Z) : nat :=
  if log2_is_integer n then 0%nat else 1%nat.

Definition inspect {T : Type} (x : T) : {y | x = y} := exist _ x eq_refl.

Equations? _get_interleave (n : Z) : result (list slope)
  by wf (interleave_rank n) lt :=
  _get_interleave n with inspect (0 <? n) := {
    | exist _ false _ => Raise (ValueError "math domain error")
    | exist _ true Hpos with inspect (log2_is_integer n) := {
      | exist _ true _ => Ok (_get_interleave_power_of_2 n)
      | exist _ false Hnp =>
          let closest_power_of_2 := 2 ^ Z.log2 n in
          rest ← _get_interleave (2 * closest_power_of_2);
          Ok (_get_interleave_power_of_2 closest_power_of_2 ++
              py_list_slice (every_other rest) 0 (n - closest_power_of_2)) } }.
Proof.
  subst closest_power_of_2. unfold interleave_rank. rewrite Hnp.
  enough (log2_is_integer (2 * 2 ^ Z.log2 n) = true) as -> by lia.
  apply bool_decide_eq_true.
  pose proof (Z.log2_nonneg n).
  rewrite <- Z.pow_succ_r by lia.
  rewrite Z.log2_pow2 by lia. done.
Qed.

Definition _get_alibi_slopes (total_num_heads : Z) : result (list slope) :=
  slopes ← _get_interleave total_num_heads;
  Ok slopes.

(** ** Tensors *)

Inductive dtype : Type := float16 | bfloat16 | float32 | float64.
Inductive device : Type := cpu | cuda (index : nat).

#[global] Instance dtype_eq_dec : EqDecision dtype.
Proof. solve_decision. Defined.
#[global] Instance device_eq_dec : EqDecision device.
Proof. solve_decision. Defined.

Record Tensor (A : Type) : Type := mkTensor {
  t_dtype : dtype;
  t_device : device;
  t_shape : list nat;
  t_data : list A;
}.
Arguments mkTensor {A} _ _ _ _.
Arguments t_dtype {A} _.
Arguments t_device {A} _.
Arguments t_shape {A} _.
Arguments t_data {A} _.

Definition numel (shape : list nat) : nat := foldr Nat.mul 1%nat shape.

(** The storage holds exactly the elements the shape announces. *)
Definition tensor_wf {A : Type} (t : Tensor A) : Prop :=
  length (t_data t) = numel (t_shape t).

(** Cut a storage into [k] consecutive blocks of [m] elements. *)
Fixpoint chunks {A : Type} (m k : nat) (l : list A) : list (list A) :=
  match k with
  | O => []
  | S k' => take m l :: chunks m k' (drop m l)
  end.

(** The sizes asked of [view] or [reshape]: at most one entry may be [-1],
    which is then inferred from the element count. *)
Definition known_dims (dims : list Z) : list Z := filter (λ d, d ≠ -1) dims.

Definition infer_shape (dims : list Z) (n : nat) : result (list nat) :=
  if bool_decide (Exists (λ d, d < -1) dims) then
    Raise (RuntimeError "invalid shape dimension")
  else
    let known := Z.to_nat (foldr Z.mul 1 (known_dims dims)) in
    match (length dims - length (known_dims dims))%nat with
    | O =>
        if bool_decide (known = n) then Ok (Z.to_nat <$> dims)
        else Raise (RuntimeError "shape is invalid for input size")
    | S O =>
        if bool_decide (known = 0%nat) then
          Raise (RuntimeError "cannot infer the unspecified dimension")
        else if bool_decide ((n `mod` known)%nat = 0%nat) then
          Ok ((λ d, if bool_decide (d = -1) then (n / known)%nat else Z.to_nat d) <$> dims)
        else Raise (RuntimeError "shape is invalid for input size")
    | S (S _) => Raise (RuntimeError "only one dimension can be inferred")
    end.

Section tensor_ops.
Context {A : Type}.

(** [t.view(dims)] and [t.reshape(dims)]: same elements, new shape. *)
Definition view (t : Tensor A) (dims : list Z) : result (Tensor A) :=
  shape ← infer_shape dims (length (t_data t));
  Ok (mkTensor (t_dtype t) (t_device t) shape (t_data t)).

Definition reshape (t : Tensor A) (dims : list Z) : result (Tensor A) :=
  view t dims.

(** [t.shape[0]] *)
Definition shape0 (t : Tensor A) : result Z :=
  match t_shape t with
  | [] => Raise (IndexError "tuple index out of range")
  | n :: _ => Ok (Z.of_nat n)
  end.

(** [t[lo:hi]] *)
Definition slice0 (t : Tensor A) (lo hi : Z) : result (Tensor A) :=
  match t_shape t with
  | [] => Raise (IndexError "slice() cannot be applied to a 0-dim tensor")
  | n :: rest =>
      let '(start, len) := py_slice_bounds n lo hi in
      let row := numel rest in
      Ok (mkTensor (t_dtype t) (t_device t) (len :: rest)
            (take (len * row) (drop (start * row) (t_data t))))
  end.

(** [t[:, lo:hi]], the trailing dimensions taken whole *)
Definition slice1 (t : Tensor A) (lo hi : Z) : result (Tensor A) :=
  match t_shape t with
  | d0 :: d1 :: rest =>
      let '(start, len) := py_slice_bounds d1 lo hi in
      let blk := numel rest in
      Ok (mkTensor (t_dtype t) (t_device t) (d0 :: len :: rest)
            (mjoin ((λ c, take (len * blk) (drop (start * blk) c))
                      <$> chunks (d1 * blk) d0 (t_data t))))
  | _ => Raise (IndexError "too many indices for tensor")
  end.

(** [t[:, lo:hi, :, :]]: four indices need at least four dimensions. *)
Definition slice1_4d (t : Tensor A) (lo hi : Z) : result (Tensor A) :=
  if bool_decide (4 ≤ length (t_shape t))%nat then slice1 t lo hi
  else Raise (IndexError "too many indices for tensor").
End tensor_ops.

(** ** What the loader takes from torch and from [weight_utils]

    [torch.nn.functional.normalize], the precision casts behind [.float()],
    [.half()] and [copy_], and the helpers imported from
    [vllm.model_executor.weight_utils] are not defined in this file of the
    repository; the loader is embedded over any implementation of them. *)

Class TorchOps (A : Type) : Type := {
  (** conversion of one element from a source to a target precision *)
  cast_elem : dtype → dtype → A → A;
  (** [torch.nn.functional.normalize(t)] with its defaults p = 2, dim = 1,
      eps = 1e-12: every vector [v] along dimension 1 becomes
      [v / max(norm_2(v), eps)]; [None] when torch raises *)
  F_normalize : Tensor A → option (Tensor A);
}.

Class WeightUtils (A : Type) : Type := {
  convert_pyslice_to_tensor : Tensor A → Tensor A;
  (** [load_padded_tensor_parallel_vocab(param, loaded_weight, tp_rank)]:
      the new contents of [param], or [None] when the helper raises *)
  load_padded_tensor_parallel_vocab :
    Tensor A → Tensor A → Z → option (Tensor A);
  (** [load_tensor_parallel_weights(param, loaded_weight, name,
      column_parallel_weights, row_parallel_weights, tp_rank)] *)
  load_tensor_parallel_weights :
    Tensor A → Tensor A → string → list string → list string → Z →
    option (Tensor A);
}.

Section casts.
Context {A : Type} `{!TorchOps A}.

Definition to_dtype (d : dtype) (t : Tensor A) : Tensor A :=
  if decide (t_dtype t = d) then t
  else mkTensor d (t_device t) (t_shape t) (cast_elem (t_dtype t) d <$> t_data t).

(** [t.float()] and [t.half()] *)
Definition tensor_float (t : Tensor A) : Tensor A := to_dtype float32 t.
Definition tensor_half (t : Tensor A) : Tensor A := to_dtype float16 t.

(** [param.data[lo:hi].copy_(src)] for a source of the slice's shape: the
    rows of the slice are overwritten in the storage of [param], the
    elements converted to the precision of [param]. *)
Definition copy_slice0 (param : Tensor A) (lo hi : Z) (src : Tensor A) : Tensor A :=
  match t_shape param with
  | [] => param
  | n :: rest =>
      let '(start, len) := py_slice_bounds n lo hi in
      let row := numel rest in
      mkTensor (t_dtype param) (t_device param) (t_shape param)
        (take (start * row) (t_data param)
         ++ t_data (to_dtype (t_dtype param) src)
         ++ drop ((start + len) * row) (t_data param))
  end.
End casts.

(** ** Configuration and partition descriptor *)

Record BaiChuanConfig : Type := mkConfig {
  hidden_size : Z;
  num_attention_heads : Z;
  intermediate_size : Z;
  hidden_act : string;
  num_hidden_layers : Z;
  vocab_size : Z;
  rms_norm_eps : Q;
}.

(** What [get_tensor_model_parallel_world_size()] and
    [get_tensor_model_parallel_rank()] return in this process. *)
Record Partition : Type := mkPartition {
  tp_world_size : Z;
  tp_rank : Z;
}.

Definition partition_wf (tp : Partition) : Prop :=
  1 ≤ tp_world_size tp ∧ 0 ≤ tp_rank tp < tp_world_size tp.

Definition enumerate {T : Type} (l : list T) : list (Z * T) :=
  imap (λ i x, (Z.of_nat i, x)) l.

(** ** [BaiChuanBaseForCausalLM.load_weights] *)

Definition norm_head_msg : string := "lm_head silently evades normalization".

Section load_weights.
Context {A : Type} `{!TorchOps A, !WeightUtils A}.

Definition _column_parallel_weights : list string := [].
Definition _row_parallel_weights : list string := ["o_proj.weight"; "down_proj.weight"].

(** [state_dict[key]] *)
Definition state_dict_get (state_dict : gmap string (Tensor A)) (key : string)
  : result (Tensor A) :=
  match state_dict !! key with
  | Some param => Ok param
  | None => Raise (KeyError key)
  end.

(** The body of [if "W_pack" in name:]. *)
Definition w_pack_shard (config : BaiChuanConfig) (tp : Partition)
    (loaded_weight : Tensor A) : result (Tensor A) :=
  let total_num_heads := num_attention_heads config in
  let hidden_size := hidden_size config in
  head_size ← py_floordiv hidden_size total_num_heads;
  num_heads ← py_floordiv total_num_heads (tp_world_size tp);
  let head_start := tp_rank tp * num_heads in
  let head_end := (tp_rank tp + 1) * num_heads in
  loaded_weight ← view loaded_weight [3; total_num_heads; head_size; hidden_size];
  loaded_weight ← slice1_4d loaded_weight head_start head_end;
  reshape loaded_weight [-1; hidden_size].

(** The loop over [enumerate(["gate_proj", "up_proj"])]: [Ok None] when no
    marker occurs in [name] ([is_gate_up_weight] stays false), otherwise
    the store after the copy. *)
Fixpoint gate_up_loop (items : list (Z * string)) (tp : Partition)
    (name : string) (loaded_weight : Tensor A)
    (state_dict : gmap string (Tensor A))
  : result (option (gmap string (Tensor A))) :=
  match items with
  | [] => Ok None
  | (stride_id, weight_name) :: items' =>
      if negb (py_in weight_name name) then
        gate_up_loop items' tp name loaded_weight state_dict
      else
        let key := py_replace name weight_name "gate_up_proj" in
        param ← state_dict_get state_dict key;
        dim0 ← shape0 param;
        let shard_size := dim0 / 2 in
        loaded_weight ← slice0 loaded_weight (shard_size * tp_rank tp)
                                             (shard_size * (tp_rank tp + 1));
        param_slice ← slice0 param (shard_size * stride_id)
                                   (shard_size * (stride_id + 1));
        if bool_decide (t_shape param_slice = t_shape loaded_weight) then
          Ok (Some (<[key := copy_slice0 param (shard_size * stride_id)
                               (shard_size * (stride_id + 1)) loaded_weight]>
                      state_dict))
        else Raise (AssertionError EmptyString)
  end.

(** The body of [if name == "lm_head.weight":]. *)
Definition normalize_head (loaded_weight : Tensor A) : result (Tensor A) :=
  if bool_decide (t_dtype loaded_weight = float16)
     && bool_decide (t_device loaded_weight = cpu)
  then
    normalized ← external "torch.nn.functional.normalize"
                   (F_normalize (tensor_float loaded_weight));
    Ok (tensor_half normalized)
  else
    external "torch.nn.functional.normalize" (F_normalize loaded_weight).

(** One iteration of the loop over the checkpoint stream; the state is
    the parameter store and [has_norm_head]. *)
Definition process_entry (config : BaiChuanConfig) (tp : Partition)
    (st : gmap string (Tensor A) * bool) (entry : string * Tensor A)
  : result (gmap string (Tensor A) * bool) :=
  let '(state_dict, has_norm_head) := st in
  let '(name, loaded_weight) := entry in
  if py_in "rotary_emb.inv_freq" name then Ok st
  else
    let loaded_weight := convert_pyslice_to_tensor loaded_weight in
    loaded_weight ←
      (if py_in "W_pack" name then w_pack_shard config tp loaded_weight
       else Ok loaded_weight);
    gate_up ← gate_up_loop (enumerate ["gate_proj"; "up_proj"]) tp name
                loaded_weight state_dict;
    match gate_up with
    | Some state_dict' => Ok (state_dict', has_norm_head)
    | None =>
        param ← state_dict_get state_dict name;
        '(loaded_weight, has_norm_head) ←
          (if bool_decide (name = "lm_head.weight") then
             normalized ← normalize_head loaded_weight;
             Ok (normalized, true)
           else Ok (loaded_weight, has_norm_head));
        if py_in "embed_tokens" name || py_in "lm_head" name then
          param' ← external "load_padded_tensor_parallel_vocab"
                     (load_padded_tensor_parallel_vocab param loaded_weight
                        (tp_rank tp));
          Ok (<[name := param']> state_dict, has_norm_head)
        else
          param' ← external "load_tensor_parallel_weights"
                     (load_tensor_parallel_weights param loaded_weight name
                        _column_parallel_weights _row_parallel_weights
                        (tp_rank tp));
          Ok (<[name := param']> state_dict, has_norm_head)
    end.

(** The [for] loop over what [hf_model_weights_iterator] yields. *)
Fixpoint load_entries (config : BaiChuanConfig) (tp : Partition)
    (stream : list (string * Tensor A)) (st : gmap string (Tensor A) * bool)
  : result (gmap string (Tensor A) * bool) :=
  match stream with
  | [] => Ok st
  | entry :: stream' =>
      st' ← process_entry config tp st entry;
      load_entries config tp stream' st'
  end.

Definition load_weights (config : BaiChuanConfig) (tp : Partition)
    (state_dict : gmap string (Tensor A)) (stream : list (string * Tensor A))
  : result (gmap string (Tensor A)) :=
  '(state_dict', has_norm_head) ← load_entries config tp stream (state_dict, false);
  if has_norm_head : bool then Ok state_dict'
  else Raise (AssertionError norm_head_msg).
End load_weights.

(** ** Model construction

    The parallel layers, the paged-attention operators, [RMSNorm] and
    [Sampler] are built by constructors imported from other modules; a
    constructor returns the constructed object, or [None] when it raises. *)

Inductive scaling : Type := InvSqrt (head_dim : Z).

Class Layers : Type := {
  Module : Type;
  (** [ColumnParallelLinear(input_size, output_size, bias, gather_output)] *)
  ColumnParallelLinear : Z → Z → bool → bool → Partition → option Module;
  (** [RowParallelLinear(input_size, output_size, bias, input_is_parallel)] *)
  RowParallelLinear : Z → Z → bool → bool → Partition → option Module;
  VocabParallelEmbedding : Z → Z → Partition → option Module;
  RMSNorm : Z → Q → option Module;
  Sampler : Z → option Module;
  SiluAndMul : option Module;
  PagedAttentionWithALiBi : Z → Z → scaling → list slope → option Module;
  (** [PagedAttentionWithRoPE(num_heads, head_size, scale, rotary_dim)] *)
  PagedAttentionWithRoPE : Z → Z → scaling → Z → option Module;
}.

Section construction.
Context `{!Layers}.

Record MLP : Type := mkMLP {
  gate_up_proj : Module;
  down_proj : Module;
  act_fn : Module;
}.

Definition unsupported_activation (hidden_act : string) : string :=
  "Unsupported activation: " +:+ hidden_act +:+ ". Only silu is supported for now.".

(** [MLP.__init__] *)
Definition MLP_init (tp : Partition) (hidden_size intermediate_size : Z)
    (hidden_act : string) : result MLP :=
  gate_up_proj ← external "ColumnParallelLinear"
    (ColumnParallelLinear hidden_size (2 * intermediate_size) false false tp);
  down_proj ← external "RowParallelLinear"
    (RowParallelLinear intermediate_size hidden_size false true tp);
  if bool_decide (hidden_act ≠ "silu") then
    Raise (ValueError (unsupported_activation hidden_act))
  else
    act_fn ← external "SiluAndMul" SiluAndMul;
    Ok (mkMLP gate_up_proj down_proj act_fn).

Record BaichuanAttention : Type := mkAttention {
  attn_hidden_size : Z;
  total_num_heads : Z;
  num_heads : Z;
  head_dim : Z;
  postion_embedding : string;
  W_pack : Module;
  o_proj : Module;
  attn : Module;
}.

(** [head_dim**-0.5]: Python refuses a zero base. *)
Definition inv_sqrt (head_dim : Z) : result scaling :=
  if head_dim =? 0 then Raise ZeroDivisionError else Ok (InvSqrt head_dim).

(** [BaichuanAttention.__init__] *)
Definition BaichuanAttention_init (tp : Partition) (hidden_size num_heads : Z)
    (position_embedding : string) : result BaichuanAttention :=
  let tensor_model_parallel_world_size := tp_world_size tp in
  let total_num_heads := num_heads in
  remainder ← py_mod total_num_heads tensor_model_parallel_world_size;
  if negb (remainder =? 0) then Raise (AssertionError EmptyString)
  else
    num_heads ← py_floordiv total_num_heads tensor_model_parallel_world_size;
    head_dim ← py_floordiv hidden_size total_num_heads;
    W_pack ← external "ColumnParallelLinear"
      (ColumnParallelLinear hidden_size (3 * hidden_size) false false tp);
    o_proj ← external "RowParallelLinear"
      (RowParallelLinear (total_num_heads * head_dim) hidden_size false true tp);
    if bool_decide (position_embedding = "ALIBI") then
      let head_start := tp_rank tp * num_heads in
      let head_end := (tp_rank tp + 1) * num_heads in
      alibi_slopes ← _get_alibi_slopes total_num_heads;
      let alibi_slopes := py_list_slice alibi_slopes head_start head_end in
      scaling ← inv_sqrt head_dim;
      attn ← external "PagedAttentionWithALiBi"
        (PagedAttentionWithALiBi num_heads head_dim scaling alibi_slopes);
      Ok (mkAttention hidden_size total_num_heads num_heads head_dim
            position_embedding W_pack o_proj attn)
    else
      scaling ← inv_sqrt head_dim;
      attn ← external "PagedAttentionWithRoPE"
        (PagedAttentionWithRoPE num_heads head_dim scaling head_dim);
      Ok (mkAttention hidden_size total_num_heads num_heads head_dim
            position_embedding W_pack o_proj attn).

Record BaichuanLayer : Type := mkLayer {
  self_attn : BaichuanAttention;
  mlp : MLP;
  input_layernorm : Module;
  post_attention_layernorm : Module;
}.

(** [BaichuanLayer.__init__] *)
Definition BaichuanLayer_init (tp : Partition) (config : BaiChuanConfig)
    (position_embedding : string) : result BaichuanLayer :=
  self_attn ← BaichuanAttention_init tp (hidden_size config)
                (num_attention_heads config) position_embedding;
  mlp ← MLP_init tp (hidden_size config) (intermediate_size config)
          (hidden_act config);
  input_layernorm ← external "RMSNorm"
    (RMSNorm (hidden_size config) (rms_norm_eps config));
  post_attention_layernorm ← external "RMSNorm"
    (RMSNorm (hidden_size config) (rms_norm_eps config));
  Ok (mkLayer self_attn mlp input_layernorm post_attention_layernorm).

Record BaichuanModel : Type := mkModel {
  embed_tokens : Module;
  layers : list BaichuanLayer;
  norm : Module;
}.

(** [[BaichuanLayer(config, position_embedding) for _ in range(k)]] *)
Fixpoint build_layers (tp : Partition) (config : BaiChuanConfig)
    (position_embedding : string) (indices : list Z)
  : result (list BaichuanLayer) :=
  match indices with
  | [] => Ok []
  | _ :: indices' =>
      layer ← BaichuanLayer_init tp config position_embedding;
      layers ← build_layers tp config position_embedding indices';
      Ok (layer :: layers)
  end.

(** [BaichuanModel.__init__] *)
Definition BaichuanModel_init (tp : Partition) (config : BaiChuanConfig)
    (position_embedding : string) : result BaichuanModel :=
  embed_tokens ← external "VocabParallelEmbedding"
    (VocabParallelEmbedding (vocab_size config) (hidden_size config) tp);
  layers ← build_layers tp config position_embedding
             (seqZ 0 (num_hidden_layers config));
  norm ← external "RMSNorm"
    (RMSNorm (hidden_size config) (rms_norm_eps config));
  Ok (mkModel embed_tokens layers norm).

Record BaiChuanBaseForCausalLM : Type := mkCausalLM {
  lm_config : BaiChuanConfig;
  model : BaichuanModel;
  lm_head : Module;
  sampler : Module;
}.

(** [BaiChuanBaseForCausalLM.__init__]; [Baichuan2ForCausalLM] passes
    ["ALIBI"] and [BaiChuan2ForCausalLM] passes ["ROPE"]. *)
Definition BaiChuanBaseForCausalLM_init (tp : Partition)
    (config : BaiChuanConfig) (position_embedding : string)
  : result BaiChuanBaseForCausalLM :=
  model ← BaichuanModel_init tp config position_embedding;
  lm_head ← external "ColumnParallelLinear"
    (ColumnParallelLinear (hidden_size config) (vocab_size config) false false tp);
  sampler ← external "Sampler" (Sampler (vocab_size config));
  Ok (mkCausalLM config model lm_head sampler).

Definition Baichuan2ForCausalLM_init (tp : Partition) (config : BaiChuanConfig)
  : result BaiChuanBaseForCausalLM :=
  BaiChuanBaseForCausalLM_init tp config "ALIBI".

Definition BaiChuan2ForCausalLM_init (tp : Partition) (config : BaiChuanConfig)
  : result BaiChuanBaseForCausalLM :=
  BaiChuanBaseForCausalLM_init tp config "ROPE".
End construction.

(** ** The forward pass *)

(** Calling a layer runs kernels of torch and of other parts of the
    repository on the device.  [World] is the device state these read and
    write, the paged key/value cache among it; a call gives [None] when it
    raises. *)
Class Runtime `{!Layers} : Type := {
  (** [torch.Tensor] on the device *)
  Activation : Type;
  InputMetadata : Type;
  Event : Type;
  SamplerOutput : Type;
  World : Type;
  (** [output, _ = linear(x)] for the two parallel linear layers *)
  linear_call : Module → Activation → World → option (Activation * World);
  (** [module(x)] for [RMSNorm], [SiluAndMul], [VocabParallelEmbedding] *)
  module_call : Module → Activation → World → option (Activation * World);
  (** [q, k, v = qkv.chunk(chunks=3, dim=-1)] *)
  chunk3 : Activation → option (Activation * Activation * Activation);
  (** [residual + hidden_states] *)
  tensor_add : Activation → Activation → option Activation;
  (** [attn(q, k, v, k_cache, v_cache, input_metadata, cache_event)] *)
  alibi_call :
    Module → Activation → Activation → Activation → Activation → Activation →
    InputMetadata → option Event → World → option (Activation * World);
  (** [attn(positions, q, k, v, k_cache, v_cache, input_metadata,
      cache_event)] *)
  rope_call :
    Module → Activation → Activation → Activation → Activation → Activation →
    Activation → InputMetadata → option Event → World →
    option (Activation * World);
  (** [lm_head.weight] *)
  weight : Module → Activation;
  (** [sampler(lm_head.weight, hidden_states, input_metadata)] *)
  sampler_call :
    Module → Activation → Activation → InputMetadata → World →
    option (SamplerOutput * World);
}.

(** [l[i]] for an index that is not negative *)
Definition py_list_index {T : Type} (l : list T) (i : nat) : result T :=
  match l !! i with
  | Some x => Ok x
  | None => Raise (IndexError "list index out of range")
  end.

Section forward.
Context `{!Layers, !Runtime}.

(** [MLP.forward] *)
Definition MLP_forward (self : MLP) (x : Activation) (world : World)
  : result (Activation * World) :=
  '(gate_up, world) ← external "ColumnParallelLinear.forward"
                        (linear_call (gate_up_proj self) x world);
  '(x, world) ← external "SiluAndMul.forward"
                  (module_call (act_fn self) gate_up world);
  '(x, world) ← external "RowParallelLinear.forward"
                  (linear_call (down_proj self) x world);
  Ok (x, world).

(** [BaichuanAttention.forward] *)
Definition BaichuanAttention_forward (self : BaichuanAttention)
    (positions hidden_states : Activation) (kv_cache : Activation * Activation)
    (input_metadata : InputMetadata) (cache_event : option Event)
    (world : World) : result (Activation * World) :=
  '(qkv, world) ← external "ColumnParallelLinear.forward"
                    (linear_call (W_pack self) hidden_states world);
  '(q, k, v) ← external "torch.Tensor.chunk" (chunk3 qkv);
  let '(k_cache, v_cache) := kv_cache in
  '(attn_output, world) ←
    (if bool_decide (postion_embedding self = "ALIBI") then
       external "PagedAttentionWithALiBi.forward"
         (alibi_call (attn self) q k v k_cache v_cache input_metadata
            cache_event world)
     else
       external "PagedAttentionWithRoPE.forward"
         (rope_call (attn self) positions q k v k_cache v_cache input_metadata
            cache_event world));
  '(output, world) ← external "RowParallelLinear.forward"
                       (linear_call (o_proj self) attn_output world);
  Ok (output, world).

(** [BaichuanLayer.forward] *)
Definition BaichuanLayer_forward (self : BaichuanLayer)
    (positions hidden_states : Activation) (kv_cache : Activation * Activation)
    (input_metadata : InputMetadata) (cache_event : option Event)
    (world : World) : result (Activation * World) :=
  let residual := hidden_states in
  '(hidden_states, world) ← external "RMSNorm.forward"
    (module_call (input_layernorm self) hidden_states world);
  '(hidden_states, world) ←
    BaichuanAttention_forward (self_attn self) positions hidden_states
      kv_cache input_metadata cache_event world;
  hidden_states ← external "torch.add" (tensor_add residual hidden_states);
  let residual := hidden_states in
  '(hidden_states, world) ← external "RMSNorm.forward"
    (module_call (post_attention_layernorm self) hidden_states world);
  '(hidden_states, world) ← MLP_forward (mlp self) hidden_states world;
  hidden_states ← external "torch.add" (tensor_add residual hidden_states);
  Ok (hidden_states, world).

(** The body of [for i in range(len(self.layers)):] in
    [BaichuanModel.forward], over the indices still to come. *)
Fixpoint layers_loop (indices : list nat) (self : BaichuanModel)
    (positions hidden_states : Activation)
    (kv_caches : list (Activation * Activation))
    (input_metadata : InputMetadata) (cache_events : option (list Event))
    (world : World) : result (Activation * World) :=
  match indices with
  | [] => Ok (hidden_states, world)
  | i :: indices' =>
      cache_event ←
        match cache_events with
        | None => Ok None
        | Some cache_events =>
            cache_event ← py_list_index cache_events i; Ok (Some cache_event)
        end;
      layer ← py_list_index (layers self) i;
      kv_cache ← py_list_index kv_caches i;
      '(hidden_states, world) ←
        BaichuanLayer_forward layer positions hidden_states kv_cache
          input_metadata cache_event world;
      layers_loop indices' self positions hidden_states kv_caches
        input_metadata cache_events world
  end.

(** [BaichuanModel.forward] *)
Definition BaichuanModel_forward (self : BaichuanModel)
    (input_ids positions : Activation)
    (kv_caches : list (Activation * Activation))
    (input_metadata : InputMetadata) (cache_events : option (list Event))
    (world : World) : result (Activation * World) :=
  '(hidden_states, world) ← external "VocabParallelEmbedding.forward"
    (module_call (embed_tokens self) input_ids world);
  '(hidden_states, world) ←
    layers_loop (seq 0 (length (layers self))) self positions hidden_states
      kv_caches input_metadata cache_events world;
  '(hidden_states, world) ← external "RMSNorm.forward"
    (module_call (norm self) hidden_states world);
  Ok (hidden_states, world).

(** [BaiChuanBaseForCausalLM.forward] *)
Definition BaiChuanBaseForCausalLM_forward (self : BaiChuanBaseForCausalLM)
    (input_ids positions : Activation)
    (kv_caches : list (Activation * Activation))
    (input_metadata : InputMetadata) (cache_events : option (list Event))
    (world : World) : result (SamplerOutput * World) :=
  '(hidden_states, world) ←
    BaichuanModel_forward (model self) input_ids positions kv_caches
      input_metadata cache_events world;
  '(next_tokens, world) ← external "Sampler.forward"
    (sampler_call (sampler self) (weight (lm_head self)) hidden_states
       input_metadata world);
  Ok (next_tokens, world).
End forward.

(** ** Reference implementations of the imported operations *)

(** The free interpretation of the torch numerics: an element is the term
    of the operations applied to a checkpoint value, so that two results
    are equal exactly when the same operations were applied in the same
    order. *)
Inductive sym : Type :=
  | Src (i : Z)
  | Cast (from to : dtype) (x : sym)
  | Normalized (x : sym).

#[global] Instance sym_eq_dec : EqDecision sym.
Proof. solve_decision. Defined.

#[global] Instance sym_ops : TorchOps sym := {|
  cast_elem := Cast;
  F_normalize t :=
    if bool_decide (length (t_shape t) < 2)%nat then None
    else Some (mkTensor (t_dtype t) (t_device t) (t_shape t) (Normalized <$> t_data t));
|}.

Section spec_weight_utils.
Context {A : Type} `{!TorchOps A}.

(** Modelled from the spec: [load_padded_tensor_parallel_vocab] of
    [vllm.model_executor.weight_utils] (rule 5 of the loader): the rows
    of the rank-owned slice, whose bounds come from the destination's
    (padded) row count, are written to the leading rows of the
    destination; the remaining padding rows keep their value. *)
Definition spec_load_padded_tensor_parallel_vocab
    (param loaded_weight : Tensor A) (tp_rank : Z) : option (Tensor A) :=
  match t_shape param with
  | [] => None
  | n :: rest =>
      let shard_size := Z.of_nat n in
      match slice0 loaded_weight (tp_rank * shard_size) ((tp_rank + 1) * shard_size) with
      | Ok rows =>
          match t_shape rows with
          | len :: rest' =>
              if bool_decide (rest' = rest)
              then Some (copy_slice0 param 0 (Z.of_nat len) rows)
              else None
          | [] => None
          end
      | Raise _ => None
      end
  end.

(** Modelled from the spec: [load_tensor_parallel_weights] of
    [vllm.model_executor.weight_utils] (rule 6 of the loader): a name
    carrying a column marker is sliced along the output dimension, one
    carrying a row marker along the input dimension, at offset
    [shard_size * rank]; the shard size is the destination's own extent
    (the full extent divided by the world size), which is what makes the
    required equality of shapes possible; any other name is loaded
    whole.  A shape mismatch is fatal. *)
Definition spec_load_tensor_parallel_weights
    (param loaded_weight : Tensor A) (name : string)
    (column_parallel_weights row_parallel_weights : list string)
    (tp_rank : Z) : option (Tensor A) :=
  let sliced :=
    if existsb (λ p, py_in p name) column_parallel_weights then
      match t_shape param with
      | n :: _ => slice0 loaded_weight (tp_rank * Z.of_nat n) ((tp_rank + 1) * Z.of_nat n)
      | [] => Raise (IndexError "tuple index out of range")
      end
    else if existsb (λ p, py_in p name) row_parallel_weights then
      match t_shape param with
      | _ :: m :: _ => slice1 loaded_weight (tp_rank * Z.of_nat m) ((tp_rank + 1) * Z.of_nat m)
      | _ => Raise (IndexError "tuple index out of range")
      end
    else Ok loaded_weight in
  match sliced with
  | Ok w =>
      if bool_decide (t_shape w = t_shape param)
      then Some (mkTensor (t_dtype param) (t_device param) (t_shape param)
                   (t_data (to_dtype (t_dtype param) w)))
      else None
  | Raise _ => None
  end.

#[global] Instance spec_weight_utils : WeightUtils A := {|
  convert_pyslice_to_tensor t := t;
  load_padded_tensor_parallel_vocab := spec_load_padded_tensor_parallel_vocab;
  load_tensor_parallel_weights := spec_load_tensor_parallel_weights;
|}.
End spec_weight_utils.

(** Modelled from the spec: the layer constructors of
    [vllm.model_executor.parallel_utils.layers] and
    [vllm.model_executor.layers] (the model graph that owns the parameter
    store is an external collaborator): an object records the arguments
    it was built from. *)
Inductive layer_obj : Type :=
  | ColumnLinear (input_size output_size : Z) (bias gather_output : bool)
  | RowLinear (input_size output_size : Z) (bias input_is_parallel : bool)
  | VocabEmbedding (num_embeddings embedding_dim : Z)
  | RMSNormObj (hidden_size : Z) (eps : Q)
  | SamplerObj (vocab_size : Z)
  | SiluAndMulObj
  | ALiBiAttention (num_heads head_dim : Z) (scale : scaling) (alibi_slopes : list slope)
  | RoPEAttention (num_heads head_size : Z) (scale : scaling) (rotary_dim : Z).

#[global] Instance spec_layers : Layers := {|
  Module := layer_obj;
  ColumnParallelLinear i o b g _ := Some (ColumnLinear i o b g);
  RowParallelLinear i o b p _ := Some (RowLinear i o b p);
  VocabParallelEmbedding n d _ := Some (VocabEmbedding n d);
  RMSNorm h eps := Some (RMSNormObj h eps);
  Sampler v := Some (SamplerObj v);
  SiluAndMul := Some SiluAndMulObj;
  PagedAttentionWithALiBi n d s slopes := Some (ALiBiAttention n d s slopes);
  PagedAttentionWithRoPE n d s r := Some (RoPEAttention n d s r);
|}.

(** A runtime whose calls all succeed and change nothing: activations are
    the names of what was computed. *)
Definition trace_runtime `{!Layers} : Runtime := {|
  Activation := list string;
  InputMetadata := unit;
  Event := unit;
  SamplerOutput := list string;
  World := unit;
  linear_call _ x w := Some ("linear" :: x, w);
  module_call _ x w := Some ("module" :: x, w);
  chunk3 x := Some ("q" :: x, "k" :: x, "v" :: x);
  tensor_add x y := Some (x ++ y);
  alibi_call _ q k v _ _ _ _ w := Some ("alibi" :: q ++ k ++ v, w);
  rope_call _ positions q k v _ _ _ _ w :=
    Some ("rope" :: positions ++ q ++ k ++ v, w);
  weight _ := ["weight"];
  sampler_call _ wt x _ w := Some ("sample" :: wt ++ x, w);
|}.

(** A checkpoint tensor whose elements are named by their position. *)
Definition src_tensor (d : dtype) (dev : device) (shape : list nat) : Tensor sym :=
  mkTensor d dev shape (Src <$> seqZ 0 (Z.of_nat (numel shape))).

(** A freshly allocated destination, every element [Src (-1)]. *)
Definition fresh_param (d : dtype) (dev : device) (shape : list nat) : Tensor sym :=
  mkTensor d dev shape (replicate (numel shape) (Src (-1))).

(** ** Vocabulary of the properties *)

(** The exceptions a single entry can raise: every one but the final
    assertion of [load_weights]. *)
Definition entry_error (e : exn) : Prop := e ≠ AssertionError norm_head_msg.

(** Row-major offset of the element [i0, i1, i2, i3] of a tensor of shape
    [_, d1, d2, d3]. *)
Definition flat_index4 (d1 d2 d3 i0 i1 i2 i3 : nat) : nat :=
  (((i0 * d1 + i1) * d2 + i2) * d3 + i3)%nat.

(** The marker of the fused destination carried by a name and its ordinal:
    the loop tries "gate_proj" first. *)
Definition gate_up_case (name : string) (stride_id : Z) (weight_name : string)
  : Prop :=
  (py_in "gate_proj" name = true ∧ stride_id = 0 ∧ weight_name = "gate_proj")
  ∨ (py_in "gate_proj" name = false ∧ py_in "up_proj" name = true
     ∧ stride_id = 1 ∧ weight_name = "up_proj").

Section rows.
Context {A : Type} `{!TorchOps A}.

(** [param] with its rows [start, start + len) replaced by [rows], the
    elements converted to the precision of [param]. *)
Definition overwrite_rows (param : Tensor A) (start len : nat)
    (rows : Tensor A) : Tensor A :=
  let row := numel (tail (t_shape param)) in
  mkTensor (t_dtype param) (t_device param) (t_shape param)
    (take (start * row) (t_data param)
     ++ t_data (to_dtype (t_dtype param) rows)
     ++ drop ((start + len) * row) (t_data param)).

(** The rows [lo, lo + len) of a tensor, as a tensor. *)
Definition rows_of (t : Tensor A) (lo len : nat) : Tensor A :=
  let row := numel (tail (t_shape t)) in
  mkTensor (t_dtype t) (t_device t) (len :: tail (t_shape t))
    (take (len * row) (drop (lo * row) (t_data t))).

End rows.

(** The head normalisation as the specification words it: elevated
    precision whenever the tensor is float16, wherever it resides. *)
Definition spec_normalize_head {A : Type} `{!TorchOps A} (loaded_weight : Tensor A)
  : result (Tensor A) :=
  if bool_decide (t_dtype loaded_weight = float16) then
    normalized ← external "torch.nn.functional.normalize"
                   (F_normalize (tensor_float loaded_weight));
    Ok (tensor_half normalized)
  else external "torch.nn.functional.normalize" (F_normalize loaded_weight).

Definition scenario_config : BaiChuanConfig :=
  mkConfig 32 4 16 "silu" 1 64 (Qmake 1 1000000).

Definition w_pack_name : string := "model.layers.0.self_attn.W_pack.weight".
Definition up_name : string := "model.layers.0.mlp.up_proj.weight".
Definition gate_up_name : string := "model.layers.0.mlp.gate_up_proj.weight".
Definition inv_freq_name : string := "model.layers.0.self_attn.rotary_emb.inv_freq".

(** The table in closed form: the slopes of the closest power of two, then
    every other slope of the doubled table. *)
Definition interleave_table (n : Z) : list slope :=
  if log2_is_integer n then Slope n <$> seqZ 0 n
  else
    let c := 2 ^ Z.log2 n in
    (Slope c <$> seqZ 0 c) ++ ((λ i, Slope (2 * c) (2 * i)) <$> seqZ 0 (n - c)).

(** The entries of the store an entry of the stream may write to. *)
Definition entry_targets (name : string) : list string :=
  [name; py_replace name "gate_proj" "gate_up_proj";
   py_replace name "up_proj" "gate_up_proj"].

(** [old] occurs in [p +:+ rest] at a position inside [p]. *)
Fixpoint occurs_within (old p rest : string) : bool :=
  match p with
  | EmptyString => false
  | String c p' => String.prefix old (p +:+ rest) || occurs_within old p' rest
  end.

Section forward_vocabulary.
Context `{!Layers, !Runtime}.

(** The cache list, and the event list when there is one, have an entry
    for each of the first [n] layers. *)
Definition caches_cover (n : nat) (kv_caches : list (Activation * Activation))
    (cache_events : option (list Event)) : Prop :=
  (n ≤ length kv_caches)%nat
  ∧ ∀ evs, cache_events = Some evs → (n ≤ length evs)%nat.
End forward_vocabulary.

Definition gate_name : string := "model.layers.0.mlp.gate_proj.weight".

(** The 7b variant of [scenario_config] on rank 0 of 2, as its constructor
    builds it from the reference layers. *)
Definition scenario_layer : @BaichuanLayer spec_layers :=
  mkLayer
    (mkAttention 32 4 2 8 "ROPE" (ColumnLinear 32 96 false false)
       (RowLinear 32 32 false true) (RoPEAttention 2 8 (InvSqrt 8) 8))
    (mkMLP (ColumnLinear 32 32 false false) (RowLinear 16 32 false true)
       SiluAndMulObj)
    (RMSNormObj 32 (Qmake 1 1000000)) (RMSNormObj 32 (Qmake 1 1000000)).

Definition scenario_model : @BaiChuanBaseForCausalLM spec_layers :=
  mkCausalLM scenario_config
    (mkModel (VocabEmbedding 64 32) [scenario_layer]
       (RMSNormObj 32 (Qmake 1 1000000)))
    (ColumnLinear 32 64 false false) (SamplerObj 64).

(** The 13b variant, whose attention takes the slopes of rank 0. *)
Definition scenario_model_alibi : @BaiChuanBaseForCausalLM spec_layers :=
  mkCausalLM scenario_config
    (mkModel (VocabEmbedding 64 32)
       [mkLayer
          (mkAttention 32 4 2 8 "ALIBI" (ColumnLinear 32 96 false false)
             (RowLinear 32 32 false true)
             (ALiBiAttention 2 8 (InvSqrt 8) [Slope 4 0; Slope 4 1]))
          (mkMLP (ColumnLinear 32 32 false false) (RowLinear 16 32 false true)
             SiluAndMulObj)
          (RMSNormObj 32 (Qmake 1 1000000)) (RMSNormObj 32 (Qmake 1 1000000))]
       (RMSNormObj 32 (Qmake 1 1000000)))
    (ColumnLinear 32 64 false false) (SamplerObj 64).

(** * Properties *)

(** ** The result monad *)

Lemma bind_Ok_inv {T U : Type} (f : T → result U) (r : result T) (u : U) :
  r ≫= f = Ok u → ∃ v, r = Ok v ∧ f v = Ok u.
Proof. destruct r as [v|e]; intros Hr; [eauto | discriminate Hr]. Qed.

Lemma bind_Raise_inv {T U : Type} (f : T → result U) (r : result T) (e : exn) :
  r ≫= f = Raise e → r = Raise e ∨ ∃ v, r = Ok v ∧ f v = Raise e.
Proof.
  destruct r as [v|e']; simpl; intros Hr; [right; eauto | left; congruence].
Qed.

Lemma external_Raise_inv {T : Type} (callee : string) (o : option T) (e : exn) :
  external callee o = Raise e → e = ExternalError callee.
Proof. destruct o; simpl; congruence. Qed.

Lemma not_is_ok_Raise {T : Type} (e : exn) : ¬ is_ok (@Raise T e).
Proof. intros [v Hv]. discriminate. Qed.

(** ** Skipped entries *)

Section skip_rule.
Context {A : Type} `{!TorchOps A, !WeightUtils A}.

Lemma load_entries_app config tp (pre post : list (string * Tensor A)) st :
  load_entries config tp (pre ++ post) st
  = load_entries config tp pre st ≫= load_entries config tp post.
Proof.
  revert st. induction pre as [|entry pre IH]; intros st; [reflexivity|].
  simpl. destruct (process_entry config tp st entry) as [st'|e]; simpl; auto.
Qed.

(** C8: an entry whose name contains "rotary_emb.inv_freq" is discarded:
    processing it returns the parameter store and the normalisation flag
    as they were, so a load gives the same outcome with or without it. *)
Theorem rotary_inv_freq_discarded config tp state_dict has_norm_head name
    (w : Tensor A) pre post :
  py_in "rotary_emb.inv_freq" name = true →
  process_entry config tp (state_dict, has_norm_head) (name, w)
    = Ok (state_dict, has_norm_head)
  ∧ load_weights config tp state_dict (pre ++ (name, w) :: post)
    = load_weights config tp state_dict (pre ++ post).
Proof.
  intros Hskip.
  assert (Hstep : ∀ st, process_entry config tp st (name, w) = Ok st).
  { intros [sd flag]. unfold process_entry. by rewrite Hskip. }
  split; [apply Hstep|].
  unfold load_weights. rewrite !load_entries_app.
  destruct (load_entries config tp pre (state_dict, false)) as [st|e]; [|done].
  simpl. by rewrite Hstep.
Qed.
End skip_rule.

(** ** Construction-time checks *)

Section construction_checks.
Context `{!Layers}.

(** C10: once its two projections are built, the MLP constructor raises
    [ValueError] for every activation name other than "silu" and returns
    the block for "silu"; the check belongs to [__init__]. *)
Theorem MLP_init_activation tp hidden_size intermediate_size hidden_act
    gate_up down act :
  ColumnParallelLinear hidden_size (2 * intermediate_size) false false tp
    = Some gate_up →
  RowParallelLinear intermediate_size hidden_size false true tp = Some down →
  SiluAndMul = Some act →
  (hidden_act ≠ "silu" →
     MLP_init tp hidden_size intermediate_size hidden_act
     = Raise (ValueError (unsupported_activation hidden_act)))
  ∧ (hidden_act = "silu" →
     MLP_init tp hidden_size intermediate_size hidden_act
     = Ok (mkMLP gate_up down act)).
Proof.
  intros Hgu Hdown Hact. unfold MLP_init. rewrite Hgu, Hdown. simpl.
  split; intros Hname.
  - rewrite bool_decide_eq_true_2 by assumption. reflexivity.
  - rewrite bool_decide_eq_false_2 by (intros Hne; by apply Hne).
    by rewrite Hact.
Qed.


End construction_checks.

(** ** The mandatory normalisation of the head *)

Ltac entry_error_done :=
  intros; simplify_eq; unfold entry_error, norm_head_msg; congruence.

Lemma py_floordiv_Raise a b e : py_floordiv a b = Raise e → entry_error e.
Proof. unfold py_floordiv. case_match; entry_error_done. Qed.

Lemma infer_shape_Raise dims n e : infer_shape dims n = Raise e → entry_error e.
Proof. unfold infer_shape. repeat case_match; entry_error_done. Qed.

Section head_flag.
Context {A : Type} `{!TorchOps A, !WeightUtils A}.
Implicit Types (w : Tensor A) (state_dict : gmap string (Tensor A)).

Lemma view_Raise w dims e : view w dims = Raise e → entry_error e.
Proof.
  unfold view. intros [Hr|(? & _ & Hr)]%bind_Raise_inv; [|entry_error_done].
  by eapply infer_shape_Raise.
Qed.

Lemma shape0_Raise w e : shape0 w = Raise e → entry_error e.
Proof. unfold shape0. case_match; entry_error_done. Qed.

Lemma slice0_Raise w lo hi e : slice0 w lo hi = Raise e → entry_error e.
Proof. unfold slice0. repeat case_match; entry_error_done. Qed.

Lemma slice1_4d_Raise w lo hi e : slice1_4d w lo hi = Raise e → entry_error e.
Proof.
  unfold slice1_4d, slice1. repeat case_match; entry_error_done.
Qed.

Lemma state_dict_get_Raise state_dict key e :
  state_dict_get state_dict key = Raise e → entry_error e.
Proof. unfold state_dict_get. case_match; entry_error_done. Qed.

Lemma external_entry_error {T : Type} callee (o : option T) e :
  external callee o = Raise e → entry_error e.
Proof. intros ->%external_Raise_inv. entry_error_done. Qed.

Lemma w_pack_shard_Raise config tp w e :
  w_pack_shard config tp w = Raise e → entry_error e.
Proof.
  unfold w_pack_shard, reshape.
  intros [Hr|(? & _ & Hr)]%bind_Raise_inv; [by eapply py_floordiv_Raise|].
  apply bind_Raise_inv in Hr as [Hr|(? & _ & Hr)]; [by eapply py_floordiv_Raise|].
  apply bind_Raise_inv in Hr as [Hr|(? & _ & Hr)]; [by eapply view_Raise|].
  apply bind_Raise_inv in Hr as [Hr|(? & _ & Hr)]; [by eapply slice1_4d_Raise|].
  by eapply view_Raise.
Qed.

Lemma gate_up_loop_Raise items tp name w state_dict e :
  gate_up_loop items tp name w state_dict = Raise e → entry_error e.
Proof.
  induction items as [|[stride_id weight_name] items IH]; simpl;
    [entry_error_done|].
  case_match; [by apply IH|].
  intros [Hr|(? & _ & Hr)]%bind_Raise_inv; [by eapply state_dict_get_Raise|].
  apply bind_Raise_inv in Hr as [Hr|(? & _ & Hr)]; [by eapply shape0_Raise|].
  apply bind_Raise_inv in Hr as [Hr|(? & _ & Hr)]; [by eapply slice0_Raise|].
  apply bind_Raise_inv in Hr as [Hr|(? & _ & Hr)]; [by eapply slice0_Raise|].
  case_match; entry_error_done.
Qed.

Lemma normalize_head_Raise w e : normalize_head w = Raise e → entry_error e.
Proof.
  unfold normalize_head. case_match.
  - intros [Hr|(? & _ & Hr)]%bind_Raise_inv; [by eapply external_entry_error|entry_error_done].
  - apply external_entry_error.
Qed.

Lemma process_entry_Raise config tp st entry e :
  process_entry config tp st entry = Raise e → entry_error e.
Proof.
  destruct st as [state_dict has_norm_head], entry as [name w].
  unfold process_entry. case_match; [entry_error_done|].
  intros [Hr|(w' & _ & Hr)]%bind_Raise_inv.
  { case_match; [by eapply w_pack_shard_Raise|entry_error_done]. }
  apply bind_Raise_inv in Hr as [Hr|(gate_up & _ & Hr)];
    [by eapply gate_up_loop_Raise|].
  destruct gate_up; [entry_error_done|].
  apply bind_Raise_inv in Hr as [Hr|(param & _ & Hr)];
    [by eapply state_dict_get_Raise|].
  apply bind_Raise_inv in Hr as [Hr|([w'' flag] & _ & Hr)].
  { case_match; [|entry_error_done].
    apply bind_Raise_inv in Hr as [Hr|(? & _ & Hr)]; [|entry_error_done].
    by eapply normalize_head_Raise. }
  case_match;
    (apply bind_Raise_inv in Hr as [Hr|(? & _ & Hr)];
      [by eapply external_entry_error|entry_error_done]).
Qed.

Lemma load_entries_Raise config tp stream st e :
  load_entries config tp stream st = Raise e → entry_error e.
Proof.
  revert st. induction stream as [|entry stream IH]; intros st; simpl;
    [entry_error_done|].
  intros [Hr|(st' & _ & Hr)]%bind_Raise_inv; [by eapply process_entry_Raise|eauto].
Qed.

Lemma gate_up_loop_no_marker tp name w state_dict :
  py_in "gate_proj" name = false → py_in "up_proj" name = false →
  gate_up_loop (enumerate ["gate_proj"; "up_proj"]) tp name w state_dict
  = Ok None.
Proof. intros Hgate Hup. simpl. by rewrite Hgate, Hup. Qed.

(** [has_norm_head] after an entry: set by the head, kept by the others. *)
Lemma process_entry_flag config tp state_dict flag name w state_dict' flag' :
  process_entry config tp (state_dict, flag) (name, w) = Ok (state_dict', flag') →
  flag' = flag || bool_decide (name = "lm_head.weight").
Proof.
  unfold process_entry.
  destruct (decide (name = "lm_head.weight")) as [->|Hname].
  - change (py_in "rotary_emb.inv_freq" "lm_head.weight") with false.
    change (py_in "W_pack" "lm_head.weight") with false.
    cbn [mbind result_mbind result_bind].
    rewrite gate_up_loop_no_marker by done.
    cbn [mbind result_mbind result_bind].
    intros (param & _ & Hr)%bind_Ok_inv.
    apply bind_Ok_inv in Hr as ([w' f] & Hnorm & Hr).
    apply bind_Ok_inv in Hnorm as (? & _ & Hnorm).
    injection Hnorm as <- <-.
    apply bind_Ok_inv in Hr as (? & _ & Hr).
    injection Hr as <- <-. by rewrite orb_true_r.
  - rewrite (bool_decide_eq_false_2 (name = _)) by done. rewrite orb_false_r.
    case_match; [by intros [= <- <-]|].
    intros (? & _ & Hr)%bind_Ok_inv.
    apply bind_Ok_inv in Hr as (gate_up & _ & Hr).
    destruct gate_up; [by injection Hr as <- <-|].
    apply bind_Ok_inv in Hr as (param & _ & Hr).
    cbn [mbind result_mbind result_bind] in Hr.
    case_match; apply bind_Ok_inv in Hr as (? & _ & Hr);
      by injection Hr as <- <-.
Qed.

Lemma load_entries_flag config tp stream state_dict flag state_dict' flag' :
  load_entries config tp stream (state_dict, flag) = Ok (state_dict', flag') →
  flag' = true ↔ flag = true ∨ "lm_head.weight" ∈ stream.*1.
Proof.
  revert state_dict flag.
  induction stream as [|[name w] stream IH]; intros state_dict flag; simpl.
  - intros ?; simplify_eq. set_solver.
  - intros ([sd1 f1] & Hstep & Hrest)%bind_Ok_inv.
    apply process_entry_flag in Hstep. apply IH in Hrest. rewrite Hrest.
    subst f1. rewrite orb_true_iff, bool_decide_eq_true. set_solver.
Qed.

(** C3: the load raises the assertion "lm_head silently evades
    normalization" exactly when the stream was consumed to its end and
    held no entry named "lm_head.weight": a stream with such an entry
    never raises it, and a stream without one never completes. *)
Theorem load_fails_iff_head_absent config tp state_dict
    (stream : list (string * Tensor A)) :
  (load_weights config tp state_dict stream = Raise (AssertionError norm_head_msg)
   ↔ is_ok (load_entries config tp stream (state_dict, false))
     ∧ "lm_head.weight" ∉ stream.*1)
  ∧ ("lm_head.weight" ∈ stream.*1 →
     load_weights config tp state_dict stream ≠ Raise (AssertionError norm_head_msg))
  ∧ ("lm_head.weight" ∉ stream.*1 →
     ¬ is_ok (load_weights config tp state_dict stream)).
Proof.
  assert (Hiff : load_weights config tp state_dict stream
                 = Raise (AssertionError norm_head_msg)
                 ↔ is_ok (load_entries config tp stream (state_dict, false))
                   ∧ "lm_head.weight" ∉ stream.*1).
  { unfold load_weights.
    destruct (load_entries config tp stream (state_dict, false))
      as [[sd' flag']|e] eqn:Hload; simpl.
    - apply load_entries_flag in Hload. destruct flag'.
      + split; [done|]. intros [_ Hnot]. destruct Hnot. naive_solver.
      + split; [|done]. intros _. split; [by eexists|].
        intros Hin. assert (false = true) by naive_solver. done.
    - split.
      + intros ?; simplify_eq. by apply load_entries_Raise in Hload.
      + intros [[? ?] _]. done. }
  split_and!; [done| |].
  - intros Hin Hfail. apply Hiff in Hfail as [_ Hnot]. done.
  - intros Hnot [sd Hok]. unfold load_weights in Hok.
    apply bind_Ok_inv in Hok as ([sd' flag'] & Hload & Hok).
    apply load_entries_flag in Hload. destruct flag'; [|done].
    naive_solver.
Qed.
End head_flag.

(** ** Normalisation of the head before sharding *)

Section head_normalisation.
Context {A : Type} `{!TorchOps A, !WeightUtils A}.

(** C5 (as the code has it): the head entry is normalised whole, before
    the vocabulary-sharding helper sees it; the normalisation runs on a
    float32 copy that is cast back to float16 when the tensor is float16
    and resides on the CPU, and directly on the tensor in every other
    case. *)
Theorem lm_head_normalized_before_sharding config tp
    (state_dict : gmap string (Tensor A)) flag (w param : Tensor A) :
  state_dict !! "lm_head.weight" = Some param →
  let loaded := convert_pyslice_to_tensor w in
  (t_dtype loaded = float16 ∧ t_device loaded = cpu →
     normalize_head loaded
     = (normalized ← external "torch.nn.functional.normalize"
                       (F_normalize (tensor_float loaded));
        Ok (tensor_half normalized)))
  ∧ (¬ (t_dtype loaded = float16 ∧ t_device loaded = cpu) →
     normalize_head loaded
     = external "torch.nn.functional.normalize" (F_normalize loaded))
  ∧ process_entry config tp (state_dict, flag) ("lm_head.weight", w)
    = (normalized ← normalize_head loaded;
       param' ← external "load_padded_tensor_parallel_vocab"
                  (load_padded_tensor_parallel_vocab param normalized (tp_rank tp));
       Ok (<["lm_head.weight" := param']> state_dict, true)).
Proof.
  intros Hparam loaded. split_and!.
  - intros [Hd Hdev]. unfold normalize_head.
    by rewrite !bool_decide_eq_true_2.
  - intros Hnot. unfold normalize_head.
    destruct (decide (t_dtype loaded = float16)) as [Hd|Hd].
    + rewrite (bool_decide_eq_true_2 _ Hd).
      rewrite bool_decide_eq_false_2; [done|]. intros Hdev. by apply Hnot.
    + by rewrite (bool_decide_eq_false_2 _ Hd).
  - unfold process_entry.
    change (py_in "rotary_emb.inv_freq" "lm_head.weight") with false.
    change (py_in "W_pack" "lm_head.weight") with false.
    cbn [mbind result_mbind result_bind].
    rewrite gate_up_loop_no_marker by done.
    cbn [mbind result_mbind result_bind].
    unfold state_dict_get. rewrite Hparam.
    cbn [mbind result_mbind result_bind].
    rewrite bool_decide_eq_true_2 by done.
    change (py_in "lm_head" "lm_head.weight") with true.
    rewrite orb_true_r. fold loaded.
    destruct (normalize_head loaded); reflexivity.
Qed.
End head_normalisation.

(** C5 (as stated) fails: a float16 head tensor on a CUDA device is
    normalised directly in float16, with no cast to float32 and back. *)
Lemma normalize_head_float16_cuda_direct :
  let w := src_tensor float16 (cuda 0) [2%nat; 2%nat] in
  normalize_head w
  = Ok (mkTensor float16 (cuda 0) [2%nat; 2%nat]
          [Normalized (Src 0); Normalized (Src 1);
           Normalized (Src 2); Normalized (Src 3)])
  ∧ normalize_head w ≠ spec_normalize_head w.
Proof. split; [reflexivity|]. vm_compute. discriminate. Qed.

(** ** The slope table has one slope per head *)

Lemma length_every_other {T : Type} (k : nat) (l : list T) :
  length l = (2 * k)%nat → length (every_other l) = k.
Proof.
  revert l. induction k as [|k IH]; intros l Hl.
  - by destruct l.
  - destruct l as [|x [|y l]]; simpl in *; try lia.
    f_equal. apply IH. lia.
Qed.

Lemma py_slice_bounds_in_range (n : nat) (lo hi : Z) :
  0 ≤ lo → lo ≤ hi → hi ≤ Z.of_nat n →
  py_slice_bounds n lo hi = (Z.to_nat lo, Z.to_nat (hi - lo)).
Proof.
  intros Hlo Hle Hhi. unfold py_slice_bounds, py_clamp.
  destruct (Z.ltb_spec lo 0), (Z.ltb_spec hi 0); try lia.
  rewrite !Z.min_l by lia. reflexivity.
Qed.

Lemma length_py_list_slice {T : Type} (l : list T) (lo hi : Z) :
  0 ≤ lo → lo ≤ hi → hi ≤ Z.of_nat (length l) →
  length (py_list_slice l lo hi) = Z.to_nat (hi - lo).
Proof.
  intros Hlo Hle Hhi. unfold py_list_slice.
  rewrite py_slice_bounds_in_range by done.
  rewrite length_take, length_drop. lia.
Qed.

Lemma length_get_interleave_power_of_2 (n : Z) :
  length (_get_interleave_power_of_2 n) = Z.to_nat n.
Proof.
  unfold _get_interleave_power_of_2. by rewrite length_fmap, length_seqZ.
Qed.

Lemma log2_is_integer_double (n : Z) :
  log2_is_integer (2 * 2 ^ Z.log2 n) = true.
Proof.
  apply bool_decide_eq_true. pose proof (Z.log2_nonneg n).
  rewrite <- Z.pow_succ_r by lia. by rewrite Z.log2_pow2 by lia.
Qed.

Lemma get_interleave_power_of_2 (n : Z) :
  1 ≤ n → log2_is_integer n = true →
  _get_interleave n = Ok (_get_interleave_power_of_2 n).
Proof.
  funelim (_get_interleave n); intros Hn Hpow.
  - pose proof (proj1 (Z.ltb_ge _ _) e). lia.
  - reflexivity.
  - congruence.
Qed.

Lemma get_interleave_length (n : Z) :
  1 ≤ n → ∃ slopes, _get_interleave n = Ok slopes ∧ length slopes = Z.to_nat n.
Proof.
  funelim (_get_interleave n); intros Hn.
  - pose proof (proj1 (Z.ltb_ge _ _) e). lia.
  - eexists. split; [reflexivity|]. apply length_get_interleave_power_of_2.
  - destruct (Z.log2_spec n) as [Hlo Hhi]; [lia|].
    pose proof (Z.log2_nonneg n) as Hlog.
    rewrite Z.pow_succ_r in Hhi by done.
    match goal with
    | IH : _ → ∃ slopes, _ |- _ => destruct IH as (rest & -> & Hlen); [lia|]
    end.
    eexists. split; [reflexivity|].
    assert (length (every_other rest) = Z.to_nat (2 ^ Z.log2 n)) as Hhalf.
    { apply length_every_other. lia. }
    rewrite length_app, length_get_interleave_power_of_2.
    rewrite length_py_list_slice by lia. lia.
Qed.

(** C9: for every [n >= 1] the recursion of [_get_interleave] is
    well-founded (its one recursive call is on twice a power of two, which
    the first branch answers) and it returns exactly [n] slopes; so
    [_get_alibi_slopes(total_num_heads)] has [total_num_heads] entries and
    the slice of every rank lies within it and holds [num_heads] slopes. *)
Theorem alibi_slopes_one_per_head (total_num_heads : Z) :
  1 ≤ total_num_heads →
  ∃ slopes,
    _get_interleave total_num_heads = Ok slopes
    ∧ length slopes = Z.to_nat total_num_heads
    ∧ _get_interleave (2 * 2 ^ Z.log2 total_num_heads)
      = Ok (_get_interleave_power_of_2 (2 * 2 ^ Z.log2 total_num_heads))
    ∧ _get_alibi_slopes total_num_heads = Ok slopes
    ∧ ∀ tp, partition_wf tp →
        let num_heads := total_num_heads / tp_world_size tp in
        let head_start := tp_rank tp * num_heads in
        let head_end := (tp_rank tp + 1) * num_heads in
        0 ≤ head_start ∧ head_end ≤ Z.of_nat (length slopes)
        ∧ length (py_list_slice slopes head_start head_end) = Z.to_nat num_heads.
Proof.
  intros Hn. destruct (get_interleave_length _ Hn) as (slopes & Hget & Hlen).
  exists slopes. split_and!; [done..| | |].
  - apply get_interleave_power_of_2; [|apply log2_is_integer_double].
    pose proof (Z.log2_nonneg total_num_heads).
    assert (0 < 2 ^ Z.log2 total_num_heads) by (apply Z.pow_pos_nonneg; lia).
    lia.
  - unfold _get_alibi_slopes. by rewrite Hget.
  - intros tp [Hws Hrank] num_heads head_start head_end.
    assert (0 ≤ num_heads) by (apply Z.div_pos; lia).
    assert (tp_world_size tp * num_heads ≤ total_num_heads)
      by (apply Z.mul_div_le; lia).
    assert (0 ≤ head_start ∧ head_start ≤ head_end
            ∧ head_end ≤ Z.of_nat (length slopes)) as (? & ? & ?).
    { subst head_start head_end. rewrite Hlen. nia. }
    split_and!; [done..|].
    rewrite length_py_list_slice by done. f_equal. subst head_start head_end. lia.
Qed.

(** ** Storage lemmas *)

Section storage.
Context {T : Type}.
Implicit Types (l : list T) (ls : list (list T)).

Lemma length_chunks m k l : length (chunks m k l) = k.
Proof. revert l. induction k as [|k IH]; intros l; simpl; auto. Qed.

Lemma lookup_chunks m k l i :
  (i < k)%nat → chunks m k l !! i = Some (take m (drop (i * m) l)).
Proof.
  revert l i. induction k as [|k IH]; intros l i Hi; [lia|].
  destruct i as [|i]; simpl; [done|].
  rewrite IH by lia. by rewrite drop_drop.
Qed.

Lemma join_chunks m k l : length l = (k * m)%nat → mjoin (chunks m k l) = l.
Proof.
  revert l. induction k as [|k IH]; intros l Hl; simpl.
  - by destruct l.
  - rewrite IH by (rewrite length_drop; lia). apply take_drop.
Qed.

Lemma Forall_length_chunks m k l :
  length l = (k * m)%nat → Forall (λ c, length c = m) (chunks m k l).
Proof.
  revert l. induction k as [|k IH]; intros l Hl; simpl; constructor.
  - rewrite length_take. lia.
  - apply IH. rewrite length_drop. lia.
Qed.

Lemma lookup_join_uniform ls n j i :
  Forall (λ c, length c = n) ls → (i < n)%nat →
  mjoin ls !! (j * n + i)%nat = ls !! j ≫= (.!! i).
Proof.
  intros Hls Hi. revert j.
  induction Hls as [|c ls Hc Hls IH]; intros j; [by destruct j|].
  destruct j as [|j]; simpl.
  - rewrite lookup_app_l by lia. done.
  - rewrite lookup_app_r by lia. rewrite <- IH. f_equal. lia.
Qed.

Lemma length_join_uniform ls n :
  Forall (λ c, length c = n) ls → length (mjoin ls) = (length ls * n)%nat.
Proof.
  induction 1 as [|c ls Hc Hls IH]; simpl; [done|].
  rewrite length_app. lia.
Qed.
End storage.

Lemma flat_index_bound (i j n m : nat) :
  (i < n)%nat → (j < m)%nat → (i * m + j < n * m)%nat.
Proof. intros Hi Hj. nia. Qed.

Lemma py_slice_bounds_nat (n : nat) (lo hi : Z) :
  0 ≤ lo → lo ≤ hi → hi ≤ Z.of_nat n →
  py_slice_bounds n lo hi = (Z.to_nat lo, (Z.to_nat hi - Z.to_nat lo)%nat).
Proof.
  intros. rewrite py_slice_bounds_in_range by done. f_equal. lia.
Qed.

Lemma infer_shape_exact (dims : list Z) (n : nat) :
  Forall (λ d, 0 ≤ d) dims →
  Z.to_nat (foldr Z.mul 1 dims) = n →
  infer_shape dims n = Ok (Z.to_nat <$> dims).
Proof.
  intros Hdims Hn. unfold infer_shape.
  assert (known_dims dims = dims) as ->.
  { clear Hn. unfold known_dims. induction Hdims as [|d dims Hd _ IH]; [done|].
    rewrite filter_cons_True by lia. by rewrite IH. }
  rewrite bool_decide_eq_false_2.
  - rewrite Nat.sub_diag. by rewrite bool_decide_eq_true_2.
  - rewrite Exists_exists. intros (d & Hin & Hd).
    rewrite Forall_forall in Hdims. specialize (Hdims d Hin). lia.
Qed.

Lemma infer_shape_rows (hidden : Z) (rows : nat) :
  0 < hidden →
  infer_shape [-1; hidden] (rows * Z.to_nat hidden)
  = Ok [rows; Z.to_nat hidden].
Proof.
  intros Hh. unfold infer_shape.
  rewrite bool_decide_eq_false_2.
  2:{ rewrite Exists_cons, Exists_cons, Exists_nil. lia. }
  unfold known_dims. rewrite filter_cons_False by lia.
  rewrite filter_cons_True by lia. rewrite filter_nil. simpl length.
  simpl foldr. rewrite Z.mul_1_r.
  change (2 - 1)%nat with 1%nat. cbv iota.
  rewrite bool_decide_eq_false_2 by lia.
  rewrite bool_decide_eq_true_2 by (apply Nat.Div0.mod_mul).
  cbn [fmap list_fmap].
  rewrite (bool_decide_eq_true_2 (-1 = -1)) by done.
  rewrite (bool_decide_eq_false_2 (hidden = -1)) by lia.
  rewrite Nat.div_mul by lia. done.
Qed.

(** ** The fused query/key/value shard *)

Section w_pack.
Context {A : Type}.

Lemma slice_heads_data (data : list A) (heads blk start len : nat) :
  length data = (3 * (heads * blk))%nat → (start + len ≤ heads)%nat →
  let sliced := mjoin ((λ c, take (len * blk) (drop (start * blk) c))
                         <$> chunks (heads * blk) 3 data) in
  length sliced = (3 * (len * blk))%nat
  ∧ ∀ k i, (k < 3)%nat → (i < len * blk)%nat →
      sliced !! (k * (len * blk) + i)%nat
      = data !! (k * (heads * blk) + (start * blk + i))%nat.
Proof.
  intros Hdata Hrange sliced.
  assert (start * blk + len * blk ≤ heads * blk)%nat as Hblk by nia.
  pose proof (Forall_length_chunks (heads * blk) 3 data Hdata) as Hchunks.
  assert (Forall (λ c : list A, length c = (len * blk)%nat)
            ((λ c, take (len * blk) (drop (start * blk) c))
               <$> chunks (heads * blk) 3 data)) as Hsliced.
  { rewrite Forall_fmap. eapply Forall_impl; [exact Hchunks|].
    intros c Hc. simpl in Hc |- *. rewrite length_take, length_drop. lia. }
  split.
  - unfold sliced. rewrite (length_join_uniform _ _ Hsliced).
    by rewrite length_fmap, length_chunks.
  - intros k i Hk Hi. unfold sliced.
    rewrite (lookup_join_uniform _ _ _ _ Hsliced Hi).
    rewrite list_lookup_fmap, lookup_chunks by done. simpl.
    rewrite lookup_take_lt by done. rewrite lookup_drop.
    rewrite lookup_take_lt by lia. rewrite lookup_drop. done.
Qed.

Lemma w_pack_shard_spec config tp (w : Tensor A) :
  0 < num_attention_heads config → 0 < hidden_size config → partition_wf tp →
  let total_heads := Z.to_nat (num_attention_heads config) in
  let hidden := Z.to_nat (hidden_size config) in
  let head_dim := Z.to_nat (hidden_size config / num_attention_heads config) in
  let local_heads := Z.to_nat (num_attention_heads config / tp_world_size tp) in
  let rank := Z.to_nat (tp_rank tp) in
  length (t_data w) = (3 * total_heads * head_dim * hidden)%nat →
  ∃ shard,
    w_pack_shard config tp w = Ok shard
    ∧ t_shape shard = [(3 * local_heads * head_dim)%nat; hidden]
    ∧ t_dtype shard = t_dtype w ∧ t_device shard = t_device w
    ∧ tensor_wf shard
    ∧ ∀ k j a b,
        (k < 3)%nat → (j < local_heads)%nat → (a < head_dim)%nat →
        (b < hidden)%nat →
        t_data shard !! flat_index4 local_heads head_dim hidden k j a b
        = t_data w !! flat_index4 total_heads head_dim hidden k
                        (rank * local_heads + j) a b.
Proof.
  intros Hheads Hhidden [Hws Hrank] total_heads hidden head_dim local_heads
    rank Hdata.
  assert (0 ≤ hidden_size config / num_attention_heads config) as Hhd
    by (apply Z.div_pos; lia).
  assert (0 ≤ num_attention_heads config / tp_world_size tp) as Hlocal
    by (apply Z.div_pos; lia).
  assert (tp_world_size tp * (num_attention_heads config / tp_world_size tp)
          ≤ num_attention_heads config) as Hfloor
    by (apply Z.mul_div_le; lia).
  assert (rank * local_heads + local_heads ≤ total_heads)%nat as Hin.
  { subst rank local_heads total_heads. nia. }
  unfold w_pack_shard, py_floordiv.
  destruct (Z.eqb_spec (num_attention_heads config) 0) as [?|_]; [lia|].
  destruct (Z.eqb_spec (tp_world_size tp) 0) as [?|_]; [lia|].
  cbn [mbind result_mbind result_bind].
  unfold view at 1. rewrite infer_shape_exact; cycle 1.
  { repeat constructor; lia. }
  { rewrite Hdata. simpl foldr. subst total_heads hidden head_dim. nia. }
  cbn [mbind result_mbind result_bind fmap list_fmap].
  fold total_heads head_dim hidden.
  unfold slice1_4d, slice1. cbn [t_shape t_data t_dtype t_device length].
  rewrite bool_decide_eq_true_2 by lia.
  rewrite py_slice_bounds_nat by nia.
  replace (Z.to_nat (tp_rank tp * (num_attention_heads config / tp_world_size tp)))
    with (rank * local_heads)%nat by (subst rank local_heads; nia).
  replace (Z.to_nat ((tp_rank tp + 1) * (num_attention_heads config / tp_world_size tp))
           - rank * local_heads)%nat
    with local_heads by (subst rank local_heads; nia).
  cbn [mbind result_mbind result_bind numel foldr].
  rewrite Nat.mul_1_r.
  destruct (slice_heads_data (t_data w) total_heads (head_dim * hidden)
              (rank * local_heads) local_heads) as [Hlen Hlookup];
    [lia|lia|].
  unfold reshape, view. cbn [t_shape t_data t_dtype t_device].
  change (Z.to_nat 3) with 3%nat.
  rewrite Hlen.
  replace (3 * (local_heads * (head_dim * hidden)))%nat
    with ((3 * local_heads * head_dim) * Z.to_nat (hidden_size config))%nat
    by (subst hidden; lia).
  rewrite infer_shape_rows by done.
  cbn [mbind result_mbind result_bind].
  eexists. split; [reflexivity|].
  cbn [t_shape t_data t_dtype t_device].
  split_and!; [done..| |].
  - unfold tensor_wf. cbn [t_shape t_data numel foldr]. rewrite Hlen.
    subst hidden. lia.
  - intros k j a b Hk Hj Ha Hb. unfold flat_index4.
    pose proof (flat_index_bound a b head_dim hidden Ha Hb) as Hab.
    pose proof (flat_index_bound j (a * hidden + b) local_heads
                  (head_dim * hidden) Hj Hab) as Hjab.
    replace (((k * local_heads + j) * head_dim + a) * hidden + b)%nat
      with (k * (local_heads * (head_dim * hidden))
            + (j * (head_dim * hidden) + (a * hidden + b)))%nat by lia.
    rewrite Hlookup by done. f_equal. lia.
Qed.
End w_pack.

(** ** Where the head count is checked *)

Section indivisible_heads.
Context {A : Type} `{!Layers}.

End indivisible_heads.


(** ** The fused gate/up destination *)

Lemma py_slice_bounds_nonneg (n : nat) (lo hi : Z) :
  0 ≤ lo → 0 ≤ hi →
  py_slice_bounds n lo hi
  = (Z.to_nat lo `min` n, (Z.to_nat hi `min` n - Z.to_nat lo `min` n))%nat.
Proof.
  intros Hlo Hhi. unfold py_slice_bounds, py_clamp.
  destruct (Z.ltb_spec lo 0), (Z.ltb_spec hi 0); try lia.
  f_equal; lia.
Qed.

Section gate_up.
Context {A : Type} `{!TorchOps A, !WeightUtils A}.

Lemma slice0_rows (t : Tensor A) (m : nat) (rest : list nat) (lo hi : Z) :
  t_shape t = m :: rest → 0 ≤ lo → 0 ≤ hi →
  slice0 t lo hi
  = Ok (rows_of t (Z.to_nat lo `min` m)
          (Z.to_nat hi `min` m - Z.to_nat lo `min` m)).
Proof.
  intros Hshape Hlo Hhi. unfold slice0, rows_of. rewrite Hshape.
  by rewrite py_slice_bounds_nonneg.
Qed.

Lemma gate_up_entry_spec config tp (state_dict : gmap string (Tensor A)) flag
    name (w param : Tensor A) n rest m rest' stride_id weight_name :
  0 ≤ tp_rank tp →
  py_in "rotary_emb.inv_freq" name = false →
  py_in "W_pack" name = false →
  gate_up_case name stride_id weight_name →
  state_dict !! py_replace name weight_name "gate_up_proj" = Some param →
  t_shape param = n :: rest →
  t_shape (convert_pyslice_to_tensor w) = m :: rest' →
  let loaded := convert_pyslice_to_tensor w in
  let shard_size := (n / 2)%nat in
  let rank := Z.to_nat (tp_rank tp) in
  let lo := ((shard_size * rank) `min` m)%nat in
  let len := ((shard_size * (rank + 1)) `min` m - lo)%nat in
  process_entry config tp (state_dict, flag) (name, w)
  = if bool_decide (shard_size :: rest = len :: rest') then
      Ok (<[py_replace name weight_name "gate_up_proj" :=
              overwrite_rows param (shard_size * Z.to_nat stride_id) shard_size
                (rows_of loaded lo len)]> state_dict, flag)
    else Raise (AssertionError EmptyString).
Proof.
  intros Hrank Hskip Hpack Hcase Hparam Hshape Hloaded loaded shard_size rank
    lo len.
  change (t_shape loaded = m :: rest') in Hloaded.
  assert (Z.of_nat n `div` 2 = Z.of_nat shard_size) as Hshard.
  { subst shard_size. by rewrite Nat2Z.inj_div. }
  assert (2 * shard_size ≤ n)%nat as Hhalf.
  { subst shard_size. pose proof (Nat.Div0.mul_div_le n 2). lia. }
  assert (gate_up_loop (enumerate ["gate_proj"; "up_proj"]) tp name loaded
            state_dict
          = if bool_decide (shard_size :: rest = len :: rest') then
              Ok (Some (<[py_replace name weight_name "gate_up_proj" :=
                overwrite_rows param (shard_size * Z.to_nat stride_id)
                  shard_size (rows_of loaded lo len)]> state_dict))
            else Raise (AssertionError EmptyString)) as Hloop.
  { assert (stride_id = 0 ∨ stride_id = 1) as Hstride
      by (destruct Hcase as [(_ & ? & _)|(_ & _ & ? & _)]; auto).
    assert (gate_up_loop (enumerate ["gate_proj"; "up_proj"]) tp name loaded
              state_dict
            = gate_up_loop [(stride_id, weight_name)] tp name loaded state_dict)
      as ->.
    { destruct Hcase as [(Hg & -> & ->)|(Hg & Hu & -> & ->)]; simpl;
        rewrite Hg; simpl; [done|]. by rewrite Hu. }
    assert (py_in weight_name name = true) as Hin
      by (destruct Hcase as [(? & _ & ->)|(_ & ? & _ & ->)]; done).
    simpl. rewrite Hin. simpl.
    unfold state_dict_get. rewrite Hparam.
    cbn [mbind result_mbind result_bind].
    unfold shape0. rewrite Hshape. cbn [mbind result_mbind result_bind].
    rewrite Hshard.
    rewrite (slice0_rows loaded m rest') by (done || lia).
    cbn [mbind result_mbind result_bind].
    rewrite (slice0_rows param n rest) by (done || lia).
    cbn [mbind result_mbind result_bind].
    replace (Z.to_nat (Z.of_nat shard_size * tp_rank tp) `min` m)%nat
      with lo by (subst lo rank; f_equal; lia).
    replace (Z.to_nat (Z.of_nat shard_size * (tp_rank tp + 1)) `min` m)%nat
      with ((shard_size * (rank + 1)) `min` m)%nat
      by (subst rank; f_equal; lia).
    fold len.
    replace (Z.to_nat (Z.of_nat shard_size * stride_id) `min` n)%nat
      with (shard_size * Z.to_nat stride_id)%nat by lia.
    replace (Z.to_nat (Z.of_nat shard_size * (stride_id + 1)) `min` n
             - shard_size * Z.to_nat stride_id)%nat
      with shard_size by lia.
    assert (t_shape (rows_of param (shard_size * Z.to_nat stride_id) shard_size)
            = shard_size :: rest) as Hdst
      by (unfold rows_of; cbn [t_shape]; by rewrite Hshape).
    assert (t_shape (rows_of loaded lo len) = len :: rest') as Hsrc
      by (unfold rows_of; cbn [t_shape]; by rewrite Hloaded).
    destruct (decide (shard_size :: rest = len :: rest')) as [Heq|Hne].
    - rewrite (bool_decide_eq_true_2 (t_shape _ = t_shape _)) by congruence.
      rewrite (bool_decide_eq_true_2 (shard_size :: rest = _)) by done.
      do 3 f_equal. unfold copy_slice0, overwrite_rows. rewrite Hshape.
      rewrite py_slice_bounds_nonneg by lia. cbn [tail].
      replace (Z.to_nat (Z.of_nat shard_size * stride_id) `min` n)%nat
        with (shard_size * Z.to_nat stride_id)%nat by lia.
      replace (Z.to_nat (Z.of_nat shard_size * (stride_id + 1)) `min` n
               - shard_size * Z.to_nat stride_id)%nat
        with shard_size by lia.
      done.
    - rewrite (bool_decide_eq_false_2 (t_shape _ = t_shape _)) by congruence.
      by rewrite (bool_decide_eq_false_2 (shard_size :: rest = _)) by done. }
  unfold process_entry. rewrite Hskip, Hpack.
  cbn [mbind result_mbind result_bind]. fold loaded. rewrite Hloop.
  by case_bool_decide.
Qed.
End gate_up.

Section gate_up_claims.
Context {A : Type} `{!TorchOps A, !WeightUtils A}.

(** Whatever the row count [n] of the destination: the loader takes the
    rows [shard_size * rank, shard_size * (rank + 1)) of the loaded tensor
    with [shard_size = n // 2], and overwrites the destination rows
    [shard_size * ordinal, shard_size * (ordinal + 1)) with them, or
    aborts on the shape assertion. *)
Lemma gate_up_entry_rows config tp (state_dict : gmap string (Tensor A))
    flag name (w param : Tensor A) n rest m rest' stride_id weight_name :
  0 ≤ tp_rank tp →
  py_in "rotary_emb.inv_freq" name = false →
  py_in "W_pack" name = false →
  gate_up_case name stride_id weight_name →
  state_dict !! py_replace name weight_name "gate_up_proj" = Some param →
  t_shape param = n :: rest →
  t_shape (convert_pyslice_to_tensor w) = m :: rest' →
  let loaded := convert_pyslice_to_tensor w in
  let shard_size := (n / 2)%nat in
  let rank := Z.to_nat (tp_rank tp) in
  ∃ rows,
    slice0 loaded (Z.of_nat shard_size * tp_rank tp)
                  (Z.of_nat shard_size * (tp_rank tp + 1)) = Ok rows
    ∧ Z.of_nat shard_size = Z.of_nat n / 2
    ∧ ((shard_size * (rank + 1) ≤ m)%nat →
       rows = rows_of loaded (shard_size * rank) shard_size)
    ∧ (t_shape rows = shard_size :: rest →
       process_entry config tp (state_dict, flag) (name, w)
       = Ok (<[py_replace name weight_name "gate_up_proj" :=
                 overwrite_rows param (shard_size * Z.to_nat stride_id)
                   shard_size rows]> state_dict, flag))
    ∧ (t_shape rows ≠ shard_size :: rest →
       process_entry config tp (state_dict, flag) (name, w)
       = Raise (AssertionError EmptyString)).
Proof.
  intros Hrank Hskip Hpack Hcase Hparam Hshape Hloaded loaded shard_size rank.
  pose proof (gate_up_entry_spec config tp state_dict flag name w param n rest
                m rest' stride_id weight_name Hrank Hskip Hpack Hcase Hparam
                Hshape Hloaded) as Hentry.
  cbv zeta in Hentry. fold loaded shard_size rank in Hentry.
  change (t_shape loaded = m :: rest') in Hloaded.
  set (lo := ((shard_size * rank) `min` m)%nat) in *.
  set (len := ((shard_size * (rank + 1)) `min` m - lo)%nat) in *.
  exists (rows_of loaded lo len).
  assert (t_shape (rows_of loaded lo len) = len :: rest') as Hrows
    by (unfold rows_of; cbn [t_shape]; by rewrite Hloaded).
  split_and!.
  - rewrite (slice0_rows loaded m rest') by (done || lia).
    do 2 f_equal; subst lo len rank; lia.
  - subst shard_size. by rewrite Nat2Z.inj_div.
  - intros Hfit. f_equal; subst lo len; lia.
  - rewrite Hrows. intros Heq. rewrite Hentry.
    by rewrite bool_decide_eq_true_2.
  - rewrite Hrows. intros Hne. rewrite Hentry.
    by rewrite bool_decide_eq_false_2.
Qed.

(** C6 (as the code has it): with intermediate_size = 16 and
    world_size = 2 the rank-local fused destination has 2 * 16 / 2 = 16
    rows; on rank r (0 or 1) the gate half, rows [8r, 8r + 8) of the
    gate projection, is written to the destination rows [0, 8) and the
    up half, rows [8r, 8r + 8) of the up projection, to the destination
    rows [8, 16). *)
Theorem gate_up_scenario_rows config tp (state_dict : gmap string (Tensor A))
    flag name (w param : Tensor A) hidden stride_id weight_name :
  intermediate_size config = 16 → tp_world_size tp = 2 →
  0 ≤ tp_rank tp < tp_world_size tp →
  py_in "rotary_emb.inv_freq" name = false →
  py_in "W_pack" name = false →
  gate_up_case name stride_id weight_name →
  state_dict !! py_replace name weight_name "gate_up_proj" = Some param →
  t_shape param
  = [Z.to_nat (2 * intermediate_size config / tp_world_size tp); hidden] →
  t_shape (convert_pyslice_to_tensor w)
  = [Z.to_nat (intermediate_size config); hidden] →
  let rank := Z.to_nat (tp_rank tp) in
  process_entry config tp (state_dict, flag) (name, w)
  = Ok (<[py_replace name weight_name "gate_up_proj" :=
            overwrite_rows param (8 * Z.to_nat stride_id) 8
              (rows_of (convert_pyslice_to_tensor w) (8 * rank) 8)]>
          state_dict, flag)
  ∧ (8 * Z.to_nat stride_id = if decide (weight_name = "gate_proj") then 0 else 8)%nat.
Proof.
  intros Hinter Hws Hrank Hskip Hpack Hcase Hparam Hshape Hloaded rank.
  rewrite Hinter, Hws in Hshape. rewrite Hinter in Hloaded.
  change (Z.to_nat (2 * 16 `div` 2)) with 16%nat in Hshape.
  change (Z.to_nat 16) with 16%nat in Hloaded.
  pose proof (gate_up_entry_spec config tp state_dict flag name w param
                16 [hidden] 16 [hidden] stride_id weight_name
                (proj1 Hrank) Hskip Hpack Hcase Hparam Hshape Hloaded)
    as Hentry.
  cbv zeta in Hentry. fold rank in Hentry.
  change (16 `div` 2)%nat with 8%nat in Hentry.
  assert (rank = 0 ∨ rank = 1)%nat as Hr by (subst rank; lia).
  replace ((8 * rank) `min` 16)%nat with (8 * rank)%nat in Hentry by lia.
  replace ((8 * (rank + 1)) `min` 16 - 8 * rank)%nat with 8%nat
    in Hentry by lia.
  rewrite bool_decide_eq_true_2 in Hentry by done.
  split; [exact Hentry|].
  destruct Hcase as [(_ & -> & ->)|(_ & _ & -> & ->)]; reflexivity.
Qed.
End gate_up_claims.

Lemma floordiv_halved (output_dim ws : Z) :
  1 ≤ ws → output_dim / ws / 2 = output_dim / 2 / ws.
Proof.
  intros Hws. rewrite !Z.div_div by lia. f_equal. lia.
Qed.

Section gate_up_declared.
Context {A : Type} `{!TorchOps A, !WeightUtils A}.

(** C2: for a name carrying the gate marker (ordinal 0) or else the up
    marker (ordinal 1), and a fused destination declared with output
    dimension [output_dim], of which this rank holds
    [output_dim // world_size] rows, the shard size the loader computes is
    [output_dim / 2 / world_size]; it takes the rows
    [shard_size * rank, shard_size * (rank + 1)) of the loaded tensor and
    overwrites the destination rows
    [shard_size * ordinal, shard_size * (ordinal + 1)) with them; that
    destination range has [shard_size] rows, and when the shape of the
    rows taken differs from its shape the load aborts with an assertion
    error. *)
Theorem gate_up_shard_copy config tp (state_dict : gmap string (Tensor A))
    flag name (w param : Tensor A) (output_dim : Z) rest m rest' stride_id
    weight_name :
  1 ≤ tp_world_size tp → 0 ≤ tp_rank tp → 0 ≤ output_dim →
  py_in "rotary_emb.inv_freq" name = false →
  py_in "W_pack" name = false →
  gate_up_case name stride_id weight_name →
  state_dict !! py_replace name weight_name "gate_up_proj" = Some param →
  t_shape param = Z.to_nat (output_dim / tp_world_size tp) :: rest →
  t_shape (convert_pyslice_to_tensor w) = m :: rest' →
  let loaded := convert_pyslice_to_tensor w in
  let shard_size := output_dim / 2 / tp_world_size tp in
  (dim0 ← shape0 param; py_floordiv dim0 2) = Ok shard_size
  ∧ ∃ rows param_slice,
      slice0 loaded (shard_size * tp_rank tp) (shard_size * (tp_rank tp + 1))
      = Ok rows
      ∧ slice0 param (shard_size * stride_id) (shard_size * (stride_id + 1))
        = Ok param_slice
      ∧ t_shape param_slice = Z.to_nat shard_size :: rest
      ∧ (shard_size * (tp_rank tp + 1) ≤ Z.of_nat m →
         rows = rows_of loaded (Z.to_nat (shard_size * tp_rank tp))
                  (Z.to_nat shard_size))
      ∧ (t_shape rows = t_shape param_slice →
         process_entry config tp (state_dict, flag) (name, w)
         = Ok (<[py_replace name weight_name "gate_up_proj" :=
                   overwrite_rows param (Z.to_nat (shard_size * stride_id))
                     (Z.to_nat shard_size) rows]> state_dict, flag))
      ∧ (t_shape rows ≠ t_shape param_slice →
         process_entry config tp (state_dict, flag) (name, w)
         = Raise (AssertionError EmptyString)).
Proof.
  intros Hws Hrank Hdim Hskip Hpack Hcase Hparam Hshape Hloaded loaded
    shard_size.
  set (n := Z.to_nat (output_dim / tp_world_size tp)) in *.
  assert (0 ≤ output_dim / tp_world_size tp) as Hn by (apply Z.div_pos; lia).
  assert (Z.of_nat (n / 2) = shard_size) as Hshard.
  { subst n shard_size. rewrite Nat2Z.inj_div, Z2Nat.id by done.
    by apply floordiv_halved. }
  assert (0 ≤ shard_size) as Hpos by lia.
  assert (2 * (n / 2) ≤ n)%nat as Hhalf
    by (pose proof (Nat.Div0.mul_div_le n 2); lia).
  assert (stride_id = 0 ∨ stride_id = 1) as Hstride
    by (destruct Hcase as [(_ & -> & _)|(_ & _ & -> & _)]; lia).
  split.
  { unfold shape0. rewrite Hshape. cbn [mbind result_mbind result_bind].
    unfold py_floordiv. simpl. f_equal.
    rewrite <- Hshard. by rewrite Nat2Z.inj_div. }
  destruct (gate_up_entry_rows config tp state_dict flag name w param n rest
              m rest' stride_id weight_name Hrank Hskip Hpack Hcase Hparam
              Hshape Hloaded)
    as (rows & Hrows & _ & Hfit & Hcopy & Habort).
  cbv zeta in Hrows, Hfit, Hcopy, Habort. fold loaded in Hrows, Hfit.
  rewrite Hshard in Hrows.
  exists rows, (rows_of param (Z.to_nat (shard_size * stride_id))
                  (Z.to_nat shard_size)).
  assert (Z.to_nat shard_size = (n / 2)%nat) as Hnat by lia.
  split_and!.
  - exact Hrows.
  - rewrite (slice0_rows param n rest) by (done || lia).
    do 2 f_equal; destruct Hstride as [-> | ->]; lia.
  - unfold rows_of. cbn [t_shape]. by rewrite Hshape.
  - intros Hin. rewrite Hfit by lia. f_equal; lia.
  - unfold rows_of at 1. cbn [t_shape]. rewrite Hshape. cbn [tail].
    rewrite Hnat. intros Heq. rewrite (Hcopy Heq). do 3 f_equal.
    f_equal. lia.
  - unfold rows_of at 1. cbn [t_shape]. rewrite Hshape. cbn [tail].
    rewrite Hnat. exact Habort.
Qed.
End gate_up_declared.

(** C6 (as stated) fails: into a destination of 32 rows the up half of
    rank 0 is written over the rows [16, 32), not [16, 24), and the gate
    half of rank 1 is not written at all, the load aborting on the shape
    assertion; into the rank-local destination of 16 rows the gate half of
    rank 1 is written over the rows [0, 8), not [8, 16). *)
Lemma gate_up_scenario_rows_not_by_rank :
  let key := "model.layers.0.mlp.gate_up_proj.weight" in
  let gate := ("model.layers.0.mlp.gate_proj.weight",
               src_tensor float16 cpu [16%nat; 1%nat]) in
  let up := ("model.layers.0.mlp.up_proj.weight",
             src_tensor float16 cpu [16%nat; 1%nat]) in
  process_entry scenario_config (mkPartition 2 0)
    ({[ key := fresh_param float16 cpu [32%nat; 1%nat] ]}, false) up
  = Ok ({[ key := mkTensor float16 cpu [32%nat; 1%nat]
                    (replicate 16 (Src (-1)) ++ (Src <$> seqZ 0 16)) ]}, false)
  ∧ process_entry scenario_config (mkPartition 2 1)
      ({[ key := fresh_param float16 cpu [32%nat; 1%nat] ]}, false) gate
    = Raise (AssertionError EmptyString)
  ∧ process_entry scenario_config (mkPartition 2 1)
      ({[ key := fresh_param float16 cpu [16%nat; 1%nat] ]}, false) gate
    = Ok ({[ key := mkTensor float16 cpu [16%nat; 1%nat]
                      ((Src <$> seqZ 8 8) ++ replicate 8 (Src (-1))) ]}, false).
Proof. split_and!; vm_compute; reflexivity. Qed.

(** ** Partitions and the fused query/key/value shard *)

Lemma chunks_seq {T : Type} (m k : nat) (l : list T) :
  chunks m k l = (λ r : Z, take m (drop (Z.to_nat r * m) l)) <$> seqZ 0 (Z.of_nat k).
Proof.
  apply list_eq. intros i.
  destruct (decide (i < k)%nat) as [Hi|Hi].
  - rewrite lookup_chunks by done.
    rewrite list_lookup_fmap, lookup_seqZ_lt by lia. simpl.
    by rewrite Z.add_0_l, Nat2Z.id.
  - rewrite !lookup_ge_None_2; [done|..].
    + rewrite length_fmap, length_seqZ. lia.
    + rewrite length_chunks. lia.
Qed.

Lemma join_row_shards {A : Type} (t : Tensor A) (D : nat) (rest : list nat)
    (ws : Z) (shard_size : nat) :
  1 ≤ ws → D = (Z.to_nat ws * shard_size)%nat →
  t_shape t = D :: rest → tensor_wf t →
  mjoin ((λ rank, t_data (rows_of t (shard_size * Z.to_nat rank) shard_size))
           <$> seqZ 0 ws) = t_data t.
Proof.
  intros Hws HD Hshape Hwf.
  unfold tensor_wf in Hwf. rewrite Hshape in Hwf. simpl numel in Hwf.
  transitivity (mjoin (chunks (shard_size * numel rest) (Z.to_nat ws) (t_data t)));
    [|apply join_chunks; nia].
  rewrite chunks_seq. rewrite Z2Nat.id by lia. f_equal.
  apply list_fmap_ext. intros _ rank _.
  unfold rows_of. simpl. rewrite Hshape. simpl.
  do 2 f_equal. nia.
Qed.

Section column_shards.
Context {A : Type} `{!TorchOps A, !WeightUtils A}.

(** C7: take a world size dividing the output dimension D of a gate or up
    projection, a loaded tensor of D rows, and on every rank a fused
    destination declared for two such projections, of which the rank
    holds [2 * D // world_size] rows.  Then on every rank the shard size
    the loader computes is [D / world_size], the entry is loaded, and
    what is written to the rank's destination are the rows
    [shard_size * rank, shard_size * (rank + 1)) of the loaded tensor;
    these row blocks, concatenated in rank order, are the loaded tensor,
    and every row index of [0, D) lies in the block of exactly one rank.
    The same holds for the head dimension of the fused query/key/value
    tensor: every head is found, at its place, in the shard of exactly
    one rank. *)
Theorem column_shards_partition config (ws : Z)
    (state_dict : Z → gmap string (Tensor A)) flag name (w : Tensor A)
    (param : Z → Tensor A) (D : nat) (rest : list nat) stride_id weight_name :
  1 ≤ ws → Z.of_nat D `mod` ws = 0 →
  py_in "rotary_emb.inv_freq" name = false →
  py_in "W_pack" name = false →
  gate_up_case name stride_id weight_name →
  (∀ rank, 0 ≤ rank < ws →
     state_dict rank !! py_replace name weight_name "gate_up_proj"
     = Some (param rank)
     ∧ t_shape (param rank) = Z.to_nat (2 * Z.of_nat D / ws) :: rest) →
  t_shape (convert_pyslice_to_tensor w) = D :: rest →
  tensor_wf (convert_pyslice_to_tensor w) →
  let loaded := convert_pyslice_to_tensor w in
  let shard_size := Z.to_nat (Z.of_nat D / ws) in
  (∀ rank, 0 ≤ rank < ws →
     (dim0 ← shape0 (param rank); py_floordiv dim0 2) = Ok (Z.of_nat shard_size)
     ∧ slice0 loaded (Z.of_nat shard_size * rank) (Z.of_nat shard_size * (rank + 1))
       = Ok (rows_of loaded (shard_size * Z.to_nat rank) shard_size)
     ∧ process_entry config (mkPartition ws rank) (state_dict rank, flag) (name, w)
       = Ok (<[py_replace name weight_name "gate_up_proj" :=
                 overwrite_rows (param rank) (shard_size * Z.to_nat stride_id)
                   shard_size
                   (rows_of loaded (shard_size * Z.to_nat rank) shard_size)]>
               (state_dict rank), flag))
  ∧ mjoin ((λ rank, t_data (rows_of loaded (shard_size * Z.to_nat rank) shard_size))
             <$> seqZ 0 ws) = t_data loaded
  ∧ (∀ i, (i < D)%nat →
       ∃ rank, (0 ≤ rank < ws
                ∧ (shard_size * Z.to_nat rank ≤ i < shard_size * (Z.to_nat rank + 1))%nat)
         ∧ ∀ rank', 0 ≤ rank' < ws →
             (shard_size * Z.to_nat rank' ≤ i < shard_size * (Z.to_nat rank' + 1))%nat →
             rank' = rank)
  ∧ (∀ qkv : Tensor A,
       0 < hidden_size config →
       0 < num_attention_heads config →
       num_attention_heads config `mod` ws = 0 →
       let total_heads := Z.to_nat (num_attention_heads config) in
       let hidden := Z.to_nat (hidden_size config) in
       let head_dim := Z.to_nat (hidden_size config / num_attention_heads config) in
       let local_heads := Z.to_nat (num_attention_heads config / ws) in
       length (t_data qkv) = (3 * total_heads * head_dim * hidden)%nat →
       ∀ k h a b,
         (k < 3)%nat → (h < total_heads)%nat → (a < head_dim)%nat →
         (b < hidden)%nat →
         ∃ rank j shard,
           (0 ≤ rank < ws ∧ (j < local_heads)%nat
            ∧ h = (Z.to_nat rank * local_heads + j)%nat)
           ∧ w_pack_shard config (mkPartition ws rank) qkv = Ok shard
           ∧ t_data shard !! flat_index4 local_heads head_dim hidden k j a b
             = t_data qkv !! flat_index4 total_heads head_dim hidden k h a b
           ∧ ∀ rank' j', 0 ≤ rank' < ws → (j' < local_heads)%nat →
               h = (Z.to_nat rank' * local_heads + j')%nat →
               rank' = rank ∧ j' = j).
Proof.
  intros Hws Hmod Hskip Hpack Hcase Hstore Hshape Hwf loaded shard_size.
  assert (Z.of_nat D = ws * (Z.of_nat D / ws)) as HD
    by (apply Z.div_exact; lia).
  assert (0 ≤ Z.of_nat D / ws) as Hshard by (apply Z.div_pos; lia).
  assert (D = (Z.to_nat ws * shard_size)%nat) as HD' by (subst shard_size; nia).
  assert (2 * Z.of_nat D / ws = 2 * (Z.of_nat D / ws)) as Htwice.
  { rewrite HD at 1. rewrite (Z.mul_comm ws), Z.mul_assoc.
    rewrite Z.div_mul by lia. done. }
  split_and!.
  - intros rank Hrank. destruct (Hstore rank Hrank) as [Hparam Hpshape].
    rewrite Htwice in Hpshape.
    replace (Z.to_nat (2 * (Z.of_nat D / ws))) with (2 * shard_size)%nat
      in Hpshape by (subst shard_size; lia).
    assert ((2 * shard_size) `div` 2 = shard_size)%nat as Hhalf
      by (rewrite Nat.mul_comm; apply Nat.div_mul; lia).
    split_and!.
    + unfold shape0. rewrite Hpshape. cbn [mbind result_mbind result_bind].
      unfold py_floordiv. simpl Z.eqb. cbv iota. f_equal.
      symmetry. apply (Z.div_unique _ 2 _ 0); lia.
    + rewrite (slice0_rows loaded D rest) by (done || nia).
      do 2 f_equal; nia.
    + pose proof (gate_up_entry_spec config (mkPartition ws rank)
                    (state_dict rank) flag name w (param rank)
                    (2 * shard_size)%nat rest D rest stride_id weight_name)
        as Hentry.
      cbn [tp_rank] in Hentry.
      rewrite Hentry by (done || lia). cbv zeta. rewrite Hhalf.
      replace ((shard_size * Z.to_nat rank) `min` D)%nat
        with (shard_size * Z.to_nat rank)%nat by nia.
      replace ((shard_size * (Z.to_nat rank + 1)) `min` D
               - shard_size * Z.to_nat rank)%nat with shard_size by nia.
      by rewrite bool_decide_eq_true_2.
  - by apply (join_row_shards loaded D rest).
  - intros i Hi.
    assert (0 < shard_size)%nat as Hpos by nia.
    pose proof (Nat.div_mod_eq i shard_size) as Hdm.
    pose proof (Nat.mod_upper_bound i shard_size ltac:(lia)) as Hmb.
    exists (Z.of_nat (i `div` shard_size)).
    rewrite Nat2Z.id. split; [split; nia|].
    intros rank' Hr' Hin.
    assert (Z.to_nat rank' = i `div` shard_size)%nat as Heq.
    { apply Nat.div_unique with (r := (i - shard_size * Z.to_nat rank')%nat); lia. }
    lia.
  - intros qkv Hhidden Hheads Hdiv total_heads hidden head_dim local_heads
      Hdata k h a b Hk Hh Ha Hb.
    assert (num_attention_heads config = ws * (num_attention_heads config / ws))
      as Hexact by (apply Z.div_exact; lia).
    assert (0 < num_attention_heads config / ws) as Hlocal by nia.
    assert (0 < local_heads)%nat as Hlocal' by (subst local_heads; lia).
    assert (total_heads = Z.to_nat ws * local_heads)%nat as Htotal
      by (subst total_heads local_heads; nia).
    pose proof (Nat.div_mod_eq h local_heads) as Hdm.
    pose proof (Nat.mod_upper_bound h local_heads ltac:(lia)) as Hmb.
    assert (h `div` local_heads < Z.to_nat ws)%nat as Hrank by nia.
    set (tp := mkPartition ws (Z.of_nat (h `div` local_heads))).
    destruct (w_pack_shard_spec config tp qkv) as
      (shard & Hshard' & _ & _ & _ & _ & Hlookup);
      [done|done|split; simpl; lia|done|].
    subst tp. cbn [tp_world_size tp_rank] in Hlookup.
    rewrite Nat2Z.id in Hlookup.
    fold local_heads head_dim hidden total_heads in Hlookup.
    exists (Z.of_nat (h `div` local_heads)), (h `mod` local_heads)%nat, shard.
    split_and!; [lia|lia|lia|lia|exact Hshard'| |].
    + rewrite (Hlookup k (h `mod` local_heads)%nat a b) by done.
      do 2 f_equal. lia.
    + intros rank' j' Hr' Hj' Hh'.
      assert (Z.to_nat rank' = h `div` local_heads)%nat as Heq.
      { apply Nat.div_unique with (r := j'); lia. }
      split; [lia|]. nia.
Qed.
End column_shards.

Section w_pack_claim.
Context {A : Type} `{!TorchOps A, !WeightUtils A}.

(** C1: an entry that is not skipped and whose name contains "W_pack" is
    viewed as [3, total_heads, head_dim, hidden], cut to the heads
    [rank * local_heads, (rank + 1) * local_heads) with
    local_heads = total_heads // world_size, and flattened to
    [3 * local_heads * head_dim, hidden]: element (k, j, a, b) of the
    shard is element (k, rank * local_heads + j, a, b) of the loaded
    tensor, and it is this shard that is handed on to be stored.  With
    world_size = 2, total_heads = 4, head_dim = 8 and hidden = 32, rank 0
    gets the heads 0 and 1 and rank 1 the heads 2 and 3 (the positions p
    of the [96, 32] checkpoint tensor with (p / 256) mod 4 below 2, resp.
    at least 2), each as a [48, 32] tensor, with no element in common. *)
Theorem w_pack_entry_sharded config tp (state_dict : gmap string (Tensor A))
    flag name (w : Tensor A) :
  py_in "W_pack" name = true →
  py_in "rotary_emb.inv_freq" name = false →
  0 < num_attention_heads config → 0 < hidden_size config → partition_wf tp →
  let loaded := convert_pyslice_to_tensor w in
  let total_heads := Z.to_nat (num_attention_heads config) in
  let hidden := Z.to_nat (hidden_size config) in
  let head_dim := Z.to_nat (hidden_size config / num_attention_heads config) in
  let local_heads := Z.to_nat (num_attention_heads config / tp_world_size tp) in
  let rank := Z.to_nat (tp_rank tp) in
  length (t_data loaded) = (3 * total_heads * head_dim * hidden)%nat →
  (∃ shard,
     w_pack_shard config tp loaded = Ok shard
     ∧ t_shape shard = [(3 * local_heads * head_dim)%nat; hidden]
     ∧ (∀ k j a b,
          (k < 3)%nat → (j < local_heads)%nat → (a < head_dim)%nat →
          (b < hidden)%nat →
          t_data shard !! flat_index4 local_heads head_dim hidden k j a b
          = t_data loaded !! flat_index4 total_heads head_dim hidden k
                               (rank * local_heads + j) a b)
     ∧ (∀ param,
          py_in "gate_proj" name = false → py_in "up_proj" name = false →
          py_in "embed_tokens" name = false → py_in "lm_head" name = false →
          state_dict !! name = Some param →
          process_entry config tp (state_dict, flag) (name, w)
          = (param' ← external "load_tensor_parallel_weights"
                        (load_tensor_parallel_weights param shard name
                           _column_parallel_weights _row_parallel_weights
                           (tp_rank tp));
             Ok (<[name := param']> state_dict, flag))))
  ∧ (let qkv := src_tensor float16 cpu [96%nat; 32%nat] in
     ∃ shard0 shard1,
       w_pack_shard scenario_config (mkPartition 2 0) qkv = Ok shard0
       ∧ w_pack_shard scenario_config (mkPartition 2 1) qkv = Ok shard1
       ∧ t_shape shard0 = [48%nat; 32%nat]
       ∧ t_shape shard1 = [48%nat; 32%nat]
       ∧ t_data shard0
         = Src <$> filter (λ p, (p / 256) `mod` 4 < 2) (seqZ 0 3072)
       ∧ t_data shard1
         = Src <$> filter (λ p, 2 ≤ (p / 256) `mod` 4) (seqZ 0 3072)
       ∧ ∀ x, x ∈ t_data shard0 → x ∉ t_data shard1).
Proof.
  intros Hpack Hskip Hheads Hhidden Hwf loaded total_heads hidden head_dim
    local_heads rank Hdata.
  split.
  2:{ exists (mkTensor float16 cpu [48%nat; 32%nat]
                (Src <$> filter (λ p, (p / 256) `mod` 4 < 2) (seqZ 0 3072))),
             (mkTensor float16 cpu [48%nat; 32%nat]
                (Src <$> filter (λ p, 2 ≤ (p / 256) `mod` 4) (seqZ 0 3072))).
      split_and!; [vm_compute; reflexivity| vm_compute; reflexivity
                  | reflexivity..|].
      cbn [t_data].
      intros x (p & -> & [Hp _]%list_elem_of_filter)%list_elem_of_fmap
        (q & [= <-] & [Hq _]%list_elem_of_filter)%list_elem_of_fmap.
      lia. }
  destruct (w_pack_shard_spec config tp loaded Hheads Hhidden Hwf Hdata)
    as (shard & Hshard & Hshape & _ & _ & _ & Hlookup).
  exists shard. split_and!; [done..|].
  intros param Hgate Hup Hembed Hhead Hparam.
  unfold process_entry. rewrite Hskip, Hpack. fold loaded. rewrite Hshard.
  cbn [mbind result_mbind result_bind].
  rewrite gate_up_loop_no_marker by done.
  cbn [mbind result_mbind result_bind].
  unfold state_dict_get. rewrite Hparam.
  cbn [mbind result_mbind result_bind].
  rewrite bool_decide_eq_false_2.
  2:{ intros ->. discriminate Hhead. }
  cbn [mbind result_mbind result_bind].
  by rewrite Hembed, Hhead.
Qed.
End w_pack_claim.

(** * The theorems at concrete inputs *)

Lemma w_pack_entry_sharded_witness :
  ∃ shard : Tensor sym,
    w_pack_shard scenario_config (mkPartition 2 1)
      (src_tensor float16 cpu [96%nat; 32%nat]) = Ok shard
    ∧ t_shape shard = [48%nat; 32%nat].
Proof.
  destruct (w_pack_entry_sharded scenario_config (mkPartition 2 1) ∅ false
              w_pack_name (src_tensor float16 cpu [96%nat; 32%nat]))
    as [(shard & Hshard & Hshape & _) _].
  - reflexivity.
  - reflexivity.
  - simpl. lia.
  - simpl. lia.
  - unfold partition_wf. simpl. lia.
  - vm_compute. reflexivity.
  - exists shard. split; [exact Hshard | exact Hshape].
Defined.

Lemma gate_up_shard_copy_witness :
  ∃ rows : Tensor sym,
    slice0 (src_tensor float16 cpu [16%nat; 2%nat]) (8 * 1) (8 * (1 + 1)) = Ok rows
    ∧ process_entry scenario_config (mkPartition 2 1)
        ({[ gate_up_name := fresh_param float16 cpu [16%nat; 2%nat] ]}, false)
        (up_name, src_tensor float16 cpu [16%nat; 2%nat])
      = Ok (<[ gate_up_name :=
                 overwrite_rows (fresh_param float16 cpu [16%nat; 2%nat]) 8 8 rows ]>
              {[ gate_up_name := fresh_param float16 cpu [16%nat; 2%nat] ]}, false).
Proof.
  destruct (gate_up_shard_copy scenario_config (mkPartition 2 1)
              {[ gate_up_name := fresh_param float16 cpu [16%nat; 2%nat] ]} false
              up_name (src_tensor float16 cpu [16%nat; 2%nat])
              (fresh_param float16 cpu [16%nat; 2%nat]) 32 [2%nat] 16 [2%nat]
              1 "up_proj")
    as (_ & rows & param_slice & Hrows & _ & Hslice & Hfit & Hcopy & _).
  - simpl. lia.
  - simpl. lia.
  - lia.
  - reflexivity.
  - reflexivity.
  - right. repeat split; reflexivity.
  - vm_compute. reflexivity.
  - reflexivity.
  - reflexivity.
  - exists rows. split; [exact Hrows|].
    apply Hcopy. rewrite Hslice.
    rewrite Hfit; [reflexivity | vm_compute; discriminate].
Defined.


Lemma lm_head_normalized_before_sharding_witness :
  process_entry scenario_config (mkPartition 2 0)
    ({[ "lm_head.weight" := fresh_param float16 cpu [2%nat; 2%nat] ]}, false)
    ("lm_head.weight", src_tensor float16 cpu [4%nat; 2%nat])
  = Ok ({[ "lm_head.weight" :=
             mkTensor float16 cpu [2%nat; 2%nat]
               ((λ i, Cast float32 float16 (Normalized (Cast float16 float32 (Src i))))
                  <$> seqZ 0 4) ]}, true).
Proof.
  destruct (lm_head_normalized_before_sharding scenario_config (mkPartition 2 0)
              {[ "lm_head.weight" := fresh_param float16 cpu [2%nat; 2%nat] ]}
              false (src_tensor float16 cpu [4%nat; 2%nat])
              (fresh_param float16 cpu [2%nat; 2%nat]))
    as (_ & _ & Hentry).
  - vm_compute. reflexivity.
  - rewrite Hentry. vm_compute. reflexivity.
Defined.

Lemma gate_up_scenario_rows_witness :
  process_entry scenario_config (mkPartition 2 1)
    ({[ gate_up_name := fresh_param float16 cpu [16%nat; 1%nat] ]}, false)
    (up_name, src_tensor float16 cpu [16%nat; 1%nat])
  = Ok ({[ gate_up_name :=
             mkTensor float16 cpu [16%nat; 1%nat]
               (replicate 8 (Src (-1)) ++ (Src <$> seqZ 8 8)) ]}, false).
Proof.
  destruct (gate_up_scenario_rows scenario_config (mkPartition 2 1)
              {[ gate_up_name := fresh_param float16 cpu [16%nat; 1%nat] ]} false
              up_name (src_tensor float16 cpu [16%nat; 1%nat])
              (fresh_param float16 cpu [16%nat; 1%nat]) 1%nat 1 "up_proj")
    as [Hentry _].
  - reflexivity.
  - reflexivity.
  - simpl. lia.
  - reflexivity.
  - reflexivity.
  - right. repeat split; reflexivity.
  - vm_compute. reflexivity.
  - reflexivity.
  - reflexivity.
  - rewrite Hentry. vm_compute. reflexivity.
Defined.

Lemma column_shards_partition_witness :
  let w : Tensor sym := src_tensor float16 cpu [16%nat; 2%nat] in
  let store : gmap string (Tensor sym) :=
    {[ gate_up_name := fresh_param float16 cpu [16%nat; 2%nat] ]} in
  process_entry scenario_config (mkPartition 2 0) (store, false) (up_name, w)
  = Ok (<[ gate_up_name :=
             overwrite_rows (fresh_param float16 cpu [16%nat; 2%nat]) 8 8
               (rows_of w 0 8) ]> store, false)
  ∧ process_entry scenario_config (mkPartition 2 1) (store, false) (up_name, w)
    = Ok (<[ gate_up_name :=
               overwrite_rows (fresh_param float16 cpu [16%nat; 2%nat]) 8 8
                 (rows_of w 8 8) ]> store, false)
  ∧ t_data (rows_of w 0 8) ++ t_data (rows_of w 8 8) = t_data w.
Proof.
  intros w store.
  destruct (column_shards_partition scenario_config 2 (λ _, store) false
              up_name w (λ _, fresh_param float16 cpu [16%nat; 2%nat])
              16 [2%nat] 1 "up_proj")
    as (Hload & Hjoin & _).
  - lia.
  - reflexivity.
  - reflexivity.
  - reflexivity.
  - right. repeat split; reflexivity.
  - intros rank _. split; [vm_compute; reflexivity|reflexivity].
  - reflexivity.
  - reflexivity.
  - split_and!.
    + exact (proj2 (proj2 (Hload 0 ltac:(lia)))).
    + exact (proj2 (proj2 (Hload 1 ltac:(lia)))).
    + exact Hjoin.
Defined.

Lemma rotary_inv_freq_discarded_witness :
  process_entry scenario_config (mkPartition 2 0)
    ({[ gate_up_name := fresh_param float16 cpu [16%nat; 1%nat] ]}, false)
    (inv_freq_name, src_tensor float32 cpu [4%nat])
  = Ok ({[ gate_up_name := fresh_param float16 cpu [16%nat; 1%nat] ]}, false).
Proof.
  apply (rotary_inv_freq_discarded scenario_config (mkPartition 2 0)
           {[ gate_up_name := fresh_param float16 cpu [16%nat; 1%nat] ]} false
           inv_freq_name (src_tensor float32 cpu [4%nat]) [] []).
  reflexivity.
Defined.

Lemma alibi_slopes_one_per_head_witness :
  ∃ slopes, _get_interleave 12 = Ok slopes ∧ length slopes = 12%nat.
Proof.
  destruct (alibi_slopes_one_per_head 12) as (slopes & Hget & Hlen & _).
  - lia.
  - exists slopes. split; [exact Hget | exact Hlen].
Defined.

Lemma MLP_init_activation_witness :
  @MLP_init spec_layers (mkPartition 2 0) 32 16 "relu"
  = Raise (ValueError (unsupported_activation "relu"))
  ∧ @MLP_init spec_layers (mkPartition 2 0) 32 16 "silu"
    = Ok (@mkMLP spec_layers (ColumnLinear 32 32 false false)
            (RowLinear 16 32 false true) SiluAndMulObj).
Proof.
  split.
  - apply (@MLP_init_activation spec_layers (mkPartition 2 0) 32 16 "relu"
             (ColumnLinear 32 32 false false) (RowLinear 16 32 false true)
             SiluAndMulObj); [reflexivity..|discriminate].
  - apply (@MLP_init_activation spec_layers (mkPartition 2 0) 32 16 "silu"
             (ColumnLinear 32 32 false false) (RowLinear 16 32 false true)
             SiluAndMulObj); reflexivity.
Defined.

(** * Further properties *)

(** ** The slope table, entry by entry *)

Lemma every_other_fmap {T U : Type} (f : T → U) (l : list T) :
  every_other (f <$> l) = f <$> every_other l.
Proof.
  enough (∀ n (k : list T), (length k ≤ n)%nat →
            every_other (f <$> k) = f <$> every_other k) as Hall
    by (by apply (Hall (length l))).
  clear l. induction n as [|n IH]; intros [|x [|y k]] Hk; simpl in *;
    try done; try lia.
  f_equal. apply IH. lia.
Qed.

Lemma every_other_seqZ (a : Z) (k : nat) :
  every_other (seqZ a (2 * Z.of_nat k)) = (λ i, a + 2 * i) <$> seqZ 0 (Z.of_nat k).
Proof.
  revert a. induction k as [|k IH]; intros a; [done|].
  rewrite (seqZ_cons a) by lia. rewrite (seqZ_cons (Z.succ a)) by lia.
  rewrite (seqZ_cons 0) by lia. simpl. f_equal; [lia|].
  replace (Z.pred (Z.pred (2 * Z.of_nat (S k)))) with (2 * Z.of_nat k) by lia.
  rewrite IH. replace (Z.pred (Z.of_nat (S k))) with (Z.of_nat k) by lia.
  rewrite <- (fmap_add_seqZ 1 0). rewrite <- list_fmap_compose.
  apply list_fmap_ext. intros _ i _. simpl. lia.
Qed.

Lemma py_list_slice_take {T : Type} (l : list T) (hi : Z) :
  0 ≤ hi → py_list_slice l 0 hi = take (Z.to_nat hi) l.
Proof.
  intros Hhi. unfold py_list_slice.
  rewrite py_slice_bounds_nonneg by lia.
  change (Z.to_nat 0) with 0%nat. rewrite Nat.min_0_l, Nat.sub_0_r, drop_0.
  destruct (decide (Z.to_nat hi ≤ length l)%nat).
  - by rewrite Nat.min_l by lia.
  - rewrite Nat.min_r by lia. rewrite !take_ge by lia. done.
Qed.

Lemma take_fmap_seqZ {T : Type} (f : Z → T) (k n : Z) :
  0 ≤ k ≤ n → take (Z.to_nat k) (f <$> seqZ 0 n) = f <$> seqZ 0 k.
Proof.
  intros Hk. rewrite <- fmap_take. f_equal.
  replace n with (k + (n - k)) by lia.
  rewrite seqZ_app by lia. rewrite take_app_length'; [done|].
  rewrite length_seqZ. lia.
Qed.

Lemma get_interleave_table (n : Z) :
  1 ≤ n → _get_interleave n = Ok (interleave_table n).
Proof.
  unfold interleave_table. funelim (_get_interleave n); intros Hn.
  - pose proof (proj1 (Z.ltb_ge _ _) e). lia.
  - by rewrite e.
  - rewrite Hnp.
    destruct (Z.log2_spec n) as [Hlo Hhi]; [lia|].
    pose proof (Z.log2_nonneg n) as Hlog.
    rewrite Z.pow_succ_r in Hhi by done.
    assert (0 < 2 ^ Z.log2 n) as Hc by (apply Z.pow_pos_nonneg; lia).
    rewrite get_interleave_power_of_2 by (lia || apply log2_is_integer_double).
    cbn [mbind result_mbind result_bind]. do 2 f_equal.
    unfold _get_interleave_power_of_2 at 1.
    rewrite every_other_fmap.
    rewrite <- (Z2Nat.id (2 ^ Z.log2 n)) at 2 by lia.
    rewrite every_other_seqZ. rewrite Z2Nat.id by lia.
    rewrite <- list_fmap_compose.
    rewrite py_list_slice_take by lia.
    rewrite take_fmap_seqZ by lia.
    apply list_fmap_ext. intros _ i _. simpl. f_equal.
Qed.

(** X1: head [i] of an [n]-head model gets the slope of index [i] of the
    table of [n] when [n] is a power of two; otherwise the slope of index
    [i] of the table of the closest power of two [c] below [n] when
    [i < c], and the slope of index [2 * (i - c)] of the table of [2 * c]
    when [i >= c]. *)
Theorem interleave_slope_at (n i : Z) :
  1 ≤ n → 0 ≤ i < n →
  ∃ slopes,
    _get_interleave n = Ok slopes
    ∧ slopes !! Z.to_nat i
      = Some (if log2_is_integer n then Slope n i
              else if decide (i < 2 ^ Z.log2 n) then Slope (2 ^ Z.log2 n) i
              else Slope (2 * 2 ^ Z.log2 n) (2 * (i - 2 ^ Z.log2 n))).
Proof.
  intros Hn Hi. exists (interleave_table n).
  split; [by apply get_interleave_table|].
  unfold interleave_table. destruct (log2_is_integer n).
  - rewrite list_lookup_fmap, lookup_seqZ_lt by lia. simpl. f_equal. f_equal. lia.
  - destruct (Z.log2_spec n) as [Hlo Hhi]; [lia|].
    assert (0 < 2 ^ Z.log2 n) as Hc
      by (apply Z.pow_pos_nonneg; [lia|apply Z.log2_nonneg]).
    destruct (decide (i < 2 ^ Z.log2 n)) as [Hlt|Hge].
    + rewrite lookup_app_l by (rewrite length_fmap, length_seqZ; lia).
      rewrite list_lookup_fmap, lookup_seqZ_lt by lia. simpl. do 2 f_equal. lia.
    + rewrite lookup_app_r by (rewrite length_fmap, length_seqZ; lia).
      rewrite length_fmap, length_seqZ.
      rewrite list_lookup_fmap, lookup_seqZ_lt by lia. simpl. do 2 f_equal. lia.
Qed.

Lemma get_interleave_Ok_pos (n : Z) (slopes : list slope) :
  _get_interleave n = Ok slopes → 1 ≤ n.
Proof.
  funelim (_get_interleave n); intros Hok; [done|..];
    pose proof (proj1 (Z.ltb_lt _ _) Hpos); lia.
Qed.

(** X2: [_get_interleave] returns a table exactly for the head counts
    [n >= 1]; for [n <= 0] it raises the domain error of [math.log2]. *)
Theorem get_interleave_domain (n : Z) :
  (is_ok (_get_interleave n) ↔ 1 ≤ n)
  ∧ (n ≤ 0 → _get_interleave n = Raise (ValueError "math domain error")).
Proof.
  split; [split|].
  - intros [slopes Hok]. by eapply get_interleave_Ok_pos.
  - intros Hn. eexists. by apply get_interleave_table.
  - funelim (_get_interleave n); intros Hn; [done|..];
      pose proof (proj1 (Z.ltb_lt _ _) Hpos); lia.
Qed.

(** X3: within one octave the table only grows: for head counts
    [n <= m] with the same closest power of two below them, the table of
    [n] is a prefix of the table of [m]. *)
Theorem interleave_prefix (n m : Z) :
  1 ≤ n → n ≤ m → m < 2 * 2 ^ Z.log2 n →
  ∃ slopes_n slopes_m,
    _get_interleave n = Ok slopes_n
    ∧ _get_interleave m = Ok slopes_m
    ∧ slopes_n `prefix_of` slopes_m.
Proof.
  intros Hn Hnm Hm.
  exists (interleave_table n), (interleave_table m).
  split_and!; [apply get_interleave_table; lia..|].
  pose proof (Z.log2_nonneg n) as Hlog.
  destruct (Z.log2_spec n) as [Hlo Hhi]; [lia|].
  assert (Z.log2 m = Z.log2 n) as Hlogm.
  { apply Z.log2_unique; [done|]. rewrite Z.pow_succ_r by done. lia. }
  unfold interleave_table, log2_is_integer. rewrite Hlogm.
  set (c := 2 ^ Z.log2 n) in *.
  destruct (decide (c = n)) as [Hcn|Hcn], (decide (c = m)) as [Hcm|Hcm].
  - rewrite !bool_decide_eq_true_2 by done. by replace m with n by lia.
  - rewrite bool_decide_eq_true_2, bool_decide_eq_false_2 by done.
    rewrite <- Hcn. by eexists.
  - lia.
  - rewrite !bool_decide_eq_false_2 by done.
    apply prefix_app. replace (m - c) with ((n - c) + (m - n)) by lia.
    rewrite seqZ_app by lia. rewrite fmap_app. by eexists.
Qed.

Lemma py_list_slice_chunk {T : Type} (l : list T) (size rank : Z) :
  0 ≤ size → 0 ≤ rank → (rank + 1) * size ≤ Z.of_nat (length l) →
  py_list_slice l (rank * size) ((rank + 1) * size)
  = take (Z.to_nat size) (drop (Z.to_nat rank * Z.to_nat size) l).
Proof.
  intros Hsize Hrank Hfit. unfold py_list_slice.
  rewrite py_slice_bounds_in_range by nia.
  f_equal; [lia|]. f_equal. nia.
Qed.

(** X4: when the head count is a multiple of the world size, the slices
    [head_start:head_end] that the ranks 0 .. world_size - 1 cut out of the
    ALiBi table are consecutive and cover it: concatenated in rank order
    they give the table back. *)
Theorem alibi_slices_partition (total_num_heads world_size : Z) :
  1 ≤ total_num_heads → 1 ≤ world_size →
  total_num_heads `mod` world_size = 0 →
  let num_heads := total_num_heads / world_size in
  ∃ slopes,
    _get_alibi_slopes total_num_heads = Ok slopes
    ∧ mjoin ((λ tp_rank, py_list_slice slopes (tp_rank * num_heads)
                           ((tp_rank + 1) * num_heads))
               <$> seqZ 0 world_size) = slopes.
Proof.
  intros Htotal Hws Hmod num_heads.
  destruct (get_interleave_length _ Htotal) as (slopes & Hget & Hlen).
  exists slopes. split; [unfold _get_alibi_slopes; by rewrite Hget|].
  assert (total_num_heads = world_size * num_heads) as Hexact
    by (apply Z.div_exact; lia).
  assert (0 ≤ num_heads) by nia.
  transitivity (mjoin (chunks (Z.to_nat num_heads) (Z.to_nat world_size) slopes));
    [|apply join_chunks; nia].
  rewrite chunks_seq, Z2Nat.id by lia. f_equal.
  apply list_fmap_ext.
  intros _ rank [Hlo Hhi]%list_elem_of_lookup_2%elem_of_seqZ.
  apply py_list_slice_chunk; nia.
Qed.

Lemma external_Ok_inv {T : Type} (callee : string) (o : option T) (v : T) :
  external callee o = Ok v → o = Some v.
Proof. destruct o; simpl; congruence. Qed.

Lemma py_floordiv_Ok_inv (a b q : Z) :
  py_floordiv a b = Ok q → b ≠ 0 ∧ q = a / b.
Proof.
  unfold py_floordiv. destruct (Z.eqb_spec b 0); [done|]. by intros [= <-].
Qed.

Lemma py_mod_Ok_inv (a b r : Z) :
  py_mod a b = Ok r → b ≠ 0 ∧ r = a `mod` b.
Proof.
  unfold py_mod. destruct (Z.eqb_spec b 0); [done|]. by intros [= <-].
Qed.

Lemma inv_sqrt_Ok_inv (d : Z) (s : scaling) :
  inv_sqrt d = Ok s → d ≠ 0 ∧ s = InvSqrt d.
Proof.
  unfold inv_sqrt. destruct (Z.eqb_spec d 0); [done|]. by intros [= <-].
Qed.

Section construction_invariants.
Context `{!Layers}.

Lemma attention_init_Ok tp hidden_size heads position_embedding a :
  BaichuanAttention_init tp hidden_size heads position_embedding = Ok a →
  tp_world_size tp ≠ 0
  ∧ heads `mod` tp_world_size tp = 0
  ∧ heads ≠ 0
  ∧ hidden_size / heads ≠ 0
  ∧ attn_hidden_size a = hidden_size
  ∧ total_num_heads a = heads
  ∧ num_heads a = heads / tp_world_size tp
  ∧ head_dim a = hidden_size / heads
  ∧ postion_embedding a = position_embedding
  ∧ ColumnParallelLinear hidden_size (3 * hidden_size) false false tp
    = Some (W_pack a)
  ∧ RowParallelLinear (heads * (hidden_size / heads)) hidden_size
      false true tp = Some (o_proj a)
  ∧ (position_embedding = "ALIBI" →
     ∃ slopes,
       _get_alibi_slopes heads = Ok slopes
       ∧ PagedAttentionWithALiBi (heads / tp_world_size tp)
           (hidden_size / heads) (InvSqrt (hidden_size / heads))
           (py_list_slice slopes
              (tp_rank tp * (heads / tp_world_size tp))
              ((tp_rank tp + 1) * (heads / tp_world_size tp)))
         = Some (attn a))
  ∧ (position_embedding ≠ "ALIBI" →
     PagedAttentionWithRoPE (heads / tp_world_size tp)
       (hidden_size / heads) (InvSqrt (hidden_size / heads))
       (hidden_size / heads) = Some (attn a)).
Proof.
  unfold BaichuanAttention_init.
  intros (r & [Hws ->]%py_mod_Ok_inv & Hinit)%bind_Ok_inv.
  destruct (Z.eqb_spec (heads `mod` tp_world_size tp) 0) as [Hmod|];
    [|done].
  cbn [negb] in Hinit.
  apply bind_Ok_inv in Hinit as (nh & [_ ->]%py_floordiv_Ok_inv & Hinit).
  apply bind_Ok_inv in Hinit as (hd & [Hheads ->]%py_floordiv_Ok_inv & Hinit).
  apply bind_Ok_inv in Hinit as (wp & Hwp%external_Ok_inv & Hinit).
  apply bind_Ok_inv in Hinit as (op & Hop%external_Ok_inv & Hinit).
  case_bool_decide as Hpos.
  - apply bind_Ok_inv in Hinit as (slopes & Hslopes & Hinit).
    apply bind_Ok_inv in Hinit as (sc & [Hhd ->]%inv_sqrt_Ok_inv & Hinit).
    apply bind_Ok_inv in Hinit as (at' & Hattn%external_Ok_inv & Hinit).
    injection Hinit as <-. cbn.
    split_and!; try done. intros _. by exists slopes.
  - apply bind_Ok_inv in Hinit as (sc & [Hhd ->]%inv_sqrt_Ok_inv & Hinit).
    apply bind_Ok_inv in Hinit as (at' & Hattn%external_Ok_inv & Hinit).
    injection Hinit as <-. cbn.
    split_and!; done.
Qed.

(** X5: a constructed attention block has a non-zero head count that the
    world size divides exactly, [num_heads * world_size = total_num_heads],
    a non-zero [head_dim = hidden_size // total_num_heads], and its
    attention operator is the ALiBi one, built on the [num_heads] slopes of
    this rank, exactly when the position embedding is "ALIBI"; otherwise
    it is the rotary one with [rotary_dim = head_dim]. *)
Theorem attention_init_invariants tp hidden_size heads position_embedding a :
  BaichuanAttention_init tp hidden_size heads position_embedding = Ok a →
  tp_world_size tp ≠ 0
  ∧ heads ≠ 0
  ∧ total_num_heads a = heads
  ∧ num_heads a * tp_world_size tp = total_num_heads a
  ∧ head_dim a = hidden_size / heads
  ∧ head_dim a ≠ 0
  ∧ (position_embedding = "ALIBI" →
     ∃ slopes,
       _get_alibi_slopes heads = Ok slopes
       ∧ PagedAttentionWithALiBi (num_heads a) (head_dim a)
           (InvSqrt (head_dim a))
           (py_list_slice slopes (tp_rank tp * num_heads a)
              ((tp_rank tp + 1) * num_heads a)) = Some (attn a)
       ∧ (partition_wf tp →
          length (py_list_slice slopes (tp_rank tp * num_heads a)
                    ((tp_rank tp + 1) * num_heads a))
          = Z.to_nat (num_heads a)))
  ∧ (position_embedding ≠ "ALIBI" →
     PagedAttentionWithRoPE (num_heads a) (head_dim a) (InvSqrt (head_dim a))
       (head_dim a) = Some (attn a)).
Proof.
  intros (Hws & Hmod & Hheads & Hhd & _ & Htotal & Hnum & Hdim & _ & _ & _
          & Halibi & Hrope)%attention_init_Ok.
  rewrite Htotal, Hnum, Hdim.
  assert (heads = tp_world_size tp * (heads / tp_world_size tp)) as Hexact
    by (by apply Z.div_exact).
  split_and!; [done|done|done|lia|done|done| |done].
  intros Hpos. destruct (Halibi Hpos) as (slopes & Hslopes & Hattn).
  exists slopes. split_and!; [done..|].
  intros [Hws1 Hrank].
  unfold _get_alibi_slopes in Hslopes.
  apply bind_Ok_inv in Hslopes as (slopes' & Hget & [= ->]).
  pose proof (get_interleave_Ok_pos _ _ Hget) as Hpos1.
  destruct (get_interleave_length heads Hpos1) as (slopes'' & Hget' & Hlen).
  rewrite Hget in Hget'. injection Hget' as <-.
  rewrite length_py_list_slice by nia. f_equal. lia.
Qed.

(** X6: a head count of zero, and a hidden size below the head count,
    both end the construction of the attention block in a
    [ZeroDivisionError]: the first at [hidden_size // total_num_heads],
    the second, once the two projections are built, at [head_dim**-0.5]. *)
Theorem attention_init_zero_division tp hidden_size heads position_embedding
    w_pack o_proj :
  tp_world_size tp ≠ 0 → heads `mod` tp_world_size tp = 0 →
  (heads = 0 →
   BaichuanAttention_init tp hidden_size heads position_embedding
   = Raise ZeroDivisionError)
  ∧ (1 ≤ heads → 0 ≤ hidden_size < heads →
     ColumnParallelLinear hidden_size (3 * hidden_size) false false tp
       = Some w_pack →
     RowParallelLinear (heads * (hidden_size / heads)) hidden_size false true tp
       = Some o_proj →
     BaichuanAttention_init tp hidden_size heads position_embedding
     = Raise ZeroDivisionError).
Proof.
  intros Hws Hmod. unfold BaichuanAttention_init, py_mod, py_floordiv.
  destruct (Z.eqb_spec (tp_world_size tp) 0) as [?|_]; [done|].
  cbn [mbind result_mbind result_bind]. rewrite Hmod.
  cbn [Z.eqb negb mbind result_mbind result_bind].
  split.
  - intros ->. reflexivity.
  - intros Hheads Hhidden Hwp Hop.
    destruct (Z.eqb_spec heads 0) as [?|_]; [lia|].
    cbn [mbind result_mbind result_bind]. rewrite Hwp, Hop.
    cbn [external mbind result_mbind result_bind].
    assert (hidden_size / heads = 0) as Hzero by (apply Z.div_small; lia).
    unfold inv_sqrt. rewrite Hzero. cbn [Z.eqb].
    case_bool_decide; [|done].
    destruct (get_interleave_length heads Hheads) as (slopes & Hget & _).
    unfold _get_alibi_slopes. rewrite Hget. reflexivity.
Qed.

Lemma MLP_init_Ok tp hidden_size intermediate_size hidden_act m :
  MLP_init tp hidden_size intermediate_size hidden_act = Ok m →
  hidden_act = "silu".
Proof.
  unfold MLP_init.
  intros (? & _ & Hinit)%bind_Ok_inv.
  apply bind_Ok_inv in Hinit as (? & _ & Hinit).
  case_bool_decide as Hact; [done|].
  by destruct (decide (hidden_act = "silu")).
Qed.

Lemma layer_init_Ok tp config position_embedding l :
  BaichuanLayer_init tp config position_embedding = Ok l →
  BaichuanAttention_init tp (hidden_size config) (num_attention_heads config)
    position_embedding = Ok (self_attn l)
  ∧ hidden_act config = "silu".
Proof.
  unfold BaichuanLayer_init.
  intros (a & Ha & Hinit)%bind_Ok_inv.
  apply bind_Ok_inv in Hinit as (m & Hm%MLP_init_Ok & Hinit).
  apply bind_Ok_inv in Hinit as (? & _ & Hinit).
  apply bind_Ok_inv in Hinit as (? & _ & Hinit).
  injection Hinit as <-. done.
Qed.

Lemma build_layers_Ok tp config position_embedding indices ls :
  build_layers tp config position_embedding indices = Ok ls →
  length ls = length indices
  ∧ Forall (λ l, BaichuanLayer_init tp config position_embedding = Ok l) ls.
Proof.
  revert ls. induction indices as [|i indices IH]; intros ls; simpl.
  - intros [= <-]. by split.
  - intros (l & Hl & Hrest)%bind_Ok_inv.
    apply bind_Ok_inv in Hrest as (ls' & [Hlen Hall]%IH & [= <-]).
    split; [simpl; by rewrite Hlen|by constructor].
Qed.

(** X7: a constructed model has exactly [num_hidden_layers] decoder
    layers (none when the count is not positive), keeps the configuration
    it was built from, and every one of its layers has the per-rank head
    count [num_attention_heads // world_size], exact, and the position
    embedding of the variant; a model with a layer was built from a
    configuration whose activation is "silu" and whose head count the
    world size divides. *)
Theorem causal_lm_init_invariants tp config position_embedding m :
  BaiChuanBaseForCausalLM_init tp config position_embedding = Ok m →
  lm_config m = config
  ∧ length (layers (model m)) = Z.to_nat (num_hidden_layers config)
  ∧ Forall (λ l,
      total_num_heads (self_attn l) = num_attention_heads config
      ∧ num_heads (self_attn l) * tp_world_size tp = num_attention_heads config
      ∧ postion_embedding (self_attn l) = position_embedding)
      (layers (model m))
  ∧ (0 < num_hidden_layers config →
     hidden_act config = "silu"
     ∧ num_attention_heads config `mod` tp_world_size tp = 0
     ∧ num_attention_heads config ≠ 0).
Proof.
  unfold BaiChuanBaseForCausalLM_init, BaichuanModel_init.
  intros (mdl & Hmdl & Hinit)%bind_Ok_inv.
  apply bind_Ok_inv in Hinit as (? & _ & Hinit).
  apply bind_Ok_inv in Hinit as (? & _ & Hinit).
  injection Hinit as <-. cbn.
  apply bind_Ok_inv in Hmdl as (? & _ & Hmdl).
  apply bind_Ok_inv in Hmdl as (ls & [Hlen Hall]%build_layers_Ok & Hmdl).
  apply bind_Ok_inv in Hmdl as (? & _ & Hmdl).
  injection Hmdl as <-. cbn.
  rewrite length_seqZ in Hlen.
  split_and!; [done|done| |].
  - eapply Forall_impl; [exact Hall|]. intros l [Hattn _]%layer_init_Ok.
    apply attention_init_Ok in Hattn
      as (Hws & Hmod & _ & _ & _ & -> & -> & _ & -> & _).
    split_and!; [done| |done].
    symmetry. rewrite Z.mul_comm. by apply Z.div_exact.
  - intros Hlayers. destruct ls as [|l ls]; [simpl in Hlen; lia|].
    apply Forall_cons in Hall as [[Hattn Hact]%layer_init_Ok _].
    apply attention_init_Ok in Hattn as (_ & Hmod & Hheads & _).
    done.
Qed.
End construction_invariants.

(** ** What an entry may touch *)

Section frame.
Context {A : Type} `{!TorchOps A, !WeightUtils A}.
Implicit Types (state_dict : gmap string (Tensor A)) (w : Tensor A).

Lemma state_dict_get_Ok_inv state_dict key param :
  state_dict_get state_dict key = Ok param → state_dict !! key = Some param.
Proof. unfold state_dict_get. case_match; [by intros [= <-]|done]. Qed.

Lemma copy_slice0_meta param lo hi w :
  t_shape (copy_slice0 param lo hi w) = t_shape param
  ∧ t_dtype (copy_slice0 param lo hi w) = t_dtype param
  ∧ t_device (copy_slice0 param lo hi w) = t_device param.
Proof.
  unfold copy_slice0. destruct (t_shape param) eqn:Hshape; [by rewrite Hshape|].
  by destruct (py_slice_bounds _ _ _).
Qed.

Lemma gate_up_loop_Some items tp name w state_dict state_dict' :
  gate_up_loop items tp name w state_dict = Ok (Some state_dict') →
  ∃ stride_id weight_name param param',
    (stride_id, weight_name) ∈ items
    ∧ py_in weight_name name = true
    ∧ state_dict !! py_replace name weight_name "gate_up_proj" = Some param
    ∧ state_dict' = <[py_replace name weight_name "gate_up_proj" := param']> state_dict
    ∧ t_shape param' = t_shape param
    ∧ t_dtype param' = t_dtype param
    ∧ t_device param' = t_device param.
Proof.
  induction items as [|[stride_id weight_name] items IH]; simpl; [done|].
  destruct (py_in weight_name name) eqn:Hin; simpl.
  - intros (param & Hparam%state_dict_get_Ok_inv & Hloop)%bind_Ok_inv.
    apply bind_Ok_inv in Hloop as (dim0 & _ & Hloop).
    apply bind_Ok_inv in Hloop as (rows & _ & Hloop).
    apply bind_Ok_inv in Hloop as (param_slice & _ & Hloop).
    case_bool_decide; [|done]. injection Hloop as <-.
    eexists stride_id, weight_name, param, _.
    split_and!; [by left|done|done|done|apply copy_slice0_meta..].
  - intros (s & n & p & p' & Hin' & Hrest)%IH.
    exists s, n, p, p'. split; [by right|done].
Qed.

Lemma process_entry_frame config tp state_dict flag name w state_dict' flag' :
  process_entry config tp (state_dict, flag) (name, w) = Ok (state_dict', flag') →
  state_dict' = state_dict
  ∨ ∃ key param', key ∈ entry_targets name
      ∧ is_Some (state_dict !! key)
      ∧ state_dict' = <[key := param']> state_dict.
Proof.
  unfold process_entry. case_match; [intros [= <- <-]; by left|].
  intros (w' & _ & Hentry)%bind_Ok_inv.
  apply bind_Ok_inv in Hentry as (gate_up & Hloop & Hentry).
  destruct gate_up as [sd1|].
  - injection Hentry as <- <-.
    apply gate_up_loop_Some in Hloop
      as (s & n & p & p' & Hin & _ & Hp & -> & _).
    right. exists (py_replace name n "gate_up_proj"), p'.
    split_and!; [|by eexists|done].
    unfold entry_targets.
    apply elem_of_cons in Hin as [[= -> ->]|Hin]; [set_solver|].
    apply elem_of_cons in Hin as [[= -> ->]|Hin]; [set_solver|].
    by apply elem_of_nil in Hin.
  - apply bind_Ok_inv in Hentry as (param & Hparam%state_dict_get_Ok_inv & Hentry).
    apply bind_Ok_inv in Hentry as ([w'' f''] & _ & Hentry).
    right. exists name.
    case_match; apply bind_Ok_inv in Hentry as (p' & _ & [= <- <-]);
      exists p'; (split_and!; [set_solver|by eexists|done]).
Qed.

Lemma load_entries_dom config tp (stream : list (string * Tensor A))
    state_dict flag state_dict' flag' :
  load_entries config tp stream (state_dict, flag) = Ok (state_dict', flag') →
  dom state_dict' = dom state_dict.
Proof.
  revert state_dict flag.
  induction stream as [|[name w] stream IH]; intros state_dict flag; simpl.
  - by intros [= <- _].
  - intros ([sd1 f1] & Hstep & Hrest)%bind_Ok_inv.
    apply IH in Hrest as ->.
    apply process_entry_frame in Hstep as [->|(key & p' & _ & Hkey & ->)];
      [done|].
    by apply dom_insert_lookup_L.
Qed.

(** X10: a load that completes has neither created nor removed a
    parameter: the store it returns has the names of the store it was
    given (the loader writes into existing storage only). *)
Theorem load_weights_preserves_names config tp state_dict
    (stream : list (string * Tensor A)) state_dict' :
  load_weights config tp state_dict stream = Ok state_dict' →
  dom state_dict' = dom state_dict.
Proof.
  unfold load_weights.
  intros ([sd' flag'] & Hload & Hfinal)%bind_Ok_inv.
  destruct flag'; [|done]. injection Hfinal as <-.
  by eapply load_entries_dom.
Qed.

(** X11: one entry of the stream changes at most one parameter of the
    store, and only one it names: the parameter of its own name or, for a
    gate or up projection, the fused parameter its name is rewritten to;
    every other parameter is left as it was. *)
Theorem process_entry_touches_one config tp state_dict flag name w
    state_dict' flag' :
  process_entry config tp (state_dict, flag) (name, w) = Ok (state_dict', flag') →
  ∃ key, key ∈ entry_targets name
    ∧ ∀ other, other ≠ key → state_dict' !! other = state_dict !! other.
Proof.
  intros [->|(key & p' & Hkey & _ & ->)]%process_entry_frame.
  - exists name. split; [set_solver|done].
  - exists key. split; [done|]. intros other Hne. by rewrite lookup_insert_ne.
Qed.

Lemma gate_up_loop_case tp name w state_dict stride_id weight_name :
  gate_up_case name stride_id weight_name →
  py_in weight_name name = true
  ∧ gate_up_loop (enumerate ["gate_proj"; "up_proj"]) tp name w state_dict
    = gate_up_loop [(stride_id, weight_name)] tp name w state_dict.
Proof.
  intros [(Hg & -> & ->)|(Hg & Hu & -> & ->)]; (split; [done|]); simpl;
    rewrite Hg; simpl; [done|]. by rewrite Hu.
Qed.

Lemma load_entries_fail_fast config tp (pre post : list (string * Tensor A))
    entry st st' e :
  load_entries config tp pre st = Ok st' →
  process_entry config tp st' entry = Raise e →
  load_entries config tp (pre ++ entry :: post) st = Raise e.
Proof.
  intros Hpre Hentry. rewrite load_entries_app, Hpre. simpl. by rewrite Hentry.
Qed.

(** X8: an entry that is not skipped and whose destination is not a
    parameter of the model aborts the load with a [KeyError] naming the
    missing parameter: the name of the entry itself, or, for an entry with
    a gate or up marker, the name rewritten to the fused parameter.  The
    entries after it are not looked at. *)
Theorem unknown_name_aborts config tp state_dict
    (pre post : list (string * Tensor A)) name w :
  is_ok (load_entries config tp pre (state_dict, false)) →
  py_in "rotary_emb.inv_freq" name = false →
  py_in "W_pack" name = false →
  (py_in "gate_proj" name = false → py_in "up_proj" name = false →
   name ∉ dom state_dict →
   load_weights config tp state_dict (pre ++ (name, w) :: post)
   = Raise (KeyError name))
  ∧ (∀ stride_id weight_name,
       gate_up_case name stride_id weight_name →
       py_replace name weight_name "gate_up_proj" ∉ dom state_dict →
       load_weights config tp state_dict (pre ++ (name, w) :: post)
       = Raise (KeyError (py_replace name weight_name "gate_up_proj"))).
Proof.
  intros [[sd1 f1] Hpre] Hskip Hpack.
  pose proof (load_entries_dom _ _ _ _ _ _ _ Hpre) as Hdom.
  split.
  - intros Hgate Hup Hname. unfold load_weights.
    erewrite load_entries_fail_fast; [done|exact Hpre|].
    unfold process_entry. rewrite Hskip, Hpack.
    cbn [mbind result_mbind result_bind].
    rewrite gate_up_loop_no_marker by done.
    cbn [mbind result_mbind result_bind]. unfold state_dict_get.
    rewrite (proj1 (not_elem_of_dom sd1 name)); [done|]. by rewrite Hdom.
  - intros stride_id weight_name Hcase Hkey. unfold load_weights.
    erewrite load_entries_fail_fast; [done|exact Hpre|].
    unfold process_entry. rewrite Hskip, Hpack.
    cbn [mbind result_mbind result_bind].
    assert (sd1 !! py_replace name weight_name "gate_up_proj" = None) as Hnone.
    { apply not_elem_of_dom. by rewrite Hdom. }
    destruct (gate_up_loop_case tp name (convert_pyslice_to_tensor w) sd1 _ _
                Hcase) as [Hin ->].
    cbn [gate_up_loop]. rewrite Hin. cbn [negb].
    unfold state_dict_get. by rewrite Hnone.
Qed.
End frame.

(** ** The fused destination across entries *)

Section fused_destination.
Context {A : Type} `{!TorchOps A, !WeightUtils A}.
Implicit Types (state_dict : gmap string (Tensor A)) (w param : Tensor A).

Lemma length_to_dtype d (t : Tensor A) :
  length (t_data (to_dtype d t)) = length (t_data t).
Proof. unfold to_dtype. case_decide; [done|]. simpl. by rewrite length_fmap. Qed.

Lemma length_rows_of (t : Tensor A) m rest lo len :
  t_shape t = m :: rest → tensor_wf t → (lo + len ≤ m)%nat →
  length (t_data (rows_of t lo len)) = (len * numel rest)%nat.
Proof.
  intros Hshape Hwf Hfit. unfold tensor_wf in Hwf. rewrite Hshape in Hwf.
  simpl in Hwf. unfold rows_of. rewrite Hshape. simpl.
  rewrite length_take, length_drop. nia.
Qed.

Lemma overwrite_rows_wf param n rest start len rows :
  t_shape param = n :: rest → tensor_wf param → (start + len ≤ n)%nat →
  length (t_data rows) = (len * numel rest)%nat →
  tensor_wf (overwrite_rows param start len rows).
Proof.
  intros Hshape Hwf Hfit Hrows. unfold tensor_wf in *.
  unfold overwrite_rows. rewrite Hshape in *. simpl in *.
  rewrite !length_app, length_take, length_drop, length_to_dtype. nia.
Qed.

Lemma overwrite_rows_twice param n rest start len rows :
  t_shape param = n :: rest → tensor_wf param → (start + len ≤ n)%nat →
  length (t_data rows) = (len * numel rest)%nat →
  overwrite_rows (overwrite_rows param start len rows) start len rows
  = overwrite_rows param start len rows.
Proof.
  intros Hshape Hwf Hfit Hrows. unfold tensor_wf in Hwf.
  rewrite Hshape in Hwf. simpl in Hwf.
  unfold overwrite_rows. simpl. rewrite Hshape. simpl. f_equal.
  set (row := numel rest) in *.
  set (r := t_data (to_dtype (t_dtype param) rows)).
  assert (length r = (len * row)%nat) as Hr
    by (subst r; by rewrite length_to_dtype).
  assert (length (take (start * row) (t_data param)) = (start * row)%nat) as Ht
    by (rewrite length_take; nia).
  rewrite take_app_length' by done. f_equal. f_equal.
  rewrite app_assoc. rewrite drop_app_length'; [done|].
  rewrite length_app. lia.
Qed.

Lemma gate_up_entry_shapes config tp state_dict flag name w param stride_id
    weight_name st' :
  py_in "rotary_emb.inv_freq" name = false →
  py_in "W_pack" name = false →
  gate_up_case name stride_id weight_name →
  state_dict !! py_replace name weight_name "gate_up_proj" = Some param →
  process_entry config tp (state_dict, flag) (name, w) = Ok st' →
  ∃ n rest m rest',
    t_shape param = n :: rest
    ∧ t_shape (convert_pyslice_to_tensor w) = m :: rest'.
Proof.
  intros Hskip Hpack Hcase Hparam. unfold process_entry.
  rewrite Hskip, Hpack. cbn [mbind result_mbind result_bind].
  destruct (gate_up_loop_case tp name (convert_pyslice_to_tensor w) state_dict
              _ _ Hcase) as [Hin ->].
  cbn [gate_up_loop]. rewrite Hin. cbn [negb].
  unfold state_dict_get. rewrite Hparam. cbn [mbind result_mbind result_bind].
  unfold shape0, slice0.
  destruct (t_shape param) as [|n rest]; [done|].
  cbn [mbind result_mbind result_bind].
  destruct (t_shape (convert_pyslice_to_tensor w)) as [|m rest']; [done|].
  intros _. by eexists _, _, _, _.
Qed.

(** X12: a gate or up entry that is loaded leaves the fused destination
    with the shape, element type and device it had, and, when the loaded
    tensor and the destination hold as many elements as their shapes
    announce, so does the destination afterwards; the normalisation flag
    is not touched. *)
Theorem gate_up_entry_keeps_destination config tp state_dict flag name w param
    stride_id weight_name state_dict' flag' :
  0 ≤ tp_rank tp →
  py_in "rotary_emb.inv_freq" name = false →
  py_in "W_pack" name = false →
  gate_up_case name stride_id weight_name →
  state_dict !! py_replace name weight_name "gate_up_proj" = Some param →
  tensor_wf param → tensor_wf (convert_pyslice_to_tensor w) →
  process_entry config tp (state_dict, flag) (name, w) = Ok (state_dict', flag') →
  flag' = flag
  ∧ ∃ param',
      state_dict' !! py_replace name weight_name "gate_up_proj" = Some param'
      ∧ t_shape param' = t_shape param
      ∧ t_dtype param' = t_dtype param
      ∧ t_device param' = t_device param
      ∧ tensor_wf param'.
Proof.
  intros Hrank Hskip Hpack Hcase Hparam Hwf Hwfw Hentry.
  destruct (gate_up_entry_shapes _ _ _ _ _ _ _ _ _ _ Hskip Hpack Hcase Hparam
              Hentry) as (n & rest & m & rest' & Hshape & Hloaded).
  rewrite (gate_up_entry_spec config tp state_dict flag name w param n rest m
             rest' stride_id weight_name) in Hentry by done.
  cbv zeta in Hentry. set (shard := (n / 2)%nat) in *.
  case_bool_decide as Heq; [|done].
  injection Hentry as <- <-. split; [done|].
  injection Heq as Hlen <-.
  eexists. rewrite lookup_insert_eq. split_and!; [done..|].
  assert (2 * shard ≤ n)%nat
    by (subst shard; pose proof (Nat.Div0.mul_div_le n 2); lia).
  assert (stride_id = 0 ∨ stride_id = 1) as Hstride
    by (destruct Hcase as [(_ & ? & _)|(_ & _ & ? & _)]; auto).
  eapply overwrite_rows_wf; [done|done|destruct Hstride as [-> | ->]; lia|].
  unfold rows_of. rewrite Hloaded. cbn [t_data tail].
  unfold tensor_wf in Hwfw. rewrite Hloaded in Hwfw. simpl in Hwfw.
  rewrite length_take, length_drop. rewrite <- Hlen. nia.
Qed.

(** X14: loading the same gate or up entry a second time changes
    nothing: the outcome of processing it twice is the outcome of
    processing it once. *)
Theorem gate_up_entry_idempotent config tp state_dict flag name w param
    stride_id weight_name :
  0 ≤ tp_rank tp →
  py_in "rotary_emb.inv_freq" name = false →
  py_in "W_pack" name = false →
  gate_up_case name stride_id weight_name →
  state_dict !! py_replace name weight_name "gate_up_proj" = Some param →
  tensor_wf param → tensor_wf (convert_pyslice_to_tensor w) →
  load_entries config tp [(name, w); (name, w)] (state_dict, flag)
  = load_entries config tp [(name, w)] (state_dict, flag).
Proof.
  intros Hrank Hskip Hpack Hcase Hparam Hwf Hwfw.
  cbn [load_entries].
  destruct (process_entry config tp (state_dict, flag) (name, w))
    as [[sd1 f1]|e] eqn:Hentry; [|reflexivity].
  cbn [mbind result_mbind result_bind].
  destruct (gate_up_entry_shapes _ _ _ _ _ _ _ _ _ _ Hskip Hpack Hcase Hparam
              Hentry) as (n & rest & m & rest' & Hshape & Hloaded).
  rewrite (gate_up_entry_spec config tp state_dict flag name w param n rest m
             rest' stride_id weight_name) in Hentry by done.
  cbv zeta in Hentry. set (shard := (n / 2)%nat) in *.
  case_bool_decide as Heq; [|done].
  injection Hentry as <- <-.
  injection Heq as Hlen <-.
  set (key := py_replace name weight_name "gate_up_proj") in *.
  set (lo := ((shard * Z.to_nat (tp_rank tp)) `min` m)%nat) in *.
  rewrite <- Hlen.
  set (rows := rows_of (convert_pyslice_to_tensor w) lo shard) in *.
  set (p1 := overwrite_rows param (shard * Z.to_nat stride_id) shard rows).
  rewrite (gate_up_entry_spec config tp (<[key := p1]> state_dict) flag name w
             p1 n rest m rest stride_id weight_name)
    by (done || apply lookup_insert_eq).
  cbv zeta. fold shard lo. rewrite <- Hlen. fold rows.
  rewrite bool_decide_eq_true_2 by done.
  rewrite insert_insert_eq. cbn [mbind result_mbind result_bind].
  do 3 f_equal. subst p1.
  assert (2 * shard ≤ n)%nat
    by (pose proof (Nat.Div0.mul_div_le n 2); subst shard; lia).
  assert (stride_id = 0 ∨ stride_id = 1) as Hstride
    by (destruct Hcase as [(_ & ? & _)|(_ & _ & ? & _)]; auto).
  eapply overwrite_rows_twice;
    [done|done|destruct Hstride as [-> | ->]; lia|].
  subst rows. unfold rows_of. rewrite Hloaded. cbn [t_data tail].
  unfold tensor_wf in Hwfw. rewrite Hloaded in Hwfw. simpl in Hwfw.
  rewrite length_take, length_drop. subst lo. nia.
Qed.

Lemma overwrite_halves {T : Type} (pd g u : list T) (s : nat) :
  length g = s → length u = s → length pd = (s + s)%nat →
  take s (take 0 pd ++ g ++ drop s pd) ++ u
    ++ drop (s + s) (take 0 pd ++ g ++ drop s pd) = g ++ u
  ∧ take 0 (take s pd ++ u ++ drop (s + s) pd) ++ g
      ++ drop s (take s pd ++ u ++ drop (s + s) pd) = g ++ u.
Proof.
  intros Hg Hu Hpd. rewrite !take_0. cbn [app]. split.
  - rewrite take_app_length' by done. f_equal.
    rewrite (drop_ge (g ++ _)) by (rewrite length_app, length_drop; lia).
    by rewrite app_nil_r.
  - f_equal. rewrite (drop_ge pd) by lia. rewrite app_nil_r.
    rewrite drop_app_length'; [done|]. rewrite length_take. lia.
Qed.

Lemma gate_up_entry_fits config tp state_dict flag name w param shard rest m
    stride_id weight_name :
  0 ≤ tp_rank tp →
  py_in "rotary_emb.inv_freq" name = false →
  py_in "W_pack" name = false →
  gate_up_case name stride_id weight_name →
  state_dict !! py_replace name weight_name "gate_up_proj" = Some param →
  t_shape param = (2 * shard)%nat :: rest →
  t_shape (convert_pyslice_to_tensor w) = m :: rest →
  (shard * (Z.to_nat (tp_rank tp) + 1) ≤ m)%nat →
  process_entry config tp (state_dict, flag) (name, w)
  = Ok (<[py_replace name weight_name "gate_up_proj" :=
            overwrite_rows param (shard * Z.to_nat stride_id) shard
              (rows_of (convert_pyslice_to_tensor w)
                 (shard * Z.to_nat (tp_rank tp)) shard)]> state_dict, flag).
Proof.
  intros Hrank Hskip Hpack Hcase Hparam Hshape Hloaded Hfit.
  rewrite (gate_up_entry_spec config tp state_dict flag name w param
             (2 * shard) rest m rest stride_id weight_name) by done.
  cbv zeta.
  replace ((2 * shard) `div` 2)%nat with shard
    by (apply (Nat.div_unique _ 2 shard 0); lia).
  replace ((shard * Z.to_nat (tp_rank tp)) `min` m)%nat
    with (shard * Z.to_nat (tp_rank tp))%nat by lia.
  replace ((shard * (Z.to_nat (tp_rank tp) + 1)) `min` m
           - shard * Z.to_nat (tp_rank tp))%nat with shard by lia.
  by rewrite bool_decide_eq_true_2.
Qed.

(** X13: the gate entry and the up entry of one fused destination fill
    it completely, whatever their order in the stream: for a destination
    of [2 * shard] rows, after both entries its first [shard] rows are the
    rows [shard * rank, shard * (rank + 1)) of the gate projection and its
    last [shard] rows those of the up projection, and nothing of its
    former contents is left. *)
Theorem gate_and_up_fill config tp state_dict flag name_g name_u w_g w_u param
    key shard rest m_g m_u :
  0 ≤ tp_rank tp →
  py_in "rotary_emb.inv_freq" name_g = false →
  py_in "rotary_emb.inv_freq" name_u = false →
  py_in "W_pack" name_g = false → py_in "W_pack" name_u = false →
  py_in "gate_proj" name_g = true →
  py_in "gate_proj" name_u = false → py_in "up_proj" name_u = true →
  py_replace name_g "gate_proj" "gate_up_proj" = key →
  py_replace name_u "up_proj" "gate_up_proj" = key →
  state_dict !! key = Some param →
  t_shape param = (2 * shard)%nat :: rest → tensor_wf param →
  t_shape (convert_pyslice_to_tensor w_g) = m_g :: rest →
  t_shape (convert_pyslice_to_tensor w_u) = m_u :: rest →
  tensor_wf (convert_pyslice_to_tensor w_g) →
  tensor_wf (convert_pyslice_to_tensor w_u) →
  (shard * (Z.to_nat (tp_rank tp) + 1) ≤ m_g)%nat →
  (shard * (Z.to_nat (tp_rank tp) + 1) ≤ m_u)%nat →
  let rank := Z.to_nat (tp_rank tp) in
  let filled :=
    mkTensor (t_dtype param) (t_device param) ((2 * shard)%nat :: rest)
      (t_data (to_dtype (t_dtype param)
                 (rows_of (convert_pyslice_to_tensor w_g) (shard * rank) shard))
       ++ t_data (to_dtype (t_dtype param)
                    (rows_of (convert_pyslice_to_tensor w_u) (shard * rank) shard))) in
  load_entries config tp [(name_g, w_g); (name_u, w_u)] (state_dict, flag)
  = Ok (<[key := filled]> state_dict, flag)
  ∧ load_entries config tp [(name_u, w_u); (name_g, w_g)] (state_dict, flag)
    = Ok (<[key := filled]> state_dict, flag).
Proof.
  intros Hrank Hskip_g Hskip_u Hpack_g Hpack_u Hgate Hgate_u Hup Hkey_g Hkey_u
    Hparam Hshape Hwf Hshape_g Hshape_u Hwf_g Hwf_u Hfit_g Hfit_u rank filled.
  assert (gate_up_case name_g 0 "gate_proj") as Hcase_g by (by left).
  assert (gate_up_case name_u 1 "up_proj") as Hcase_u by (by right).
  set (rows_g := rows_of (convert_pyslice_to_tensor w_g) (shard * rank) shard)
    in *.
  set (rows_u := rows_of (convert_pyslice_to_tensor w_u) (shard * rank) shard)
    in *.
  set (row := numel rest).
  assert (length (t_data (to_dtype (t_dtype param) rows_g)) = (shard * row)%nat)
    as Hlen_g.
  { rewrite length_to_dtype. by eapply length_rows_of; [done|done|lia]. }
  assert (length (t_data (to_dtype (t_dtype param) rows_u)) = (shard * row)%nat)
    as Hlen_u.
  { rewrite length_to_dtype. by eapply length_rows_of; [done|done|lia]. }
  assert (length (t_data param) = (2 * shard * row)%nat) as Hlen.
  { unfold tensor_wf in Hwf. rewrite Hshape in Hwf. simpl in Hwf.
    subst row. lia. }
  destruct (overwrite_halves (t_data param)
              (t_data (to_dtype (t_dtype param) rows_g))
              (t_data (to_dtype (t_dtype param) rows_u)) (shard * row))
    as [Hgu_data Hug_data]; [done|done|lia|].
  assert (overwrite_rows (overwrite_rows param (shard * Z.to_nat 0) shard rows_g)
            (shard * Z.to_nat 1) shard rows_u = filled) as Hgu.
  { unfold overwrite_rows, filled. cbn [t_shape t_dtype t_device t_data].
    rewrite Hshape. cbn [tail]. fold row. f_equal.
    change (Z.to_nat 0) with 0%nat. change (Z.to_nat 1) with 1%nat.
    rewrite Nat.mul_0_r, Nat.mul_1_r, Nat.add_0_l, Nat.mul_0_l.
    rewrite <- Hgu_data. rewrite !Nat.mul_add_distr_r. done. }
  assert (overwrite_rows (overwrite_rows param (shard * Z.to_nat 1) shard rows_u)
            (shard * Z.to_nat 0) shard rows_g = filled) as Hug.
  { unfold overwrite_rows, filled. cbn [t_shape t_dtype t_device t_data].
    rewrite Hshape. cbn [tail]. fold row. f_equal.
    change (Z.to_nat 0) with 0%nat. change (Z.to_nat 1) with 1%nat.
    rewrite Nat.mul_0_r, Nat.mul_1_r, Nat.add_0_l, Nat.mul_0_l.
    rewrite <- Hug_data. rewrite !Nat.mul_add_distr_r. done. }
  split; cbn [load_entries].
  - rewrite (gate_up_entry_fits config tp state_dict flag name_g w_g param
               shard rest m_g 0 "gate_proj") by (done || congruence).
    cbn [mbind result_mbind result_bind]. rewrite Hkey_g.
    rewrite (gate_up_entry_fits config tp _ flag name_u w_u
               (overwrite_rows param (shard * Z.to_nat 0) shard rows_g)
               shard rest m_u 1 "up_proj")
      by (done || (rewrite Hkey_u; apply lookup_insert_eq)).
    cbn [mbind result_mbind result_bind]. rewrite Hkey_u, insert_insert_eq.
    fold rank rows_u. by rewrite Hgu.
  - rewrite (gate_up_entry_fits config tp state_dict flag name_u w_u param
               shard rest m_u 1 "up_proj") by (done || congruence).
    cbn [mbind result_mbind result_bind]. rewrite Hkey_u.
    rewrite (gate_up_entry_fits config tp _ flag name_g w_g
               (overwrite_rows param (shard * Z.to_nat 1) shard rows_u)
               shard rest m_g 0 "gate_proj")
      by (done || (rewrite Hkey_g; apply lookup_insert_eq)).
    cbn [mbind result_mbind result_bind]. rewrite Hkey_g, insert_insert_eq.
    fold rank rows_g. by rewrite Hug.
Qed.
End fused_destination.

(** ** The names of the fused destination *)

Lemma append_nil_l (s : string) : EmptyString +:+ s = s.
Proof. reflexivity. Qed.

Lemma append_cons (c : Ascii.ascii) (p s : string) :
  String c p +:+ s = String c (p +:+ s).
Proof. reflexivity. Qed.

Lemma prefix_append (old s : string) : String.prefix old (old +:+ s) = true.
Proof.
  induction old as [|c old IH]; [by destruct s|].
  rewrite append_cons. cbn [String.prefix].
  destruct (Ascii.ascii_dec c c); [done|congruence].
Qed.

Lemma py_in_prefix (old s : string) : String.prefix old s = true → py_in old s = true.
Proof. intros Hprefix. destruct s; cbn [py_in]; by rewrite Hprefix. Qed.

Lemma py_in_append (old p s : string) : py_in old (p +:+ old +:+ s) = true.
Proof.
  induction p as [|c p IH].
  - rewrite append_nil_l. apply py_in_prefix, prefix_append.
  - rewrite append_cons. cbn [py_in]. rewrite IH. apply orb_true_r.
Qed.

Lemma replace_from_skip (old new x y : string) :
  replace_from old new (String.length x) (x +:+ y) = replace_from old new 0 y.
Proof.
  induction x as [|c x IH]; [by rewrite append_nil_l|].
  rewrite append_cons. cbn [String.length replace_from]. done.
Qed.

Lemma replace_from_absent (old new s : string) :
  py_in old s = false → replace_from old new 0 s = s.
Proof.
  induction s as [|c s IH]; [done|].
  intros [Hprefix Hrest]%orb_false_iff. cbn [replace_from].
  rewrite Hprefix. by rewrite IH.
Qed.

Lemma replace_from_first (old new p s : string) :
  old ≠ EmptyString →
  occurs_within old p (old +:+ s) = false →
  replace_from old new 0 (p +:+ old +:+ s)
  = p +:+ new +:+ replace_from old new 0 s.
Proof.
  intros Hold. induction p as [|c p IH]; intros Hocc.
  - destruct old as [|a old]; [done|]. rewrite !append_nil_l.
    rewrite (append_cons a old s). cbn [replace_from].
    rewrite <- (append_cons a old s), prefix_append.
    cbn [String.length Nat.pred]. by rewrite replace_from_skip.
  - cbn [occurs_within] in Hocc. apply orb_false_iff in Hocc as [Hprefix Hocc].
    rewrite append_cons in Hprefix. rewrite !append_cons. cbn [replace_from].
    rewrite Hprefix. by rewrite IH.
Qed.

(** X9: the two halves of one fused projection are written to one
    parameter: when "gate_proj" (resp. "up_proj") first occurs in a name
    right after the prefix [p] and not again in the suffix [s], the names
    [p gate_proj s] and [p up_proj s] are both rewritten to
    [p gate_up_proj s], the first with ordinal 0 and the second, when it
    holds no "gate_proj", with ordinal 1. *)
Theorem gate_and_up_share_destination (p s : string) :
  occurs_within "gate_proj" p ("gate_proj" +:+ s) = false →
  occurs_within "up_proj" p ("up_proj" +:+ s) = false →
  py_in "gate_proj" s = false → py_in "up_proj" s = false →
  py_in "gate_proj" (p +:+ "up_proj" +:+ s) = false →
  py_replace (p +:+ "gate_proj" +:+ s) "gate_proj" "gate_up_proj"
    = p +:+ "gate_up_proj" +:+ s
  ∧ py_replace (p +:+ "up_proj" +:+ s) "up_proj" "gate_up_proj"
    = p +:+ "gate_up_proj" +:+ s
  ∧ gate_up_case (p +:+ "gate_proj" +:+ s) 0 "gate_proj"
  ∧ gate_up_case (p +:+ "up_proj" +:+ s) 1 "up_proj".
Proof.
  intros Hocc_g Hocc_u Hs_g Hs_u Hno_gate. split_and!.
  - unfold py_replace. rewrite replace_from_first by done.
    by rewrite replace_from_absent.
  - unfold py_replace. rewrite replace_from_first by done.
    by rewrite replace_from_absent.
  - left. split_and!; [apply py_in_append|done..].
  - right. split_and!; [done|apply py_in_append|done..].
Qed.

(** ** The fused query/key/value tensor *)

Lemma infer_shape_mismatch (dims : list Z) (n : nat) :
  Forall (λ d, 0 ≤ d) dims →
  Z.to_nat (foldr Z.mul 1 dims) ≠ n →
  infer_shape dims n = Raise (RuntimeError "shape is invalid for input size").
Proof.
  intros Hdims Hn. unfold infer_shape.
  assert (known_dims dims = dims) as ->.
  { clear Hn. unfold known_dims. induction Hdims as [|d dims Hd _ IH]; [done|].
    rewrite filter_cons_True by lia. by rewrite IH. }
  rewrite bool_decide_eq_false_2.
  - rewrite Nat.sub_diag. by rewrite bool_decide_eq_false_2.
  - rewrite Exists_exists. intros (d & Hin & Hd).
    rewrite Forall_forall in Hdims. specialize (Hdims d Hin). lia.
Qed.

Section w_pack_more.
Context {A : Type}.

Lemma w_pack_shard_eq config tp (w : Tensor A) :
  0 < num_attention_heads config → 0 < hidden_size config → partition_wf tp →
  let total_heads := Z.to_nat (num_attention_heads config) in
  let hidden := Z.to_nat (hidden_size config) in
  let head_dim := Z.to_nat (hidden_size config / num_attention_heads config) in
  let local_heads := Z.to_nat (num_attention_heads config / tp_world_size tp) in
  let rank := Z.to_nat (tp_rank tp) in
  let blk := (head_dim * hidden)%nat in
  length (t_data w) = (3 * total_heads * head_dim * hidden)%nat →
  w_pack_shard config tp w
  = Ok (mkTensor (t_dtype w) (t_device w)
          [(3 * local_heads * head_dim)%nat; hidden]
          (mjoin ((λ c, take (local_heads * blk) (drop (rank * local_heads * blk) c))
                    <$> chunks (total_heads * blk) 3 (t_data w)))).
Proof.
  intros Hheads Hhidden [Hws Hrank] total_heads hidden head_dim local_heads
    rank blk Hdata.
  assert (0 ≤ hidden_size config / num_attention_heads config) as Hhd
    by (apply Z.div_pos; lia).
  assert (0 ≤ num_attention_heads config / tp_world_size tp) as Hlocal
    by (apply Z.div_pos; lia).
  assert (tp_world_size tp * (num_attention_heads config / tp_world_size tp)
          ≤ num_attention_heads config) as Hfloor
    by (apply Z.mul_div_le; lia).
  assert (rank * local_heads + local_heads ≤ total_heads)%nat as Hin.
  { subst rank local_heads total_heads. nia. }
  unfold w_pack_shard, py_floordiv.
  destruct (Z.eqb_spec (num_attention_heads config) 0) as [?|_]; [lia|].
  destruct (Z.eqb_spec (tp_world_size tp) 0) as [?|_]; [lia|].
  cbn [mbind result_mbind result_bind].
  unfold view at 1. rewrite infer_shape_exact; cycle 1.
  { repeat constructor; lia. }
  { rewrite Hdata. simpl foldr. subst total_heads hidden head_dim. nia. }
  cbn [mbind result_mbind result_bind fmap list_fmap].
  fold total_heads head_dim hidden.
  unfold slice1_4d, slice1. cbn [t_shape t_data t_dtype t_device length].
  rewrite bool_decide_eq_true_2 by lia.
  rewrite py_slice_bounds_nat by nia.
  replace (Z.to_nat (tp_rank tp * (num_attention_heads config / tp_world_size tp)))
    with (rank * local_heads)%nat by (subst rank local_heads; nia).
  replace (Z.to_nat ((tp_rank tp + 1) * (num_attention_heads config / tp_world_size tp))
           - rank * local_heads)%nat
    with local_heads by (subst rank local_heads; nia).
  cbn [mbind result_mbind result_bind numel foldr].
  rewrite Nat.mul_1_r. fold blk.
  destruct (slice_heads_data (t_data w) total_heads blk
              (rank * local_heads) local_heads) as [Hlen _];
    [subst blk; lia|lia|].
  unfold reshape, view. cbn [t_shape t_data t_dtype t_device].
  change (Z.to_nat 3) with 3%nat.
  rewrite Hlen.
  replace (3 * (local_heads * blk))%nat
    with ((3 * local_heads * head_dim) * Z.to_nat (hidden_size config))%nat
    by (subst blk hidden; lia).
  rewrite infer_shape_rows by done.
  reflexivity.
Qed.

(** X15: with a world size of 1 the fused query/key/value tensor is
    loaded whole: the shard of the only rank has the elements of the
    loaded tensor, in their order, as a [3 * total_heads * head_dim, hidden]
    tensor. *)
Theorem w_pack_single_rank config (w : Tensor A) :
  0 < num_attention_heads config → 0 < hidden_size config →
  let total_heads := Z.to_nat (num_attention_heads config) in
  let hidden := Z.to_nat (hidden_size config) in
  let head_dim := Z.to_nat (hidden_size config / num_attention_heads config) in
  length (t_data w) = (3 * total_heads * head_dim * hidden)%nat →
  w_pack_shard config (mkPartition 1 0) w
  = Ok (mkTensor (t_dtype w) (t_device w)
          [(3 * total_heads * head_dim)%nat; hidden] (t_data w)).
Proof.
  intros Hheads Hhidden total_heads hidden head_dim Hdata.
  rewrite w_pack_shard_eq by (done || (split; simpl; lia)).
  cbv zeta. cbn [tp_world_size tp_rank]. rewrite Z.div_1_r.
  fold total_heads head_dim hidden. change (Z.to_nat 0) with 0%nat.
  do 2 f_equal.
  set (blk := (head_dim * hidden)%nat).
  transitivity (mjoin (chunks (total_heads * blk) 3 (t_data w)));
    [|apply join_chunks; subst blk; lia].
  f_equal. rewrite <- (list_fmap_id (chunks _ _ _)) at 2.
  apply list_fmap_ext. intros i c Hc. simpl.
  apply list_elem_of_lookup_2 in Hc.
  pose proof (Forall_length_chunks (total_heads * blk) 3 (t_data w)) as Hall.
  rewrite Forall_forall in Hall. rewrite take_ge; [done|].
  rewrite Hall; [lia| subst blk; lia |done].
Qed.

(** X16: a fused query/key/value tensor whose element count is not
    [3 * total_heads * (hidden // total_heads) * hidden] cannot be viewed
    and the entry fails with a [RuntimeError]; this is what happens to a
    [3 * hidden, hidden] checkpoint tensor whenever the head count does
    not divide the hidden size. *)
Theorem w_pack_view_fails config tp (w : Tensor A) :
  0 < num_attention_heads config → 0 < hidden_size config →
  tp_world_size tp ≠ 0 →
  let total_heads := Z.to_nat (num_attention_heads config) in
  let hidden := Z.to_nat (hidden_size config) in
  let head_dim := Z.to_nat (hidden_size config / num_attention_heads config) in
  (length (t_data w) ≠ (3 * total_heads * head_dim * hidden)%nat →
   w_pack_shard config tp w
   = Raise (RuntimeError "shape is invalid for input size"))
  ∧ (hidden_size config `mod` num_attention_heads config ≠ 0 →
     length (t_data w) = (3 * hidden * hidden)%nat →
     w_pack_shard config tp w
     = Raise (RuntimeError "shape is invalid for input size")).
Proof.
  intros Hheads Hhidden Hws total_heads hidden head_dim.
  assert (0 ≤ hidden_size config / num_attention_heads config) as Hhd
    by (apply Z.div_pos; lia).
  assert (length (t_data w) ≠ (3 * total_heads * head_dim * hidden)%nat →
          w_pack_shard config tp w
          = Raise (RuntimeError "shape is invalid for input size")) as Hfail.
  { intros Hdata. unfold w_pack_shard, py_floordiv.
    destruct (Z.eqb_spec (num_attention_heads config) 0) as [?|_]; [lia|].
    destruct (Z.eqb_spec (tp_world_size tp) 0) as [?|_]; [done|].
    cbn [mbind result_mbind result_bind].
    unfold view at 1. rewrite infer_shape_mismatch; [done| |].
    - repeat constructor; lia.
    - simpl foldr. subst total_heads hidden head_dim. nia. }
  split; [done|].
  intros Hmod Hdata. apply Hfail. rewrite Hdata.
  pose proof (Z.div_mod (hidden_size config) (num_attention_heads config)
                ltac:(lia)) as Hdm.
  pose proof (Z.mod_pos_bound (hidden_size config) (num_attention_heads config)
                Hheads) as Hmb.
  assert (total_heads * head_dim < hidden)%nat
    by (subst total_heads head_dim hidden; nia).
  nia.
Qed.

(** X17: the shard of a rank stacks three blocks of rows of the
    [3 * total_heads * head_dim, hidden] checkpoint tensor: the rows of its
    heads in the query third, then those in the key third, then those in
    the value third. *)
Theorem w_pack_shard_qkv_blocks config tp (w : Tensor A) :
  0 < num_attention_heads config → 0 < hidden_size config → partition_wf tp →
  let total_heads := Z.to_nat (num_attention_heads config) in
  let hidden := Z.to_nat (hidden_size config) in
  let head_dim := Z.to_nat (hidden_size config / num_attention_heads config) in
  let local_heads := Z.to_nat (num_attention_heads config / tp_world_size tp) in
  let rank := Z.to_nat (tp_rank tp) in
  let third := (total_heads * head_dim)%nat in
  let first_row := (rank * local_heads * head_dim)%nat in
  let rows := (local_heads * head_dim)%nat in
  t_shape w = [(3 * third)%nat; hidden] →
  tensor_wf w →
  ∃ shard,
    w_pack_shard config tp w = Ok shard
    ∧ t_shape shard = [(3 * rows)%nat; hidden]
    ∧ t_data shard
      = t_data (rows_of w first_row rows)
        ++ t_data (rows_of w (third + first_row) rows)
        ++ t_data (rows_of w (2 * third + first_row) rows).
Proof.
  intros Hheads Hhidden Hwf H hid hd L r third first_row rows Hshape Hdata.
  pose proof Hwf as [Hws Hrank].
  assert (0 ≤ hidden_size config / num_attention_heads config) as Hhd
    by (apply Z.div_pos; lia).
  assert (0 ≤ num_attention_heads config / tp_world_size tp) as Hl
    by (apply Z.div_pos; lia).
  assert (tp_world_size tp * (num_attention_heads config / tp_world_size tp)
          ≤ num_attention_heads config) as Hfloor
    by (apply Z.mul_div_le; lia).
  assert (r * L + L ≤ H)%nat as Hin by (subst r L H; nia).
  unfold tensor_wf in Hdata. rewrite Hshape in Hdata. simpl in Hdata.
  assert (length (t_data w) = (3 * H * hd * hid)%nat) as Hlen.
  { rewrite Hdata. unfold third. generalize H hd hid. intros. lia. }
  rewrite w_pack_shard_eq by done. cbv zeta.
  fold H hid L r hd.
  eexists. split; [reflexivity|]. cbn [t_shape t_data].
  split; [unfold rows; f_equal; lia|].
  unfold rows_of. rewrite Hshape. cbn [tail numel foldr t_data].
  rewrite Nat.mul_1_r.
  set (blk := (hd * hid)%nat).
  assert (r * L * blk + L * blk ≤ H * blk)%nat as Hblk by nia.
  assert (∀ k : nat,
            take (L * blk)
              (drop (r * L * blk) (take (H * blk) (drop (k * (H * blk)) (t_data w))))
            = take (rows * hid) (drop ((k * third + first_row) * hid) (t_data w)))
    as Hblock.
  { intros k. rewrite (take_drop_commute _ (L * blk)), take_take.
    replace ((r * L * blk + L * blk) `min` (H * blk))%nat
      with (r * L * blk + L * blk)%nat by lia.
    rewrite !take_drop_commute, drop_drop.
    unfold blk, third, first_row, rows. f_equal; [lia|]. f_equal. lia. }
  cbn [chunks fmap list_fmap mjoin list_join]. rewrite app_nil_r, !drop_drop.
  rewrite <- (Nat.add_0_l first_row) at 1.
  change 0%nat with (0 * third)%nat at 1.
  rewrite <- (Nat.mul_1_l third) at 2.
  rewrite <- !Hblock.
  replace (2 * (H * blk))%nat with (H * blk + H * blk)%nat by lia.
  by rewrite Nat.mul_0_l, Nat.mul_1_l.
Qed.
End w_pack_more.

(** ** The forward pass *)

Section forward_properties.
Context `{!Layers, !Runtime}.

Lemma external_error {T : Type} callee (o : option T) e :
  external callee o = Raise e → e = ExternalError callee.
Proof. destruct o; simpl; congruence. Qed.

Lemma bind_Raise_cases {T U : Type} (m : result T) (k : T → result U) e :
  m ≫= k = Raise e → m = Raise e ∨ ∃ v, m = Ok v ∧ k v = Raise e.
Proof. destruct m; simpl; [right; eauto|left; congruence]. Qed.

Lemma MLP_forward_error self x world e :
  MLP_forward self x world = Raise e → ∃ callee, e = ExternalError callee.
Proof.
  unfold MLP_forward.
  intros [H1|([] & _ & [H2|([] & _ & [H3|([] & _ & ?)]%bind_Raise_cases)]
                          %bind_Raise_cases)]%bind_Raise_cases;
    try done; eauto using external_error.
Qed.

Lemma attention_forward_error self positions hidden_states kv_cache
    input_metadata cache_event world e :
  BaichuanAttention_forward self positions hidden_states kv_cache
    input_metadata cache_event world = Raise e →
  ∃ callee, e = ExternalError callee.
Proof.
  unfold BaichuanAttention_forward. destruct kv_cache as [k_cache v_cache].
  intros [H1|([] & _ & [H2|([[]] & _ & [H3|([] & _ & [H4|([] & _ & ?)]
    %bind_Raise_cases)]%bind_Raise_cases)]%bind_Raise_cases)]%bind_Raise_cases;
    try done; eauto using external_error.
  case_bool_decide; eauto using external_error.
Qed.

Lemma layer_forward_error self positions hidden_states kv_cache
    input_metadata cache_event world e :
  BaichuanLayer_forward self positions hidden_states kv_cache
    input_metadata cache_event world = Raise e →
  ∃ callee, e = ExternalError callee.
Proof.
  unfold BaichuanLayer_forward.
  intros [H1|([] & _ & [H2|([] & _ & [H3|(? & _ & [H4|([] & _ &
    [H5|([] & _ & [H6|(? & _ & ?)]%bind_Raise_cases)]%bind_Raise_cases)]
    %bind_Raise_cases)]%bind_Raise_cases)]%bind_Raise_cases)]%bind_Raise_cases;
    try done;
    eauto using external_error, attention_forward_error, MLP_forward_error.
Qed.

Lemma py_list_index_Ok {T : Type} (l : list T) (i : nat) :
  (i < length l)%nat → ∃ x, l !! i = Some x ∧ py_list_index l i = Ok x.
Proof.
  intros [x Hx]%lookup_lt_is_Some_2. exists x. unfold py_list_index.
  by rewrite Hx.
Qed.

Lemma py_list_index_Raise {T : Type} (l : list T) (i : nat) :
  (length l ≤ i)%nat →
  py_list_index l i = Raise (IndexError "list index out of range").
Proof.
  intros Hi%lookup_ge_None_2. unfold py_list_index. by rewrite Hi.
Qed.

Lemma layers_loop_covered k n self positions hidden_states kv_caches
    input_metadata cache_events world e :
  (k + n ≤ length (layers self))%nat →
  caches_cover (k + n) kv_caches cache_events →
  layers_loop (seq k n) self positions hidden_states kv_caches input_metadata
    cache_events world = Raise e →
  ∃ callee, e = ExternalError callee.
Proof.
  revert k hidden_states world.
  induction n as [|n IH]; intros k hidden_states world Hk [Hkv Hev];
    simpl; [done|].
  destruct (py_list_index_Ok (layers self) k) as (layer & _ & ->); [lia|].
  destruct (py_list_index_Ok kv_caches k) as (kv & _ & ->); [lia|].
  assert (∃ ev, match cache_events with
                | Some cache_events =>
                    cache_event ← py_list_index cache_events k;
                    Ok (Some cache_event)
                | None => Ok None
                end = Ok ev) as [ev ->].
  { destruct cache_events as [evs|]; [|by eexists].
    destruct (py_list_index_Ok evs k) as (x & _ & ->);
      [specialize (Hev evs eq_refl); lia|by eexists]. }
  cbn [mbind result_mbind result_bind].
  intros [Hl|([] & _ & Hrest)]%bind_Raise_cases.
  - by eapply layer_forward_error.
  - eapply (IH (S k)); [lia| |done].
    split; [lia|]. intros evs Hevs. specialize (Hev evs Hevs). lia.
Qed.

Lemma layers_loop_short k n self positions hidden_states kv_caches
    input_metadata cache_events world :
  (k + n ≤ length (layers self))%nat →
  caches_cover k kv_caches cache_events →
  ¬ caches_cover (k + n) kv_caches cache_events →
  ∃ e, layers_loop (seq k n) self positions hidden_states kv_caches
         input_metadata cache_events world = Raise e
       ∧ (e = IndexError "list index out of range"
          ∨ ∃ callee, e = ExternalError callee).
Proof.
  revert k hidden_states world.
  induction n as [|n IH]; intros k hidden_states world Hk Hcov Hshort.
  { by rewrite Nat.add_0_r in Hshort. }
  simpl.
  destruct cache_events as [evs|] eqn:Hevs.
  - destruct (decide (k < length evs)%nat) as [Hlt|Hge].
    + destruct (py_list_index_Ok evs k) as (ev & _ & ->); [done|].
      cbn [mbind result_mbind result_bind].
      destruct (py_list_index_Ok (layers self) k) as (layer & _ & ->); [lia|].
      cbn [mbind result_mbind result_bind].
      destruct (decide (k < length kv_caches)%nat) as [Hkv|Hkv].
      * destruct (py_list_index_Ok kv_caches k) as (kv & _ & ->); [done|].
        cbn [mbind result_mbind result_bind].
        destruct (BaichuanLayer_forward layer positions hidden_states kv
                    input_metadata (Some ev) world) as [[h w]|e] eqn:Hl.
        -- cbn [mbind result_mbind result_bind].
           apply (IH (S k)); [lia| |].
           ++ split; [lia|]. intros ? [= <-]. lia.
           ++ by replace (S k + n)%nat with (k + S n)%nat by lia.
        -- exists e. split; [done|]. right. by eapply layer_forward_error.
      * rewrite (py_list_index_Raise kv_caches) by lia. eauto.
    + rewrite (py_list_index_Raise evs) by lia. eauto.
  - cbn [mbind result_mbind result_bind].
    destruct (py_list_index_Ok (layers self) k) as (layer & _ & ->); [lia|].
    cbn [mbind result_mbind result_bind].
    destruct (decide (k < length kv_caches)%nat) as [Hkv|Hkv].
    + destruct (py_list_index_Ok kv_caches k) as (kv & _ & ->); [done|].
      cbn [mbind result_mbind result_bind].
      destruct (BaichuanLayer_forward layer positions hidden_states kv
                  input_metadata None world) as [[h w]|e] eqn:Hl.
      * cbn [mbind result_mbind result_bind].
        apply (IH (S k)); [lia| |].
        -- split; [lia|]. intros ? [=].
        -- by replace (S k + n)%nat with (k + S n)%nat by lia.
      * exists e. split; [done|]. right. by eapply layer_forward_error.
    + rewrite (py_list_index_Raise kv_caches) by lia. eauto.
Qed.

(** X18: the forward pass needs a key/value cache, and a cache event when
    events are given, for each layer.  With them, whatever it raises was
    raised by a layer it called; with a list that is too short it never
    returns: it raises [IndexError] at the first layer left without, unless
    a call before that raised. *)
Theorem forward_cache_per_layer (self : BaiChuanBaseForCausalLM)
    input_ids positions kv_caches input_metadata cache_events world :
  let n := length (layers (model self)) in
  (caches_cover n kv_caches cache_events →
   ∀ e, BaiChuanBaseForCausalLM_forward self input_ids positions kv_caches
          input_metadata cache_events world = Raise e →
        ∃ callee, e = ExternalError callee)
  ∧ (¬ caches_cover n kv_caches cache_events →
     ∃ e, BaiChuanBaseForCausalLM_forward self input_ids positions kv_caches
            input_metadata cache_events world = Raise e
          ∧ (e = IndexError "list index out of range"
             ∨ ∃ callee, e = ExternalError callee)).
Proof.
  intros n. unfold BaiChuanBaseForCausalLM_forward, BaichuanModel_forward.
  split.
  - intros Hcov e
      [[H1|([] & _ & [H2|([] & _ & [H3|([] & _ & ?)]%bind_Raise_cases)]
        %bind_Raise_cases)]%bind_Raise_cases
      |([] & _ & [H4|([] & _ & ?)]%bind_Raise_cases)]%bind_Raise_cases;
      try done; eauto using external_error.
    eapply (layers_loop_covered 0); [| |exact H2]; [done|done].
  - intros Hshort.
    destruct (external "VocabParallelEmbedding.forward"
                (module_call (embed_tokens (model self)) input_ids world))
      as [[h w]|e] eqn:Hembed.
    + cbn [mbind result_mbind result_bind].
      destruct (layers_loop_short 0 (length (layers (model self)))
                  (model self) positions h kv_caches
                  input_metadata cache_events w) as (e & -> & He);
        [done| |done|by exists e].
      split; [lia|]. intros; lia.
    + exists e. split; [done|]. right. eexists. by eapply external_error.
Qed.

Lemma alibi_layer_ignores_positions (layer : BaichuanLayer)
    positions positions' hidden_states kv_cache input_metadata cache_event
    world :
  postion_embedding (self_attn layer) = "ALIBI" →
  BaichuanLayer_forward layer positions hidden_states kv_cache input_metadata
    cache_event world
  = BaichuanLayer_forward layer positions' hidden_states kv_cache
      input_metadata cache_event world.
Proof.
  intros Halibi. unfold BaichuanLayer_forward, BaichuanAttention_forward.
  by rewrite Halibi, bool_decide_eq_true_2.
Qed.

Lemma alibi_loop_ignores_positions indices (self : BaichuanModel)
    positions positions' hidden_states kv_caches input_metadata cache_events
    world :
  Forall (λ layer, postion_embedding (self_attn layer) = "ALIBI")
    (layers self) →
  layers_loop indices self positions hidden_states kv_caches input_metadata
    cache_events world
  = layers_loop indices self positions' hidden_states kv_caches
      input_metadata cache_events world.
Proof.
  intros Hall. revert hidden_states world.
  induction indices as [|i indices IH]; intros hidden_states world;
    simpl; [done|].
  destruct (match cache_events with
            | Some evs => cache_event ← py_list_index evs i; Ok (Some cache_event)
            | None => Ok None
            end) as [ev|]; [|done].
  cbn [mbind result_mbind result_bind].
  destruct (py_list_index (layers self) i) as [layer|] eqn:Hlayer; [|done].
  cbn [mbind result_mbind result_bind].
  destruct (py_list_index kv_caches i) as [kv|]; [|done].
  cbn [mbind result_mbind result_bind].
  unfold py_list_index in Hlayer.
  destruct (layers self !! i) as [layer'|] eqn:Hlookup; [|done].
  injection Hlayer as ->.
  rewrite (alibi_layer_ignores_positions layer positions positions').
  - destruct (BaichuanLayer_forward _ _ _ _ _ _ _) as [[h w]|]; [|done].
    cbn [mbind result_mbind result_bind]. apply IH.
  - rewrite Forall_forall in Hall. apply Hall.
    by eapply list_elem_of_lookup_2.
Qed.

(** X19: the forward pass of the ALiBi variant ([Baichuan2ForCausalLM])
    does not use [positions]: every layer of a model built by its
    constructor calls the attention without them. *)
Theorem alibi_forward_ignores_positions tp config
    (self : BaiChuanBaseForCausalLM) :
  Baichuan2ForCausalLM_init tp config = Ok self →
  ∀ input_ids positions positions' kv_caches input_metadata cache_events
    world,
    BaiChuanBaseForCausalLM_forward self input_ids positions kv_caches
      input_metadata cache_events world
    = BaiChuanBaseForCausalLM_forward self input_ids positions' kv_caches
        input_metadata cache_events world.
Proof.
  unfold Baichuan2ForCausalLM_init, BaiChuanBaseForCausalLM_init,
    BaichuanModel_init.
  intros (mdl & Hmdl & Hinit)%bind_Ok_inv.
  apply bind_Ok_inv in Hinit as (? & _ & Hinit).
  apply bind_Ok_inv in Hinit as (? & _ & Hinit).
  injection Hinit as <-.
  apply bind_Ok_inv in Hmdl as (? & _ & Hmdl).
  apply bind_Ok_inv in Hmdl as (ls & [_ Hall]%build_layers_Ok & Hmdl).
  apply bind_Ok_inv in Hmdl as (? & _ & Hmdl).
  injection Hmdl as <-.
  intros. unfold BaiChuanBaseForCausalLM_forward, BaichuanModel_forward.
  cbn [model layers embed_tokens norm].
  destruct (external "VocabParallelEmbedding.forward" _) as [[h w]|]; [|done].
  cbn [mbind result_mbind result_bind].
  rewrite (alibi_loop_ignores_positions _ _ positions positions'); [done|].
  cbn [layers]. eapply Forall_impl; [exact Hall|].
  intros l [Hattn _]%layer_init_Ok.
  by apply attention_init_Ok in Hattn
    as (_ & _ & _ & _ & _ & _ & _ & _ & -> & _).
Qed.
End forward_properties.

(** * The further properties at concrete inputs *)

Lemma interleave_slope_at_witness :
  ∃ slopes, _get_interleave 6 = Ok slopes ∧ slopes !! 5%nat = Some (Slope 8 2).
Proof.
  destruct (interleave_slope_at 6 5) as (slopes & Hget & Hat); [lia..|].
  exists slopes. split; [exact Hget | exact Hat].
Defined.

Lemma get_interleave_domain_witness :
  _get_interleave 0 = Raise (ValueError "math domain error").
Proof. apply (proj2 (get_interleave_domain 0)). lia. Defined.

Lemma interleave_prefix_witness :
  ∃ slopes_5 slopes_7,
    _get_interleave 5 = Ok slopes_5 ∧ _get_interleave 7 = Ok slopes_7
    ∧ slopes_5 `prefix_of` slopes_7.
Proof. apply (interleave_prefix 5 7); [lia|lia|reflexivity]. Defined.

Lemma alibi_slices_partition_witness :
  ∃ slopes,
    _get_alibi_slopes 4 = Ok slopes
    ∧ mjoin ((λ tp_rank, py_list_slice slopes (tp_rank * 2) ((tp_rank + 1) * 2))
               <$> seqZ 0 2) = slopes.
Proof. apply (alibi_slices_partition 4 2); [lia|lia|reflexivity]. Defined.

Lemma attention_init_invariants_witness :
  num_heads (self_attn scenario_layer) * 2
  = total_num_heads (self_attn scenario_layer)
  ∧ head_dim (self_attn scenario_layer) ≠ 0.
Proof.
  destruct (@attention_init_invariants spec_layers (mkPartition 2 0) 32 4 "ROPE"
              (self_attn scenario_layer))
    as (_ & _ & _ & Hheads & _ & Hdim & _); [reflexivity|].
  split; [exact Hheads | exact Hdim].
Defined.

Lemma attention_init_zero_division_witness :
  @BaichuanAttention_init spec_layers (mkPartition 2 0) 32 0 "ROPE"
  = Raise ZeroDivisionError
  ∧ @BaichuanAttention_init spec_layers (mkPartition 2 0) 3 4 "ROPE"
    = Raise ZeroDivisionError.
Proof.
  split.
  - apply (proj1 (@attention_init_zero_division spec_layers (mkPartition 2 0)
                    32 0 "ROPE" (ColumnLinear 32 96 false false)
                    (RowLinear 0 32 false true)
                    ltac:(simpl; lia) eq_refl)).
    reflexivity.
  - apply (proj2 (@attention_init_zero_division spec_layers (mkPartition 2 0)
                    3 4 "ROPE" (ColumnLinear 3 9 false false)
                    (RowLinear 0 3 false true)
                    ltac:(simpl; lia) eq_refl));
      [lia|lia|reflexivity|reflexivity].
Defined.

Lemma causal_lm_init_invariants_witness :
  @BaiChuan2ForCausalLM_init spec_layers (mkPartition 2 0) scenario_config
  = Ok scenario_model
  ∧ length (layers (model scenario_model)) = 1%nat.
Proof.
  assert (@BaiChuan2ForCausalLM_init spec_layers (mkPartition 2 0)
            scenario_config = Ok scenario_model) as Hinit by reflexivity.
  split; [exact Hinit|].
  destruct (@causal_lm_init_invariants spec_layers (mkPartition 2 0)
              scenario_config "ROPE" scenario_model Hinit) as (_ & Hlen & _).
  exact Hlen.
Defined.

Lemma unknown_name_aborts_witness :
  load_weights scenario_config (mkPartition 2 0) (∅ : gmap string (Tensor sym))
    [("model.norm.weight", src_tensor float16 cpu [32%nat])]
  = Raise (KeyError "model.norm.weight").
Proof.
  apply (proj1 (unknown_name_aborts scenario_config (mkPartition 2 0)
                  (∅ : gmap string (Tensor sym)) [] [] "model.norm.weight"
                  (src_tensor float16 cpu [32%nat])
                  (ex_intro _ _ eq_refl) eq_refl eq_refl)).
  - reflexivity.
  - reflexivity.
  - rewrite dom_empty_L. apply not_elem_of_empty.
Defined.

Lemma load_weights_preserves_names_witness :
  ∃ state_dict' : gmap string (Tensor sym),
    load_weights scenario_config (mkPartition 2 0)
      {[ "lm_head.weight" := fresh_param float16 cpu [2%nat; 2%nat] ]}
      [("lm_head.weight", src_tensor float16 cpu [2%nat; 2%nat])]
    = Ok state_dict'
    ∧ dom state_dict' = {[ "lm_head.weight" ]}.
Proof.
  assert (∃ state_dict' : gmap string (Tensor sym),
            load_weights scenario_config (mkPartition 2 0)
              {[ "lm_head.weight" := fresh_param float16 cpu [2%nat; 2%nat] ]}
              [("lm_head.weight", src_tensor float16 cpu [2%nat; 2%nat])]
            = Ok state_dict') as [state_dict' Hload]
    by (eexists; reflexivity).
  exists state_dict'. split; [exact Hload|].
  rewrite (load_weights_preserves_names _ _ _ _ _ Hload).
  apply dom_singleton_L.
Defined.

Lemma process_entry_touches_one_witness :
  ∃ (state_dict' : gmap string (Tensor sym)) flag' key,
    process_entry scenario_config (mkPartition 2 1)
      ({[ gate_up_name := fresh_param float16 cpu [16%nat; 2%nat] ]}, false)
      (up_name, src_tensor float16 cpu [16%nat; 2%nat])
    = Ok (state_dict', flag')
    ∧ key ∈ entry_targets up_name
    ∧ ∀ other, other ≠ key →
        state_dict' !! other
        = ({[ gate_up_name := fresh_param float16 cpu [16%nat; 2%nat] ]}
             : gmap string (Tensor sym)) !! other.
Proof.
  assert (∃ st' : gmap string (Tensor sym) * bool,
            process_entry scenario_config (mkPartition 2 1)
              ({[ gate_up_name := fresh_param float16 cpu [16%nat; 2%nat] ]}, false)
              (up_name, src_tensor float16 cpu [16%nat; 2%nat])
            = Ok st') as [[state_dict' flag'] Hentry]
    by (eexists; reflexivity).
  destruct (process_entry_touches_one _ _ _ _ _ _ _ _ Hentry)
    as (key & Hkey & Hframe).
  exists state_dict', flag', key. split; [exact Hentry|].
  split; [exact Hkey | exact Hframe].
Defined.

Lemma gate_up_entry_keeps_destination_witness :
  ∃ (state_dict' : gmap string (Tensor sym)) param',
    process_entry scenario_config (mkPartition 2 1)
      ({[ gate_up_name := fresh_param float16 cpu [16%nat; 2%nat] ]}, false)
      (up_name, src_tensor float32 cpu [16%nat; 2%nat])
    = Ok (state_dict', false)
    ∧ state_dict' !! gate_up_name = Some param'
    ∧ t_shape param' = [16%nat; 2%nat]
    ∧ t_dtype param' = float16.
Proof.
  assert (∃ st' : gmap string (Tensor sym) * bool,
            process_entry scenario_config (mkPartition 2 1)
              ({[ gate_up_name := fresh_param float16 cpu [16%nat; 2%nat] ]}, false)
              (up_name, src_tensor float32 cpu [16%nat; 2%nat])
            = Ok st') as [[state_dict' flag'] Hentry]
    by (eexists; reflexivity).
  destruct (gate_up_entry_keeps_destination scenario_config (mkPartition 2 1)
              {[ gate_up_name := fresh_param float16 cpu [16%nat; 2%nat] ]} false
              up_name (src_tensor float32 cpu [16%nat; 2%nat])
              (fresh_param float16 cpu [16%nat; 2%nat]) 1 "up_proj"
              state_dict' flag')
    as (-> & param' & Hlookup & Hshape & Hdtype & _).
  - simpl. lia.
  - reflexivity.
  - reflexivity.
  - right. repeat split; reflexivity.
  - vm_compute. reflexivity.
  - reflexivity.
  - reflexivity.
  - exact Hentry.
  - exists state_dict', param'.
    split; [exact Hentry|]. split; [exact Hlookup|].
    split; [exact Hshape | exact Hdtype].
Defined.

Lemma gate_and_up_fill_witness :
  ∃ filled : Tensor sym,
    load_entries scenario_config (mkPartition 2 1)
      [(gate_name, src_tensor float16 cpu [16%nat; 2%nat]);
       (up_name, src_tensor float16 cpu [16%nat; 2%nat])]
      ({[ gate_up_name := fresh_param float16 cpu [16%nat; 2%nat] ]}, false)
    = Ok (<[ gate_up_name := filled ]>
            {[ gate_up_name := fresh_param float16 cpu [16%nat; 2%nat] ]}, false)
    ∧ load_entries scenario_config (mkPartition 2 1)
        [(up_name, src_tensor float16 cpu [16%nat; 2%nat]);
         (gate_name, src_tensor float16 cpu [16%nat; 2%nat])]
        ({[ gate_up_name := fresh_param float16 cpu [16%nat; 2%nat] ]}, false)
      = Ok (<[ gate_up_name := filled ]>
              {[ gate_up_name := fresh_param float16 cpu [16%nat; 2%nat] ]}, false).
Proof.
  eexists.
  apply (gate_and_up_fill scenario_config (mkPartition 2 1)
           {[ gate_up_name := fresh_param float16 cpu [16%nat; 2%nat] ]} false
           gate_name up_name
           (src_tensor float16 cpu [16%nat; 2%nat])
           (src_tensor float16 cpu [16%nat; 2%nat])
           (fresh_param float16 cpu [16%nat; 2%nat])
           gate_up_name 8 [2%nat] 16 16).
  - simpl. lia.
  - reflexivity.
  - reflexivity.
  - reflexivity.
  - reflexivity.
  - reflexivity.
  - reflexivity.
  - reflexivity.
  - reflexivity.
  - reflexivity.
  - vm_compute. reflexivity.
  - reflexivity.
  - reflexivity.
  - reflexivity.
  - reflexivity.
  - reflexivity.
  - reflexivity.
  - simpl. lia.
  - simpl. lia.
Defined.

Lemma gate_up_entry_idempotent_witness :
  load_entries scenario_config (mkPartition 2 1)
    [(up_name, src_tensor float16 cpu [16%nat; 2%nat]);
     (up_name, src_tensor float16 cpu [16%nat; 2%nat])]
    (({[ gate_up_name := fresh_param float16 cpu [16%nat; 2%nat] ]}
        : gmap string (Tensor sym)), false)
  = load_entries scenario_config (mkPartition 2 1)
      [(up_name, src_tensor float16 cpu [16%nat; 2%nat])]
      ({[ gate_up_name := fresh_param float16 cpu [16%nat; 2%nat] ]}, false).
Proof.
  apply (gate_up_entry_idempotent scenario_config (mkPartition 2 1)
           {[ gate_up_name := fresh_param float16 cpu [16%nat; 2%nat] ]} false
           up_name (src_tensor float16 cpu [16%nat; 2%nat])
           (fresh_param float16 cpu [16%nat; 2%nat]) 1 "up_proj").
  - simpl. lia.
  - reflexivity.
  - reflexivity.
  - right. repeat split; reflexivity.
  - vm_compute. reflexivity.
  - reflexivity.
  - reflexivity.
Defined.

Lemma w_pack_single_rank_witness :
  w_pack_shard scenario_config (mkPartition 1 0)
    (src_tensor float16 cpu [96%nat; 32%nat])
  = Ok (src_tensor float16 cpu [96%nat; 32%nat]).
Proof.
  apply (w_pack_single_rank scenario_config
           (src_tensor float16 cpu [96%nat; 32%nat])).
  - simpl. lia.
  - simpl. lia.
  - vm_compute. reflexivity.
Defined.

Lemma w_pack_view_fails_witness :
  w_pack_shard (mkConfig 32 5 16 "silu" 1 64 (Qmake 1 1000000))
    (mkPartition 1 0) (src_tensor float16 cpu [96%nat; 32%nat])
  = Raise (RuntimeError "shape is invalid for input size").
Proof.
  apply (proj2 (w_pack_view_fails
                  (mkConfig 32 5 16 "silu" 1 64 (Qmake 1 1000000))
                  (mkPartition 1 0) (src_tensor float16 cpu [96%nat; 32%nat])
                  ltac:(simpl; lia) ltac:(simpl; lia) ltac:(simpl; lia))).
  - vm_compute. discriminate.
  - vm_compute. reflexivity.
Defined.

Lemma w_pack_shard_qkv_blocks_witness :
  ∃ shard : Tensor sym,
    w_pack_shard scenario_config (mkPartition 2 1)
      (src_tensor float16 cpu [96%nat; 32%nat]) = Ok shard
    ∧ t_shape shard = [48%nat; 32%nat]
    ∧ t_data shard
      = t_data (rows_of (src_tensor float16 cpu [96%nat; 32%nat]) 16 16)
        ++ t_data (rows_of (src_tensor float16 cpu [96%nat; 32%nat]) 48 16)
        ++ t_data (rows_of (src_tensor float16 cpu [96%nat; 32%nat]) 80 16).
Proof.
  apply (w_pack_shard_qkv_blocks scenario_config (mkPartition 2 1)
           (src_tensor float16 cpu [96%nat; 32%nat])).
  - simpl. lia.
  - simpl. lia.
  - unfold partition_wf. simpl. lia.
  - reflexivity.
  - vm_compute. reflexivity.
Defined.

Lemma forward_cache_per_layer_witness :
  ∃ e,
    @BaiChuanBaseForCausalLM_forward spec_layers trace_runtime scenario_model
      ["ids"] ["positions"] [] tt None tt = Raise e
    ∧ (e = IndexError "list index out of range"
       ∨ ∃ callee, e = ExternalError callee).
Proof.
  apply (proj2 (@forward_cache_per_layer spec_layers trace_runtime
                  scenario_model ["ids"] ["positions"] [] tt None tt)).
  intros [Hkv _]. simpl in Hkv. lia.
Defined.

Lemma gate_and_up_share_destination_witness :
  py_replace "model.layers.0.mlp.gate_proj.weight" "gate_proj" "gate_up_proj"
  = "model.layers.0.mlp.gate_up_proj.weight"
  ∧ py_replace "model.layers.0.mlp.up_proj.weight" "up_proj" "gate_up_proj"
    = "model.layers.0.mlp.gate_up_proj.weight".
Proof.
  destruct (gate_and_up_share_destination "model.layers.0.mlp." ".weight")
    as (Hg & Hu & _); [reflexivity..|].
  split; [exact Hg | exact Hu].
Defined.

Lemma alibi_forward_ignores_positions_witness :
  @BaiChuanBaseForCausalLM_forward spec_layers trace_runtime
    scenario_model_alibi ["ids"] ["positions"] [([], [])] tt None tt
  = @BaiChuanBaseForCausalLM_forward spec_layers trace_runtime
      scenario_model_alibi ["ids"] ["other"; "positions"] [([], [])] tt None tt.
Proof.
  apply (@alibi_forward_ignores_positions spec_layers trace_runtime
           (mkPartition 2 0) scenario_config scenario_model_alibi).
  unfold Baichuan2ForCausalLM_init, BaiChuanBaseForCausalLM_init,
    BaichuanModel_init.
  cbn [external VocabParallelEmbedding spec_layers mbind result_mbind result_bind].
  change (seqZ 0 (num_hidden_layers scenario_config)) with [0].
  cbn [build_layers]. unfold BaichuanLayer_init, BaichuanAttention_init.
  cbn [hidden_size num_attention_heads scenario_config].
  change (py_mod 4 (tp_world_size (mkPartition 2 0))) with (@Ok Z 0).
  cbn [mbind result_mbind result_bind].
  unfold _get_alibi_slopes. rewrite (get_interleave_table 4) by lia.
  reflexivity.
Defined.
